(** * Airdump: capture, fingerprinting and store, verified against the code

    A shallow embedding of the parts of the airdump sources that the
    specification's claims are about, and of the code around them:

    - [Py]       the Python built-ins the sources rely on ([sorted], [set],
                 truthiness, [int(s, 16)], slices, [json.dumps]);
    - [SHA256]   [hashlib.sha256(...).hexdigest()] (FIPS 180-4);
    - [Wifi]     [fingerprinting/wifi_fingerprint.py];
    - [Kismet]   [scanners/kismet_controller.py];
    - [Gps]      [scanners/gps_logger.py];
    - [Store]    [core/models.py] and [core/database.py];
    - [Engine]   [fingerprinting/engine.py];
    - [Orchestrator]  the GPS handler of [scan_orchestrator.py].

    Every definition that embeds a source function carries the name of that
    function. *)

From Stdlib Require Import ZArith List String Ascii Bool Lia QArith.
From Stdlib Require Import DecimalString DecimalZ DecimalPos Permutation.
From Stdlib Require Floats.
From stdpp Require Import gmap strings sorting.
Import ListNotations.

Local Open Scope string_scope.
Local Open Scope list_scope.
Local Open Scope Z_scope.

#[local] Set Warnings "-register-all,-clear-no-such-hyp".

(* ===================================================================== *)
(** * Python built-ins *)
(* ===================================================================== *)

Module Py.

(** ** Orders used by [sorted] *)

(** Python compares [str] values by code point, which is [String.leb]. *)
Definition str_le (s t : string) : Prop := String.leb s t = true.

#[global] Instance str_le_dec : RelDecision str_le.
Proof. intros s t. unfold str_le. apply bool_eq_dec. Defined.

(** [sorted(xs)] for a list of [int]. *)
Definition sorted_int (l : list Z) : list Z := merge_sort Z.le l.

(** [sorted(xs)] for a list of [str]. *)
Definition sorted_str (l : list string) : list string := merge_sort str_le l.

(** [set(xs)] followed by an iteration that is sorted afterwards: the
    distinct elements of [xs]. *)
Definition set_str (l : list string) : list string := nodup string_dec l.

(** Truthiness of a [str]: the empty string is falsy. *)
Definition truthy_str (s : string) : bool := negb (s =? "")%string.

(** Truthiness of an [Optional[str]]: [None] and [""] are falsy. *)
Definition truthy_ostr (o : option string) : bool :=
  match o with Some s => truthy_str s | None => false end.

(** Truthiness of a list. *)
Definition truthy_list {A} (l : list A) : bool :=
  match l with [] => false | _ => true end.

(** [xs or []] for an optional list argument. *)
Definition or_empty {A} (o : option (list A)) : list A :=
  match o with Some l => l | None => [] end.

(** ** Slices *)

(** [l[start:]] with Python's treatment of a negative start. *)
Definition slice_from {A} (start : Z) (l : list A) : list A :=
  let n := Z.of_nat (List.length l) in
  if start <? 0 then drop (Z.to_nat (Z.max 0 (n + start))) l
  else drop (Z.to_nat start) l.

(** ** [str(int)] *)

Definition str_of_int (z : Z) : string := NilZero.string_of_int (Z.to_int z).

(** ** [int(s, 16)] *)

Definition hex_digit_val (c : ascii) : option Z :=
  let n := Z.of_N (N_of_ascii c) in
  if (48 <=? n) && (n <=? 57) then Some (n - 48)
  else if (97 <=? n) && (n <=? 102) then Some (n - 87)
  else if (65 <=? n) && (n <=? 70) then Some (n - 55)
  else None.

(** The digits of a hexadecimal literal; a single underscore may separate two
    digits.  [prev] tells whether the previous character was a digit. *)
Fixpoint hex_digits (s : string) (prev : bool) (acc : Z) : option Z :=
  match s with
  | EmptyString => if prev then Some acc else None
  | String c s' =>
      if (c =? "_")%char then
        if prev then
          match s' with
          | EmptyString => None
          | _ => hex_digits s' false acc
          end
        else None
      else
        match hex_digit_val c with
        | Some d => hex_digits s' true (16 * acc + d)
        | None => None
        end
  end.

(** The characters [int] skips at both ends of its argument: the white
    space of C below 127 (tab to carriage return, and the space), and the
    white space of Unicode from 127 on, which is NEL and the no-break space
    below 256.  The separators 28 to 31, which [str.strip] removes, are not
    among them. *)
Definition is_space (c : ascii) : bool :=
  let n := N_of_ascii c in
  ((9 <=? n) && (n <=? 13) || (n =? 32) || (n =? 133) || (n =? 160))%N.

Fixpoint lstrip (s : string) : string :=
  match s with
  | String c s' => if is_space c then lstrip s' else s
  | EmptyString => EmptyString
  end.

Fixpoint rstrip (s : string) : string :=
  match s with
  | EmptyString => EmptyString
  | String c s' =>
      match rstrip s' with
      | EmptyString => if is_space c then EmptyString else String c EmptyString
      | r => String c r
      end
  end.

(** The prefix [0x] or [0X] is optional, and one underscore may follow
    it. *)
Definition strip_0x (s : string) : string :=
  match s with
  | String "0"%char (String "x"%char (String "_"%char r)) => r
  | String "0"%char (String "X"%char (String "_"%char r)) => r
  | String "0"%char (String "x"%char r) => r
  | String "0"%char (String "X"%char r) => r
  | _ => s
  end.

(** [int(s, 16)] for a string of characters below 256: surrounding white
    space, a sign, the prefix, and hexadecimal digits with single
    underscores between them.  No character from 128 to 255 is a decimal
    digit.  [None] stands for [ValueError]. *)
Definition int16 (s : string) : option Z :=
  match rstrip (lstrip s) with
  | String "-"%char r => option_map Z.opp (hex_digits (strip_0x r) false 0)
  | String "+"%char r => hex_digits (strip_0x r) false 0
  | r => hex_digits (strip_0x r) false 0
  end.

(** ** JSON values and [json.dumps] *)

Inductive json : Type :=
| JNull
| JBool (b : bool)
| JInt (z : Z)
| JStr (s : string)
| JList (l : list json)
| JDict (d : list (string * json)).

Definition hex_char (d : Z) : ascii :=
  ascii_of_N (Z.to_N (if d <? 10 then 48 + d else 87 + d)).

(** [\uXXXX] for a code point below 256. *)
Definition u_escape (n : Z) : string :=
  "\u00" +:+ String (hex_char (n / 16)) (String (hex_char (n mod 16)) EmptyString).

(** One character of a string literal with [ensure_ascii=True]. *)
Definition escape_char (c : ascii) : string :=
  let n := Z.of_N (N_of_ascii c) in
  if n =? 34 then "\" +:+ String c EmptyString
  else if n =? 92 then "\\"
  else if n =? 10 then "\n"
  else if n =? 13 then "\r"
  else if n =? 9 then "\t"
  else if n =? 8 then "\b"
  else if n =? 12 then "\f"
  else if (32 <=? n) && (n <=? 126) then String c EmptyString
  else u_escape n.

Fixpoint escape (s : string) : string :=
  match s with
  | EmptyString => EmptyString
  | String c s' => escape_char c +:+ escape s'
  end.

Definition dquote : ascii := "034"%char.

Definition quote (s : string) : string :=
  String dquote (escape s +:+ String dquote EmptyString).

Definition join (sep : string) (l : list string) : string := String.concat sep l.

Definition key_le (a b : string * string) : Prop := str_le (fst a) (fst b).

#[global] Instance key_le_dec : RelDecision key_le.
Proof. intros a b. unfold key_le. apply _. Defined.

Definition dump_item (kv : string * string) : string :=
  quote (fst kv) +:+ ": " +:+ snd kv.

(** [json.dumps(j, sort_keys=sort_keys)] with the default separators. *)
Fixpoint dumps (sort_keys : bool) (j : json) : string :=
  match j with
  | JNull => "null"
  | JBool true => "true"
  | JBool false => "false"
  | JInt z => str_of_int z
  | JStr s => quote s
  | JList l => "[" +:+ join ", " (List.map (dumps sort_keys) l) +:+ "]"
  | JDict d =>
      let items :=
        List.map (fun kv => match kv with (k, v) => (k, dumps sort_keys v) end) d in
      let items := if sort_keys then merge_sort key_le items else items in
      "{" +:+ join ", " (List.map dump_item items) +:+ "}"
  end.

(** Truthiness of a JSON value, as Python reads it after [json.loads]. *)
Definition truthy_json (j : json) : bool :=
  match j with
  | JNull => false
  | JBool b => b
  | JInt z => negb (z =? 0)
  | JStr s => truthy_str s
  | JList l => truthy_list l
  | JDict d => truthy_list d
  end.

(** ** The orders are total orders, so [sorted] is canonical *)

Lemma ascii_compare_N (a b : ascii) :
  Ascii.compare a b = (N_of_ascii a ?= N_of_ascii b)%N.
Proof. reflexivity. Qed.

Lemma leb_cons c1 s1 c2 s2 :
  String.leb (String c1 s1) (String c2 s2) =
  match (N_of_ascii c1 ?= N_of_ascii c2)%N with
  | Lt => true
  | Eq => String.leb s1 s2
  | Gt => false
  end.
Proof.
  unfold String.leb. simpl. rewrite ascii_compare_N.
  now destruct (N_of_ascii c1 ?= N_of_ascii c2)%N.
Qed.

#[global] Instance str_le_trans : Transitive str_le.
Proof.
  unfold str_le. intros s1. induction s1 as [|c1 s1 IH]; intros s2 s3 H12 H23.
  - now destruct s3.
  - destruct s2 as [|c2 s2]; [discriminate|].
    destruct s3 as [|c3 s3]; [discriminate|].
    rewrite leb_cons in *.
    destruct (N.compare_spec (N_of_ascii c1) (N_of_ascii c2)) as [E12|L12|G12];
      try discriminate;
      destruct (N.compare_spec (N_of_ascii c2) (N_of_ascii c3)) as [E23|L23|G23];
      try discriminate;
      destruct (N.compare_spec (N_of_ascii c1) (N_of_ascii c3)) as [E13|L13|G13];
      try reflexivity; try lia.
    eapply IH; eassumption.
Qed.

#[global] Instance str_le_total : Total str_le.
Proof. intros s t. apply String.leb_total. Qed.

#[global] Instance str_le_antisym : AntiSymm (=) str_le.
Proof. intros s t H1 H2. now apply String.leb_antisym. Qed.

(** A permutation of the input does not change the result of [sorted]. *)
Lemma sorted_int_perm (l1 l2 : list Z) :
  l1 ≡ₚ l2 -> sorted_int l1 = sorted_int l2.
Proof.
  intros HP. unfold sorted_int.
  apply (Sorted_unique Z.le); try apply Sorted_merge_sort; try apply _.
  now rewrite !merge_sort_Permutation.
Qed.

Lemma sorted_str_perm (l1 l2 : list string) :
  l1 ≡ₚ l2 -> sorted_str l1 = sorted_str l2.
Proof.
  intros HP. unfold sorted_str.
  apply (Sorted_unique str_le); try apply Sorted_merge_sort; try apply _.
  now rewrite !merge_sort_Permutation.
Qed.

(** [sorted(set(xs))] depends on the elements of [xs] only. *)
Lemma sorted_set_str_ext (l1 l2 : list string) :
  (forall x, In x l1 <-> In x l2) ->
  sorted_str (set_str l1) = sorted_str (set_str l2).
Proof.
  intros H. apply sorted_str_perm. unfold set_str.
  apply NoDup_Permutation.
  - apply NoDup_ListNoDup, List.NoDup_nodup.
  - apply NoDup_ListNoDup, List.NoDup_nodup.
  - intros x. rewrite !list_elem_of_In, !List.nodup_In. apply H.
Qed.

(** ** [datetime] and [str.upper] *)

(** A [datetime] is represented by the text that [isoformat()] returns for
    it; a [datetime] object is always truthy. *)
Record datetime : Type := Datetime { isoformat : string }.

(** [ts or datetime.utcnow()]. *)
Definition or_now (ts : option datetime) (now : datetime) : datetime :=
  match ts with Some t => t | None => now end.

(** A [str] is the string of its code points, which are below 256. *)

(** [c.upper()] for one character: the letters [a] to [z] and the letters
    from 224 to 254 but the division sign have their capital 32 places
    below, and the capital of the sharp s (223) is [SS].  The capitals of
    the micro sign (181) and of the y with diaeresis (255) are the code
    points 924 and 376, which no string here holds: the two are kept, and
    [upper_fits] tells the strings without them. *)
Definition upper_char (c : ascii) : string :=
  let n := N_of_ascii c in
  if ((97 <=? n) && (n <=? 122))%N then String (ascii_of_N (n - 32)) EmptyString
  else if (n =? 223)%N then "SS"
  else if ((224 <=? n) && (n <=? 254) && negb (n =? 247))%N
  then String (ascii_of_N (n - 32)) EmptyString
  else String c EmptyString.

(** [s.upper()] *)
Fixpoint upper (s : string) : string :=
  match s with
  | EmptyString => EmptyString
  | String c s' => upper_char c +:+ upper s'
  end.

Lemma append_assoc (s t u : string) : s +:+ (t +:+ u) = (s +:+ t) +:+ u.
Proof.
  induction s as [|c s IH]; [reflexivity|].
  change (String c (s +:+ (t +:+ u)) = String c ((s +:+ t) +:+ u)). now rewrite IH.
Qed.

(** The capital of every character of [s] is a code point below 256. *)
Fixpoint upper_fits (s : string) : bool :=
  match s with
  | EmptyString => true
  | String c s' =>
      negb (N_of_ascii c =? 181)%N && negb (N_of_ascii c =? 255)%N && upper_fits s'
  end.

End Py.

(* ===================================================================== *)
(** * SHA-256 *)
(* ===================================================================== *)

(** [hashlib.sha256(data).hexdigest()], after FIPS 180-4.  Words are
    integers below [2^32]; bytes are integers below 256. *)

Module SHA256.

Definition wrap (x : Z) : Z := x mod 2 ^ 32.

Definition add32 (x y : Z) : Z := wrap (x + y).

Definition rotr (n x : Z) : Z :=
  Z.lor (Z.shiftr x n) (wrap (Z.shiftl x (32 - n))).

Definition not32 (x : Z) : Z := Z.lxor x (2 ^ 32 - 1).

Definition Ch (x y z : Z) : Z := Z.lxor (Z.land x y) (Z.land (not32 x) z).

Definition Maj (x y z : Z) : Z :=
  Z.lxor (Z.lxor (Z.land x y) (Z.land x z)) (Z.land y z).

Definition bsig0 (x : Z) : Z := Z.lxor (Z.lxor (rotr 2 x) (rotr 13 x)) (rotr 22 x).
Definition bsig1 (x : Z) : Z := Z.lxor (Z.lxor (rotr 6 x) (rotr 11 x)) (rotr 25 x).
Definition ssig0 (x : Z) : Z := Z.lxor (Z.lxor (rotr 7 x) (rotr 18 x)) (Z.shiftr x 3).
Definition ssig1 (x : Z) : Z := Z.lxor (Z.lxor (rotr 17 x) (rotr 19 x)) (Z.shiftr x 10).

(** The round constants: the fractional parts of the cube roots of the first
    64 primes. *)
Definition round_constants : list Z :=
  [ 1116352408; 1899447441; 3049323471; 3921009573;
    961987163; 1508970993; 2453635748; 2870763221;
    3624381080; 310598401; 607225278; 1426881987;
    1925078388; 2162078206; 2614888103; 3248222580;
    3835390401; 4022224774; 264347078; 604807628;
    770255983; 1249150122; 1555081692; 1996064986;
    2554220882; 2821834349; 2952996808; 3210313671;
    3336571891; 3584528711; 113926993; 338241895;
    666307205; 773529912; 1294757372; 1396182291;
    1695183700; 1986661051; 2177026350; 2456956037;
    2730485921; 2820302411; 3259730800; 3345764771;
    3516065817; 3600352804; 4094571909; 275423344;
    430227734; 506948616; 659060556; 883997877;
    958139571; 1322822218; 1537002063; 1747873779;
    1955562222; 2024104815; 2227730452; 2361852424;
    2428436474; 2756734187; 3204031479; 3329325298 ].

(** The eight working variables, also the chaining value. *)
Record regs : Type := Regs {
  ra : Z; rb : Z; rc : Z; rd : Z; re : Z; rf : Z; rg : Z; rh : Z }.

(** The initial hash value: the fractional parts of the square roots of the
    first 8 primes. *)
Definition initial_hash : regs :=
  Regs 1779033703 3144134277 1013904242 2773480762
       1359893119 2600822924 528734635 1541459225.

Definition nth_word (i : nat) (w : list Z) : Z := nth i w 0.

(** One round.  [w] is the window [W_t .. W_(t+15)] of the message schedule;
    the round consumes [W_t] and appends [W_(t+16)]. *)
Definition round (st : regs * list Z) (k : Z) : regs * list Z :=
  let '(r, w) := st in
  let wt := nth_word 0 w in
  let t1 := add32 (add32 (add32 (add32 (rh r) (bsig1 (re r))) (Ch (re r) (rf r) (rg r))) k) wt in
  let t2 := add32 (bsig0 (ra r)) (Maj (ra r) (rb r) (rc r)) in
  let next :=
    add32 (add32 (add32 (ssig1 (nth_word 14 w)) (nth_word 9 w)) (ssig0 (nth_word 1 w)))
          (nth_word 0 w) in
  (Regs (add32 t1 t2) (ra r) (rb r) (rc r) (add32 (rd r) t1) (re r) (rf r) (rg r),
   tl w ++ [next]).

Definition add_regs (x y : regs) : regs :=
  Regs (add32 (ra x) (ra y)) (add32 (rb x) (rb y)) (add32 (rc x) (rc y))
       (add32 (rd x) (rd y)) (add32 (re x) (re y)) (add32 (rf x) (rf y))
       (add32 (rg x) (rg y)) (add32 (rh x) (rh y)).

(** The compression function on one block of 16 words. *)
Definition compress (h : regs) (block : list Z) : regs :=
  add_regs h (fst (fold_left round round_constants (h, block))).

(** Big-endian words of a byte string whose length is a multiple of 4. *)
Fixpoint words_of_bytes (bs : list Z) : list Z :=
  match bs with
  | b0 :: b1 :: b2 :: b3 :: rest =>
      (((b0 * 256 + b1) * 256 + b2) * 256 + b3) :: words_of_bytes rest
  | _ => []
  end.

(** [n] bytes, big-endian, of [x]. *)
Fixpoint be_bytes (n : nat) (x : Z) : list Z :=
  match n with
  | O => []
  | S n' => be_bytes n' (x / 256) ++ [x mod 256]
  end.

(** Padding: a one bit, zeros up to 56 modulo 64, and the bit length on
    eight bytes. *)
Definition pad (msg : list Z) : list Z :=
  let len := Z.of_nat (List.length msg) in
  msg ++ [128] ++ repeat 0 (Z.to_nat ((55 - len) mod 64)) ++ be_bytes 8 (8 * len).

Fixpoint blocks (fuel : nat) (h : regs) (ws : list Z) : regs :=
  match fuel with
  | O => h
  | S fuel' =>
      match ws with
      | [] => h
      | _ => blocks fuel' (compress h (take 16 ws)) (drop 16 ws)
      end
  end.

Definition digest (msg : list Z) : regs :=
  let ws := words_of_bytes (pad msg) in
  blocks (List.length ws) initial_hash ws.

(** The digest read as one number of 256 bits. *)
Definition digest_number (msg : list Z) : Z :=
  let r := digest msg in
  fold_left (fun acc w => acc * 2 ^ 32 + w)
    [ra r; rb r; rc r; rd r; re r; rf r; rg r; rh r] 0.

Definition hex_digit (d : Z) : ascii := Py.hex_char (d mod 16).

(** The [n] low hexadecimal digits of [x], most significant first. *)
Fixpoint hex (n : nat) (x : Z) : string :=
  match n with
  | O => EmptyString
  | S n' => hex n' (x / 16) +:+ String (hex_digit x) EmptyString
  end.

Definition bytes_of_string (s : string) : list Z :=
  List.map (fun c => Z.of_N (N_of_ascii c)) (list_ascii_of_string s).

(** [hashlib.sha256(s.encode()).hexdigest()] for a string of ASCII
    characters, whose UTF-8 encoding is the string itself. *)
Definition hexdigest (s : string) : string :=
  hex 64 (digest_number (bytes_of_string s)).

(** ** Shape of the digest *)

Definition word_ok (x : Z) : Prop := 0 <= x < 2 ^ 32.

Definition regs_ok (r : regs) : Prop :=
  word_ok (ra r) /\ word_ok (rb r) /\ word_ok (rc r) /\ word_ok (rd r) /\
  word_ok (re r) /\ word_ok (rf r) /\ word_ok (rg r) /\ word_ok (rh r).

Lemma add32_ok x y : word_ok (add32 x y).
Proof. unfold word_ok, add32, wrap. apply Z.mod_pos_bound. reflexivity. Qed.

Lemma compress_ok h block : regs_ok (compress h block).
Proof.
  unfold compress. generalize (fst (fold_left round round_constants (h, block))).
  intros r. unfold add_regs, regs_ok. cbn [ra rb rc rd re rf rg rh].
  repeat split; apply add32_ok.
Qed.

Lemma initial_hash_ok : regs_ok initial_hash.
Proof. unfold regs_ok, word_ok, initial_hash. cbn [ra rb rc rd re rf rg rh]. lia. Qed.

Lemma blocks_ok fuel : forall h ws, regs_ok h -> regs_ok (blocks fuel h ws).
Proof.
  induction fuel as [|fuel IH]; intros h ws Hh; simpl; [exact Hh|].
  destruct ws as [|w ws']; [exact Hh|].
  apply IH, compress_ok.
Qed.

Lemma digest_ok msg : regs_ok (digest msg).
Proof. apply blocks_ok, initial_hash_ok. Qed.

(** The digest is a number of 256 bits. *)
Lemma digest_number_range msg : 0 <= digest_number msg < 2 ^ 256.
Proof.
  unfold digest_number.
  destruct (digest_ok msg) as (Ha & Hb & Hc & Hd & He & Hf & Hg & Hh).
  unfold word_ok in *. cbn [fold_left].
  change (2 ^ 32) with 4294967296 in *.
  change (2 ^ 256) with
    (4294967296 * (4294967296 * (4294967296 * (4294967296 *
     (4294967296 * (4294967296 * (4294967296 * 4294967296))))))).
  lia.
Qed.

Lemma length_append (s t : string) :
  String.length (s +:+ t) = (String.length s + String.length t)%nat.
Proof. induction s as [|c s IH]; simpl; [reflexivity|now rewrite IH]. Qed.

Lemma hex_length n : forall x, String.length (hex n x) = n.
Proof.
  induction n as [|n IH]; intros x; simpl; [reflexivity|].
  rewrite length_append, IH. simpl. lia.
Qed.

(** A character of [0-9a-f]. *)
Definition lower_hex (c : ascii) : bool :=
  let n := N_of_ascii c in
  ((48 <=? n) && (n <=? 57) || (97 <=? n) && (n <=? 102))%N.

Fixpoint all_chars (p : ascii -> bool) (s : string) : bool :=
  match s with
  | EmptyString => true
  | String c s' => p c && all_chars p s'
  end.

Lemma all_chars_append p s t :
  all_chars p (s +:+ t) = all_chars p s && all_chars p t.
Proof. induction s as [|c s IH]; simpl; [reflexivity|]. now rewrite IH, andb_assoc. Qed.

Lemma hex_digit_lower x : lower_hex (hex_digit x) = true.
Proof.
  unfold hex_digit.
  assert (H : 0 <= x mod 16 < 16) by (apply Z.mod_pos_bound; lia).
  set (d := x mod 16) in *.
  assert (Hd : d = 0 \/ d = 1 \/ d = 2 \/ d = 3 \/ d = 4 \/ d = 5 \/ d = 6 \/ d = 7 \/
               d = 8 \/ d = 9 \/ d = 10 \/ d = 11 \/ d = 12 \/ d = 13 \/ d = 14 \/
               d = 15) by lia.
  repeat (destruct Hd as [-> | Hd]; [reflexivity|]). now subst d; rewrite Hd.
Qed.

Lemma hex_lower n : forall x, all_chars lower_hex (hex n x) = true.
Proof.
  induction n as [|n IH]; intros x; simpl; [reflexivity|].
  rewrite all_chars_append, IH. simpl. now rewrite hex_digit_lower.
Qed.

Lemma hexdigest_shape s :
  String.length (hexdigest s) = 64%nat /\ all_chars lower_hex (hexdigest s) = true.
Proof. unfold hexdigest. split; [apply hex_length|apply hex_lower]. Qed.

(** ** Known answers *)

Example hexdigest_abc :
  hexdigest "abc" = "ba7816bf8f01cfea414140de5dae2223b00361a396177a9cb410ff61f20015ad".
Proof. vm_compute. reflexivity. Qed.

Example hexdigest_empty :
  hexdigest "" = "e3b0c44298fc1c149afbf4c8996fb92427ae41e4649b934ca495991b7852b855".
Proof. vm_compute. reflexivity. Qed.

(** ** Collisions exist *)

(** Whether [f] takes the value [v] at an index up to [n]. *)
Lemma bounded_search (f : nat -> Z) (v : Z) (n : nat) :
  (exists i, (i <= n)%nat /\ f i = v) \/ (forall i, (i <= n)%nat -> f i <> v).
Proof.
  induction n as [|n [[i [Hi Hf]]|IH]].
  - destruct (Z.eq_dec (f O) v) as [E|E].
    + left. exists O. split; [lia|exact E].
    + right. intros i Hi. assert (i = O) by lia. now subst.
  - left. exists i. split; [lia|exact Hf].
  - destruct (Z.eq_dec (f (S n)) v) as [E|E].
    + left. exists (S n). split; [lia|exact E].
    + right. intros i Hi. destruct (Nat.eq_dec i (S n)) as [->|Hne]; [exact E|].
      apply IH. lia.
Qed.

(** [n + 1] values below [n] cannot be pairwise distinct. *)
Lemma pigeonhole (n : nat) : forall f : nat -> Z,
  (forall i, (i <= n)%nat -> 0 <= f i < Z.of_nat n) ->
  exists i j, (i < j <= n)%nat /\ f i = f j.
Proof.
  induction n as [|n IH]; intros f Hf.
  - specialize (Hf O (Nat.le_refl _)). simpl in Hf. lia.
  - destruct (bounded_search f (f (S n)) n) as [[i [Hi E]]|Hne].
    + exists i, (S n). split; [lia|exact E].
    + set (v := f (S n)).
      assert (Hv : 0 <= v < Z.of_nat (S n)) by (apply Hf; lia).
      destruct (IH (fun i => if f i <? v then f i else f i - 1)) as (i & j & Hij & E).
      * intros i Hi. specialize (Hf i ltac:(lia)). specialize (Hne i Hi).
        fold v in Hne. destruct (Z.ltb_spec (f i) v); lia.
      * exists i, j. split; [lia|].
        pose proof (Hne i ltac:(lia)) as Hi'. pose proof (Hne j ltac:(lia)) as Hj'.
        fold v in Hi', Hj'. simpl in E.
        destruct (Z.ltb_spec (f i) v); destruct (Z.ltb_spec (f j) v); lia.
Qed.

(** Any family of messages indexed by the naturals contains two members
    with the same digest. *)
Lemma digest_collision (msg : nat -> string) :
  exists i j, i <> j /\ hexdigest (msg i) = hexdigest (msg j).
Proof.
  destruct (pigeonhole (Z.to_nat (2 ^ 256))
              (fun i => digest_number (bytes_of_string (msg i)))) as (i & j & Hij & E).
  - intros i _. rewrite Z2Nat.id by (apply Z.pow_nonneg; lia).
    apply digest_number_range.
  - exists i, j. split; [lia|]. unfold hexdigest. now rewrite E.
Qed.

End SHA256.

(* ===================================================================== *)
(** * Wi-Fi fingerprinting (fingerprinting/wifi_fingerprint.py) *)
(* ===================================================================== *)

Module Wifi.

(** A vendor-specific information element, a [Dict[str, Any]] of which the
    fingerprinter reads the keys [oui], [type] and [data]; [None] is an
    absent key.  The values are strings, as the capture parser emits them. *)
Record VendorIE : Type := {
  ie_oui : option string;
  ie_type : option string;
  ie_data : option string }.

(** [ie.get("oui", "")] *)
Definition get_oui (ie : VendorIE) : string :=
  match ie_oui ie with Some o => o | None => "" end.

Record WiFiCapabilities : Type := {
  supported_rates : list Z;
  extended_rates : list Z;
  ht_supported : bool;
  ht_capabilities : Z;
  ht_ampdu_params : Z;
  ht_mcs_set : string;
  vht_supported : bool;
  vht_capabilities : Z;
  vht_mcs_set : string;
  he_supported : bool;
  power_capability : Z * Z;
  vendor_ies : list VendorIE;
  wps_enabled : bool;
  wps_manufacturer : string;
  wps_model : string;
  wps_device_name : string }.

(** The dataclass defaults, with the three fields the constructor call of
    [extract_capabilities] sets. *)
Definition new_capabilities (sr er : list Z) (ies : list VendorIE) : WiFiCapabilities :=
  {| supported_rates := sr; extended_rates := er;
     ht_supported := false; ht_capabilities := 0; ht_ampdu_params := 0;
     ht_mcs_set := "";
     vht_supported := false; vht_capabilities := 0; vht_mcs_set := "";
     he_supported := false; power_capability := (0, 0);
     vendor_ies := ies;
     wps_enabled := false; wps_manufacturer := ""; wps_model := "";
     wps_device_name := "" |}.

Definition set_ht (c : WiFiCapabilities) (sup : bool) (v : Z) : WiFiCapabilities :=
  {| supported_rates := supported_rates c; extended_rates := extended_rates c;
     ht_supported := sup; ht_capabilities := v;
     ht_ampdu_params := ht_ampdu_params c; ht_mcs_set := ht_mcs_set c;
     vht_supported := vht_supported c; vht_capabilities := vht_capabilities c;
     vht_mcs_set := vht_mcs_set c; he_supported := he_supported c;
     power_capability := power_capability c; vendor_ies := vendor_ies c;
     wps_enabled := wps_enabled c; wps_manufacturer := wps_manufacturer c;
     wps_model := wps_model c; wps_device_name := wps_device_name c |}.

Definition set_vht (c : WiFiCapabilities) (sup : bool) (v : Z) : WiFiCapabilities :=
  {| supported_rates := supported_rates c; extended_rates := extended_rates c;
     ht_supported := ht_supported c; ht_capabilities := ht_capabilities c;
     ht_ampdu_params := ht_ampdu_params c; ht_mcs_set := ht_mcs_set c;
     vht_supported := sup; vht_capabilities := v;
     vht_mcs_set := vht_mcs_set c; he_supported := he_supported c;
     power_capability := power_capability c; vendor_ies := vendor_ies c;
     wps_enabled := wps_enabled c; wps_manufacturer := wps_manufacturer c;
     wps_model := wps_model c; wps_device_name := wps_device_name c |}.

Definition set_wps (c : WiFiCapabilities) (b : bool) : WiFiCapabilities :=
  {| supported_rates := supported_rates c; extended_rates := extended_rates c;
     ht_supported := ht_supported c; ht_capabilities := ht_capabilities c;
     ht_ampdu_params := ht_ampdu_params c; ht_mcs_set := ht_mcs_set c;
     vht_supported := vht_supported c; vht_capabilities := vht_capabilities c;
     vht_mcs_set := vht_mcs_set c; he_supported := he_supported c;
     power_capability := power_capability c; vendor_ies := vendor_ies c;
     wps_enabled := b; wps_manufacturer := wps_manufacturer c;
     wps_model := wps_model c; wps_device_name := wps_device_name c |}.

(** [if ht_capabilities: caps.ht_supported = True; try:
    caps.ht_capabilities = int(ht_capabilities, 16) except (ValueError,
    TypeError): pass] *)
Definition parse_ht (caps : WiFiCapabilities) (ht : option string) : WiFiCapabilities :=
  match ht with
  | Some h =>
      if Py.truthy_str h then
        set_ht caps true
          (match Py.int16 h with Some v => v | None => ht_capabilities caps end)
      else caps
  | None => caps
  end.

(** The same block for the VHT capabilities. *)
Definition parse_vht (caps : WiFiCapabilities) (vht : option string) : WiFiCapabilities :=
  match vht with
  | Some h =>
      if Py.truthy_str h then
        set_vht caps true
          (match Py.int16 h with Some v => v | None => vht_capabilities caps end)
      else caps
  | None => caps
  end.

(** The test of the loop over the vendor IEs. *)
Definition is_wps_ie (ie : VendorIE) : bool :=
  String.eqb (get_oui ie) "00:50:f2" &&
  match ie_type ie with Some t => String.eqb t "4" | None => false end.

(** [_parse_wps_attributes]: its body is [pass]. *)
Definition _parse_wps_attributes (caps : WiFiCapabilities) (data : string)
  : WiFiCapabilities := caps.

(** The loop [for ie in caps.vendor_ies] of [extract_capabilities]. *)
Fixpoint scan_vendor_ies (ies : list VendorIE) (caps : WiFiCapabilities)
  : WiFiCapabilities :=
  match ies with
  | [] => caps
  | ie :: rest =>
      if is_wps_ie ie then
        let data := match ie_data ie with Some d => d | None => "" end in
        scan_vendor_ies rest (_parse_wps_attributes (set_wps caps true) data)
      else scan_vendor_ies rest caps
  end.

Definition extract_capabilities
    (supported_rates extended_rates : option (list Z))
    (ht_capabilities vht_capabilities : option string)
    (vendor_ies : option (list VendorIE)) : WiFiCapabilities :=
  let caps := new_capabilities (Py.or_empty supported_rates)
                (Py.or_empty extended_rates) (Py.or_empty vendor_ies) in
  let caps := parse_ht caps ht_capabilities in
  let caps := parse_vht caps vht_capabilities in
  scan_vendor_ies (Wifi.vendor_ies caps) caps.

(** [sorted(set(ie.get("oui", "") for ie in vendor_ies if ie.get("oui")))] *)
Definition vendor_ouis (caps : WiFiCapabilities) : list string :=
  Py.sorted_str (Py.set_str
    (List.map get_oui (List.filter (fun ie => Py.truthy_ostr (ie_oui ie)) (vendor_ies caps)))).

(** [sorted(capabilities.supported_rates + capabilities.extended_rates)] *)
Definition rates (caps : WiFiCapabilities) : list Z :=
  Py.sorted_int (supported_rates caps ++ extended_rates caps).

(** [sorted(set(s for s in probe_ssids if s))], present only when the
    argument is a non-empty list. *)
Definition probe_part (probe_ssids : option (list string)) : option (list string) :=
  match probe_ssids with
  | Some l =>
      if Py.truthy_list l
      then Some (Py.sorted_str (Py.set_str (List.filter Py.truthy_str l)))
      else None
  | None => None
  end.

(** The [features] dictionary of [compute_fingerprint], in insertion order. *)
Definition features (caps : WiFiCapabilities) (probe_ssids : option (list string))
  : Py.json :=
  Py.JDict
    ([ ("rates", Py.JList (List.map Py.JInt (rates caps)));
       ("ht", Py.JBool (ht_supported caps));
       ("ht_caps", Py.JInt (ht_capabilities caps));
       ("vht", Py.JBool (vht_supported caps));
       ("vht_caps", Py.JInt (vht_capabilities caps));
       ("he", Py.JBool (he_supported caps));
       ("wps", Py.JBool (wps_enabled caps));
       ("vendor_ouis", Py.JList (List.map Py.JStr (vendor_ouis caps))) ]
     ++ match probe_part probe_ssids with
        | Some l => [ ("probe_ssids", Py.JList (List.map Py.JStr l)) ]
        | None => []
        end).

(** [json.dumps(features, sort_keys=True)] *)
Definition canonical (caps : WiFiCapabilities) (probe_ssids : option (list string))
  : string := Py.dumps true (features caps probe_ssids).

Definition compute_fingerprint (caps : WiFiCapabilities)
    (probe_ssids : option (list string)) : string :=
  SHA256.hexdigest (canonical caps probe_ssids).

(** ** Probe profiles *)

Record ProbeProfile : Type := {
  mac : string;
  probed_ssids : gset string;
  probe_count : Z;
  first_seen : option Py.datetime;
  last_seen : option Py.datetime;
  avg_probe_interval : Z;
  probe_burst_size : Z;
  capabilities : option WiFiCapabilities }.

(** [ProbeProfile(mac=mac)] *)
Definition new_profile (m : string) : ProbeProfile :=
  {| mac := m; probed_ssids := ∅; probe_count := 0;
     first_seen := None; last_seen := None;
     avg_probe_interval := 0; probe_burst_size := 0; capabilities := None |}.

Definition add_probe (p : ProbeProfile) (ssid : string) (timestamp : Py.datetime)
  : ProbeProfile :=
  {| mac := mac p;
     probed_ssids :=
       if Py.truthy_str ssid then {[ ssid ]} ∪ probed_ssids p else probed_ssids p;
     probe_count := probe_count p + 1;
     first_seen :=
       match first_seen p with None => Some timestamp | Some t => Some t end;
     last_seen := Some timestamp;
     avg_probe_interval := avg_probe_interval p;
     probe_burst_size := probe_burst_size p;
     capabilities := capabilities p |}.

Definition set_capabilities (p : ProbeProfile) (c : WiFiCapabilities) : ProbeProfile :=
  {| mac := mac p; probed_ssids := probed_ssids p; probe_count := probe_count p;
     first_seen := first_seen p; last_seen := last_seen p;
     avg_probe_interval := avg_probe_interval p;
     probe_burst_size := probe_burst_size p;
     capabilities := Some c |}.

(** The two dictionaries of a [WiFiFingerprinter]. *)
Record WiFiFingerprinter : Type := {
  _probe_profiles : gmap string ProbeProfile;
  _fingerprint_cache : gmap string string }.

(** [WiFiFingerprinter()] *)
Definition new_fingerprinter : WiFiFingerprinter :=
  {| _probe_profiles := ∅; _fingerprint_cache := ∅ |}.

(** Returns the fingerprint and the fingerprinter after the call; [now] is
    [datetime.utcnow()]. *)
Definition fingerprint_from_probe (self : WiFiFingerprinter)
    (mac ssid : string) (supported_rates : list Z)
    (ht_capabilities vht_capabilities : option string)
    (vendor_ies : option (list VendorIE))
    (timestamp : option Py.datetime) (now : Py.datetime)
  : string * WiFiFingerprinter :=
  let timestamp := Py.or_now timestamp now in
  let mac := Py.upper mac in
  let profile :=
    match _probe_profiles self !! mac with
    | Some p => p
    | None => new_profile mac
    end in
  let profile := add_probe profile ssid timestamp in
  let caps := extract_capabilities (Some supported_rates) None
                ht_capabilities vht_capabilities vendor_ies in
  let profile := set_capabilities profile caps in
  let fingerprint := compute_fingerprint caps (Some (elements (probed_ssids profile))) in
  (fingerprint,
   {| _probe_profiles := <[ mac := profile ]> (_probe_profiles self);
      _fingerprint_cache := <[ mac := fingerprint ]> (_fingerprint_cache self) |}).

Definition get_fingerprint (self : WiFiFingerprinter) (mac : string) : option string :=
  _fingerprint_cache self !! Py.upper mac.

(** [max(rates or [0])] *)
Definition max_rate (rates : list Z) : Z :=
  match rates with
  | [] => 0
  | r :: rest => fold_left Z.max rest r
  end.

Definition identify_device_type (c : WiFiCapabilities) : string :=
  let n := Z.of_nat (List.length (supported_rates c)) in
  if vht_supported c && ht_supported c && (8 <=? n) then "smartphone"
  else if vht_supported c && (3 <? Z.of_nat (List.length (vendor_ies c))) then "laptop"
  else if negb (ht_supported c) && (n <=? 4) then "iot"
  else if negb (ht_supported c) && existsb (Z.eqb 54) (supported_rates c)
  then "legacy_wifi_g"
  else if negb (ht_supported c) && (max_rate (supported_rates c) <=? 11)
  then "legacy_wifi_b"
  else "unknown".

(** [s.replace(c, "")] for a one-character [c]. *)
Fixpoint remove_char (c : ascii) (s : string) : string :=
  match s with
  | EmptyString => EmptyString
  | String d s' => if Ascii.eqb c d then remove_char c s' else String d (remove_char c s')
  end.

Definition is_likely_randomized_mac (mac : string) : bool :=
  let mac := remove_char "-" (remove_char ":" (Py.upper mac)) in
  if negb (Nat.eqb (String.length mac) 12) then false
  else
    match mac with
    | String _ (String c _) =>
        match Py.int16 (String c EmptyString) with
        | Some second_nibble => negb (Z.land second_nibble 2 =? 0)
        | None => false
        end
    | _ => false
    end.

(** The [capabilities] entry of the signature data. *)
Record CapabilitySummary : Type := {
  sig_supported_rates : list Z;
  sig_extended_rates : list Z;
  sig_ht_supported : bool;
  sig_ht_capabilities : Z;
  sig_vht_supported : bool;
  sig_vht_capabilities : Z;
  sig_wps_enabled : bool;
  sig_vendor_oui_count : Z }.

(** The dictionary [get_signature_data] returns; [None] is an absent key,
    except for the two timestamps where it is the value [None]. *)
Record SignatureData : Type := {
  sig_mac : string;
  sig_fingerprint_hash : string;
  sig_device_type : string;
  sig_first_seen : option string;
  sig_last_seen : option string;
  sig_capabilities : option CapabilitySummary;
  sig_inferred_device_type : option string;
  sig_probed_ssids : option (list string);
  sig_is_randomized_mac : bool }.

Definition summary (caps : WiFiCapabilities) : CapabilitySummary :=
  {| sig_supported_rates := supported_rates caps;
     sig_extended_rates := extended_rates caps;
     sig_ht_supported := ht_supported caps;
     sig_ht_capabilities := ht_capabilities caps;
     sig_vht_supported := vht_supported caps;
     sig_vht_capabilities := vht_capabilities caps;
     sig_wps_enabled := wps_enabled caps;
     sig_vendor_oui_count := Z.of_nat (List.length (vendor_ies caps)) |}.

Definition get_signature_data (self : WiFiFingerprinter) (mac : string)
    (include_probes : bool) : option SignatureData :=
  match _probe_profiles self !! Py.upper mac with
  | None => None
  | Some profile =>
      match _fingerprint_cache self !! Py.upper mac with
      | None => None
      | Some fingerprint =>
          if negb (Py.truthy_str fingerprint) then None
          else
            Some
              {| sig_mac := Py.upper mac;
                 sig_fingerprint_hash := fingerprint;
                 sig_device_type := "wifi";
                 sig_first_seen := option_map Py.isoformat (first_seen profile);
                 sig_last_seen := option_map Py.isoformat (last_seen profile);
                 sig_capabilities := option_map summary (capabilities profile);
                 sig_inferred_device_type :=
                   option_map identify_device_type (capabilities profile);
                 sig_probed_ssids :=
                   if include_probes && Py.truthy_list (elements (probed_ssids profile))
                   then Some (elements (probed_ssids profile)) else None;
                 sig_is_randomized_mac := is_likely_randomized_mac mac |}
      end
  end.

(** ** WPS detection *)

Lemma scan_vendor_ies_wps ies : forall caps,
  wps_enabled (scan_vendor_ies ies caps) = wps_enabled caps || existsb is_wps_ie ies.
Proof.
  induction ies as [|ie rest IH]; intros caps; simpl.
  - now rewrite orb_false_r.
  - destruct (is_wps_ie ie); rewrite IH; simpl.
    + now rewrite orb_true_r.
    + reflexivity.
Qed.

Lemma parse_ht_frame caps ht :
  wps_enabled (parse_ht caps ht) = wps_enabled caps /\
  vendor_ies (parse_ht caps ht) = vendor_ies caps.
Proof. unfold parse_ht. destruct ht as [h|]; [destruct (Py.truthy_str h)|]; now simpl. Qed.

Lemma parse_vht_frame caps vht :
  wps_enabled (parse_vht caps vht) = wps_enabled caps /\
  vendor_ies (parse_vht caps vht) = vendor_ies caps.
Proof. unfold parse_vht. destruct vht as [h|]; [destruct (Py.truthy_str h)|]; now simpl. Qed.

Lemma extract_capabilities_wps sr er ht vht ies :
  wps_enabled (extract_capabilities sr er ht vht ies)
  = existsb is_wps_ie (Py.or_empty ies).
Proof.
  unfold extract_capabilities.
  rewrite scan_vendor_ies_wps.
  destruct (parse_vht_frame (parse_ht (new_capabilities (Py.or_empty sr)
              (Py.or_empty er) (Py.or_empty ies)) ht) vht) as [-> ->].
  destruct (parse_ht_frame (new_capabilities (Py.or_empty sr)
              (Py.or_empty er) (Py.or_empty ies)) ht) as [-> ->].
  reflexivity.
Qed.

Lemma is_wps_ie_spec ie :
  is_wps_ie ie = true <-> get_oui ie = "00:50:f2" /\ ie_type ie = Some "4".
Proof.
  unfold is_wps_ie. rewrite andb_true_iff, String.eqb_eq.
  destruct (ie_type ie) as [t|].
  - rewrite String.eqb_eq. split; intros [H1 H2]; split; congruence.
  - split; intros [H1 H2]; discriminate.
Qed.

(** The probe of the specification's second scenario, and the vendor IE it
    adds, with the OUI in the two spellings. *)
Definition wps_ie (oui : string) : VendorIE :=
  {| ie_oui := Some oui; ie_type := Some "4"; ie_data := None |}.

Definition scenario_probe (self : WiFiFingerprinter)
    (ies : option (list VendorIE)) (ts : option Py.datetime) (now : Py.datetime)
  : string * WiFiFingerprinter :=
  fingerprint_from_probe self "AA:BB:CC:DD:EE:FF" "HomeWiFi" [6; 12; 24; 48]
    (Some "1234") None ies ts now.

(** The [wps_enabled] entry of the signature data of the scenario's MAC. *)
Definition scenario_wps (self : WiFiFingerprinter) : option bool :=
  match get_signature_data self "AA:BB:CC:DD:EE:FF" true with
  | Some d => option_map sig_wps_enabled (sig_capabilities d)
  | None => None
  end.

(** C5, as the code has it: [wps_enabled] is true exactly when some vendor
    IE has the OUI ["00:50:f2"], spelled in lower case, and the type ["4"];
    the scenario's probe, sent with that IE after two probes without it,
    yields a different fingerprint and [wps_enabled = true] in the
    signature data. *)
Theorem wps_enabled_iff_lowercase_oui :
  (forall sr er ht vht ies,
      wps_enabled (extract_capabilities sr er ht vht ies) = true <->
      exists ie, In ie (Py.or_empty ies) /\
                 get_oui ie = "00:50:f2" /\ ie_type ie = Some "4")
  /\ (forall ts now,
        let '(h1, f1) := scenario_probe new_fingerprinter None ts now in
        let '(h2, f2) := scenario_probe f1 None ts now in
        let '(h3, f3) := scenario_probe f2 (Some [wps_ie "00:50:f2"]) ts now in
        h1 = h2 /\ h3 <> h2 /\ scenario_wps f3 = Some true).
Proof.
  split.
  - intros sr er ht vht ies.
    rewrite extract_capabilities_wps, existsb_exists.
    split; intros [ie [Hin H]]; exists ie; split; auto; now apply is_wps_ie_spec.
  - intros ts now. vm_compute.
    split; [reflexivity|]. split; [discriminate|reflexivity].
Qed.

(** C5, as the specification words it, fails: with the OUI spelled
    ["00:50:F2"] the IE is present and [wps_enabled] stays false, in the
    extracted capabilities and in the signature data. *)
Lemma wps_uppercase_oui_not_detected :
  let ies := [wps_ie "00:50:F2"] in
  (exists ie, In ie ies /\ ie_oui ie = Some "00:50:F2" /\ ie_type ie = Some "4")
  /\ wps_enabled
       (extract_capabilities (Some [6; 12; 24; 48]) None (Some "1234") None (Some ies))
     = false
  /\ scenario_wps
       (snd (scenario_probe new_fingerprinter (Some ies) None
               (Py.Datetime "2025-12-25T12:00:00")))
     = Some false.
Proof.
  split; [|split].
  - exists (wps_ie "00:50:F2"). simpl. auto.
  - reflexivity.
  - vm_compute. reflexivity.
Qed.

(** ** The fingerprint and the canonical feature vector *)

(** Two observations whose feature vectors agree once rates, vendor OUIs and
    probed SSIDs are sorted. *)
Definition same_canonical_inputs (c1 c2 : WiFiCapabilities)
    (p1 p2 : option (list string)) : Prop :=
  rates c1 = rates c2 /\
  ht_supported c1 = ht_supported c2 /\
  ht_capabilities c1 = ht_capabilities c2 /\
  vht_supported c1 = vht_supported c2 /\
  vht_capabilities c1 = vht_capabilities c2 /\
  he_supported c1 = he_supported c2 /\
  wps_enabled c1 = wps_enabled c2 /\
  vendor_ouis c1 = vendor_ouis c2 /\
  probe_part p1 = probe_part p2.

Lemma map_JInt_inj (l1 l2 : list Z) :
  List.map Py.JInt l1 = List.map Py.JInt l2 -> l1 = l2.
Proof.
  revert l2. induction l1 as [|x l1 IH]; intros [|y l2] H; try discriminate.
  - reflexivity.
  - simpl in H. injection H as -> H. f_equal. now apply IH.
Qed.

Lemma map_JStr_inj (l1 l2 : list string) :
  List.map Py.JStr l1 = List.map Py.JStr l2 -> l1 = l2.
Proof.
  revert l2. induction l1 as [|x l1 IH]; intros [|y l2] H; try discriminate.
  - reflexivity.
  - simpl in H. injection H as -> H. f_equal. now apply IH.
Qed.

(** The [features] dictionaries are equal exactly when the sorted inputs
    are. *)
Lemma features_eq_iff c1 c2 p1 p2 :
  features c1 p1 = features c2 p2 <-> same_canonical_inputs c1 c2 p1 p2.
Proof.
  unfold same_canonical_inputs, features. split.
  - intros H. injection H as Hr Hht Hhc Hvht Hvc Hhe Hwps Ho Hp.
    apply map_JInt_inj in Hr. apply map_JStr_inj in Ho.
    repeat (split; [assumption|]).
    destruct (probe_part p1) as [l1|], (probe_part p2) as [l2|]; try discriminate.
    + injection Hp as Hp. apply map_JStr_inj in Hp. now subst.
    + reflexivity.
  - intros (-> & -> & -> & -> & -> & -> & -> & -> & ->). reflexivity.
Qed.

(** The canonical text, spelled out: the keys in lexicographic order, each
    followed by its value. *)
Definition bool_text (b : bool) : string := if b then "true" else "false".

Definition int_list_text (l : list Z) : string :=
  "[" +:+ Py.join ", " (List.map Py.str_of_int l) +:+ "]".

Definition str_list_text (l : list string) : string :=
  "[" +:+ Py.join ", " (List.map Py.quote l) +:+ "]".

Definition sorted_key_layout (c : WiFiCapabilities)
    (probe_ssids : option (list string)) : string :=
  "{" +:+ Py.join ", " (List.map Py.dump_item
    ([ ("he", bool_text (he_supported c));
       ("ht", bool_text (ht_supported c));
       ("ht_caps", Py.str_of_int (ht_capabilities c)) ]
     ++ match probe_part probe_ssids with
        | Some l => [ ("probe_ssids", str_list_text l) ]
        | None => []
        end
     ++ [ ("rates", int_list_text (rates c));
          ("vendor_ouis", str_list_text (vendor_ouis c));
          ("vht", bool_text (vht_supported c));
          ("vht_caps", Py.str_of_int (vht_capabilities c));
          ("wps", bool_text (wps_enabled c)) ])) +:+ "}".

Lemma dumps_bool b : Py.dumps true (Py.JBool b) = bool_text b.
Proof. now destruct b. Qed.

Lemma dumps_int_list l :
  Py.dumps true (Py.JList (List.map Py.JInt l)) = int_list_text l.
Proof.
  unfold int_list_text. cbn [Py.dumps]. do 2 f_equal.
  rewrite List.map_map. reflexivity.
Qed.

Lemma dumps_str_list l :
  Py.dumps true (Py.JList (List.map Py.JStr l)) = str_list_text l.
Proof.
  unfold str_list_text. cbn [Py.dumps]. do 2 f_equal.
  rewrite List.map_map. reflexivity.
Qed.

Lemma sort_items_without_probes (r ht hc vht vc he wps ouis : string) :
  merge_sort Py.key_le
    [ ("rates", r); ("ht", ht); ("ht_caps", hc); ("vht", vht); ("vht_caps", vc);
      ("he", he); ("wps", wps); ("vendor_ouis", ouis) ]
  = [ ("he", he); ("ht", ht); ("ht_caps", hc); ("rates", r);
      ("vendor_ouis", ouis); ("vht", vht); ("vht_caps", vc); ("wps", wps) ].
Proof. vm_compute. reflexivity. Qed.

Lemma sort_items_with_probes (r ht hc vht vc he wps ouis ps : string) :
  merge_sort Py.key_le
    [ ("rates", r); ("ht", ht); ("ht_caps", hc); ("vht", vht); ("vht_caps", vc);
      ("he", he); ("wps", wps); ("vendor_ouis", ouis); ("probe_ssids", ps) ]
  = [ ("he", he); ("ht", ht); ("ht_caps", hc); ("probe_ssids", ps); ("rates", r);
      ("vendor_ouis", ouis); ("vht", vht); ("vht_caps", vc); ("wps", wps) ].
Proof. vm_compute. reflexivity. Qed.

Lemma dumps_dict d :
  Py.dumps true (Py.JDict d) =
  "{" +:+ Py.join ", " (List.map Py.dump_item
    (merge_sort Py.key_le
       (List.map (fun kv => match kv with (k, v) => (k, Py.dumps true v) end) d)))
  +:+ "}".
Proof. reflexivity. Qed.

Lemma dumps_int z : Py.dumps true (Py.JInt z) = Py.str_of_int z.
Proof. reflexivity. Qed.

Lemma canonical_layout c p : canonical c p = sorted_key_layout c p.
Proof.
  unfold canonical, sorted_key_layout, features. rewrite dumps_dict.
  destruct (probe_part p) as [l|]; cbn [List.map app];
    rewrite !dumps_bool, !dumps_int, dumps_int_list, !dumps_str_list.
  - now rewrite sort_items_with_probes.
  - now rewrite sort_items_without_probes.
Qed.

Lemma rates_sorted c : StronglySorted Z.le (rates c).
Proof. apply StronglySorted_merge_sort; apply _. Qed.

Lemma vendor_ouis_sorted c :
  StronglySorted Py.str_le (vendor_ouis c) /\ List.NoDup (vendor_ouis c).
Proof.
  unfold vendor_ouis, Py.sorted_str. split.
  - apply StronglySorted_merge_sort; apply _.
  - apply NoDup_ListNoDup. rewrite merge_sort_Permutation.
    apply NoDup_ListNoDup, List.NoDup_nodup.
Qed.

Lemma probe_part_sorted p l :
  probe_part p = Some l ->
  StronglySorted Py.str_le l /\ List.NoDup l /\ ~ In "" l.
Proof.
  unfold probe_part. destruct p as [q|]; [|discriminate].
  destruct (Py.truthy_list q); [|discriminate].
  intros [= <-]. unfold Py.sorted_str, Py.set_str. repeat split.
  - apply StronglySorted_merge_sort; apply _.
  - apply NoDup_ListNoDup. rewrite merge_sort_Permutation.
    apply NoDup_ListNoDup, List.NoDup_nodup.
  - rewrite <- list_elem_of_In, merge_sort_Permutation, list_elem_of_In.
    rewrite List.nodup_In, List.filter_In. intros [_ H]. discriminate.
Qed.

(** *** The canonical text determines the feature vector *)

Lemma append_cons c (s t : string) : String c s +:+ t = String c (s +:+ t).
Proof. reflexivity. Qed.

Lemma prefix_inj (p a b : string) : p +:+ a = p +:+ b -> a = b.
Proof.
  induction p as [|c p IH]; [auto|]. rewrite !append_cons. intros [= H]. auto.
Qed.

(** A text whose characters all satisfy [P] ends where a character that
    does not satisfy it begins. *)
Definition starts_outside (P : ascii -> bool) (s : string) : bool :=
  match s with
  | EmptyString => true
  | String c _ => negb (P c)
  end.

Lemma token_split (P : ascii -> bool) (a : string) : forall a' s s',
  SHA256.all_chars P a = true -> SHA256.all_chars P a' = true ->
  starts_outside P s = true -> starts_outside P s' = true ->
  a +:+ s = a' +:+ s' -> a = a' /\ s = s'.
Proof.
  induction a as [|c a IH]; intros [|c' a'] s s' Ha Ha' Hs Hs' E.
  - auto.
  - rewrite append_cons in E. change ("" +:+ s) with s in E. subst s.
    cbn in Ha', Hs. apply andb_prop in Ha'. destruct Ha' as [Hc' _].
    now rewrite Hc' in Hs.
  - rewrite append_cons in E. change ("" +:+ s') with s' in E. subst s'.
    cbn in Ha, Hs'. apply andb_prop in Ha. destruct Ha as [Hc _].
    now rewrite Hc in Hs'.
  - rewrite !append_cons in E. injection E as -> E.
    cbn in Ha, Ha'. apply andb_prop in Ha, Ha'.
    destruct (IH a' s s' (proj2 Ha) (proj2 Ha') Hs Hs' E) as [-> ->]. auto.
Qed.

(** The characters of [str(int)]. *)
Definition int_char (c : ascii) : bool :=
  let n := N_of_ascii c in ((48 <=? n) && (n <=? 57) || (n =? 45))%N.

Lemma string_of_uint_chars d :
  SHA256.all_chars int_char (NilEmpty.string_of_uint d) = true.
Proof. induction d; cbn; auto. Qed.

Lemma str_of_int_chars z : SHA256.all_chars int_char (Py.str_of_int z) = true.
Proof.
  unfold Py.str_of_int, NilZero.string_of_int, NilZero.string_of_uint.
  destruct (Z.to_int z) as [d|d]; destruct d; try reflexivity;
    cbn [SHA256.all_chars]; try apply string_of_uint_chars;
    (apply (string_of_uint_chars (Decimal.D0 d))
     || apply (string_of_uint_chars (Decimal.D1 d))
     || apply (string_of_uint_chars (Decimal.D2 d))
     || apply (string_of_uint_chars (Decimal.D3 d))
     || apply (string_of_uint_chars (Decimal.D4 d))
     || apply (string_of_uint_chars (Decimal.D5 d))
     || apply (string_of_uint_chars (Decimal.D6 d))
     || apply (string_of_uint_chars (Decimal.D7 d))
     || apply (string_of_uint_chars (Decimal.D8 d))
     || apply (string_of_uint_chars (Decimal.D9 d))).
Qed.

Lemma str_of_int_head z :
  exists c s, Py.str_of_int z = String c s /\ int_char c = true.
Proof.
  pose proof (str_of_int_chars z) as H.
  assert (Hne : Py.str_of_int z <> EmptyString).
  { unfold Py.str_of_int, NilZero.string_of_int, NilZero.string_of_uint.
    destruct (Z.to_int z) as [d|d]; destruct d; discriminate. }
  destruct (Py.str_of_int z) as [|c s]; [congruence|].
  cbn in H. apply andb_prop in H. exists c, s. tauto.
Qed.

Lemma to_int_not_nil z :
  Z.to_int z <> Decimal.Pos Decimal.Nil /\ Z.to_int z <> Decimal.Neg Decimal.Nil.
Proof.
  destruct z as [|p|p]; cbn; split; try discriminate;
    intros [= E]; now apply Unsigned.to_uint_nonnil in E.
Qed.

Lemma str_of_int_inj z z' : Py.str_of_int z = Py.str_of_int z' -> z = z'.
Proof.
  unfold Py.str_of_int. intros E.
  apply DecimalZ.to_int_inj.
  assert (H : Some (Z.to_int z) = Some (Z.to_int z')).
  { rewrite <- (NilZero.isi (Z.to_int z)), <- (NilZero.isi (Z.to_int z'));
      try apply to_int_not_nil. now rewrite E. }
  now injection H.
Qed.

Lemma int_split z z' s s' :
  starts_outside int_char s = true -> starts_outside int_char s' = true ->
  Py.str_of_int z +:+ s = Py.str_of_int z' +:+ s' -> z = z' /\ s = s'.
Proof.
  intros Hs Hs' E.
  destruct (token_split int_char _ _ _ _ (str_of_int_chars z) (str_of_int_chars z')
              Hs Hs' E) as [Ez ->].
  split; [now apply str_of_int_inj|reflexivity].
Qed.

Lemma bool_split b b' s s' :
  bool_text b +:+ s = bool_text b' +:+ s' -> b = b' /\ s = s'.
Proof.
  destruct b, b'; cbn [bool_text]; intros E;
    try (apply prefix_inj in E; auto); discriminate E.
Qed.

(** The character that an escape sequence at the head of a text stands
    for, and the text after the sequence; none at a closing quote. *)
Definition hex_value (c : ascii) : N :=
  let n := N_of_ascii c in
  (if n <? 58 then n - 48 else n - 87)%N.

Definition unescape_head (s : string) : option (ascii * string) :=
  match s with
  | EmptyString => None
  | String c rest =>
      if Ascii.eqb c Py.dquote then None
      else if Ascii.eqb c "\"%char then
        match rest with
        | String e rest' =>
            if Ascii.eqb e "u"%char then
              match rest' with
              | String _ (String _ (String h (String l rest''))) =>
                  Some (ascii_of_N (16 * hex_value h + hex_value l), rest'')
              | _ => None
              end
            else if Ascii.eqb e "n"%char then Some ("010"%char, rest')
            else if Ascii.eqb e "r"%char then Some ("013"%char, rest')
            else if Ascii.eqb e "t"%char then Some ("009"%char, rest')
            else if Ascii.eqb e "b"%char then Some ("008"%char, rest')
            else if Ascii.eqb e "f"%char then Some ("012"%char, rest')
            else Some (e, rest')
        | EmptyString => None
        end
      else Some (c, rest)
  end.

Lemma unescape_escape_char c s :
  unescape_head (Py.escape_char c +:+ s) = Some (c, s).
Proof. destruct c as [[] [] [] [] [] [] [] []]; reflexivity. Qed.

Lemma escape_split s : forall s' t t',
  Py.escape s +:+ String Py.dquote t = Py.escape s' +:+ String Py.dquote t' ->
  s = s' /\ t = t'.
Proof.
  induction s as [|c s IH]; intros [|c' s'] t t' E; cbn [Py.escape] in E.
  - now injection E.
  - rewrite <- Py.append_assoc in E. apply (f_equal unescape_head) in E.
    rewrite unescape_escape_char in E. discriminate E.
  - rewrite <- Py.append_assoc in E. apply (f_equal unescape_head) in E.
    rewrite unescape_escape_char in E. discriminate E.
  - rewrite <- !Py.append_assoc in E. apply (f_equal unescape_head) in E.
    rewrite !unescape_escape_char in E. injection E as -> E.
    destruct (IH s' t t' E) as [-> ->]. auto.
Qed.

Lemma quote_split s s' t t' :
  Py.quote s +:+ t = Py.quote s' +:+ t' -> s = s' /\ t = t'.
Proof.
  unfold Py.quote. rewrite !append_cons, <- !Py.append_assoc. intros [= E].
  rewrite !append_cons in E. now apply escape_split in E.
Qed.

(** The items of a JSON array and what follows. *)
Definition array_text (items : list string) (rest : string) : string :=
  Py.join ", " items +:+ String "]" rest.

Lemma array_text_cons x items rest :
  array_text (x :: items) rest
  = x +:+ match items with
          | [] => String "]" rest
          | _ :: _ => ", " +:+ array_text items rest
          end.
Proof.
  unfold array_text, Py.join. destruct items as [|y items]; [reflexivity|].
  cbn [String.concat]. now rewrite <- !Py.append_assoc.
Qed.

Lemma str_array_split l : forall l' t t',
  array_text (List.map Py.quote l) t = array_text (List.map Py.quote l') t' ->
  l = l' /\ t = t'.
Proof.
  induction l as [|x l IH]; intros [|x' l'] t t' E.
  - now injection E.
  - cbn [List.map] in E. rewrite array_text_cons in E. discriminate E.
  - cbn [List.map] in E. rewrite array_text_cons in E. discriminate E.
  - cbn [List.map] in E. rewrite !array_text_cons in E.
    apply quote_split in E. destruct E as [-> E].
    destruct l as [|y l], l' as [|y' l']; cbn [List.map] in E.
    + now injection E as ->.
    + discriminate E.
    + discriminate E.
    + apply prefix_inj in E. destruct (IH (y' :: l') t t' E) as [-> ->]. auto.
Qed.

Lemma int_array_split l : forall l' t t',
  array_text (List.map Py.str_of_int l) t = array_text (List.map Py.str_of_int l') t' ->
  l = l' /\ t = t'.
Proof.
  assert (Hhead : forall z s t, String "]" t <> Py.str_of_int z +:+ s).
  { intros z s t E. destruct (str_of_int_head z) as (c & r & Ec & Hc).
    rewrite Ec, append_cons in E. injection E as <- _. discriminate Hc. }
  assert (Htail : forall (zs : list Z) t,
             starts_outside int_char
               match List.map Py.str_of_int zs with
               | [] => String "]" t
               | _ :: _ => ", " +:+ array_text (List.map Py.str_of_int zs) t
               end = true).
  { intros [|y zs] t; reflexivity. }
  induction l as [|x l IH]; intros [|x' l'] t t' E.
  - now injection E.
  - cbn [List.map] in E. rewrite array_text_cons in E. now apply Hhead in E.
  - cbn [List.map] in E. rewrite array_text_cons in E. symmetry in E.
    now apply Hhead in E.
  - cbn [List.map] in E. rewrite !array_text_cons in E.
    apply int_split in E; [|apply Htail..]. destruct E as [-> E].
    destruct l as [|y l], l' as [|y' l']; cbn [List.map] in E.
    + now injection E as ->.
    + discriminate E.
    + discriminate E.
    + apply prefix_inj in E. destruct (IH (y' :: l') t t' E) as [-> ->]. auto.
Qed.

(** The canonical text with its parts one after the other. *)
Definition rates_onwards (c : WiFiCapabilities) : string :=
  Py.quote "rates" +:+ ": [" +:+ array_text (List.map Py.str_of_int (rates c))
    (", " +:+ Py.quote "vendor_ouis" +:+ ": ["
     +:+ array_text (List.map Py.quote (vendor_ouis c))
       (", " +:+ Py.quote "vht" +:+ ": " +:+ bool_text (vht_supported c)
        +:+ ", " +:+ Py.quote "vht_caps" +:+ ": "
        +:+ Py.str_of_int (vht_capabilities c)
        +:+ ", " +:+ Py.quote "wps" +:+ ": " +:+ bool_text (wps_enabled c)
        +:+ "}")).

Definition layout_in_sequence (c : WiFiCapabilities) (p : option (list string))
  : string :=
  "{" +:+ Py.quote "he" +:+ ": " +:+ bool_text (he_supported c)
  +:+ ", " +:+ Py.quote "ht" +:+ ": " +:+ bool_text (ht_supported c)
  +:+ ", " +:+ Py.quote "ht_caps" +:+ ": " +:+ Py.str_of_int (ht_capabilities c)
  +:+ ", "
  +:+ match probe_part p with
      | Some l =>
          Py.quote "probe_ssids" +:+ ": ["
          +:+ array_text (List.map Py.quote l) (", " +:+ rates_onwards c)
      | None => rates_onwards c
      end.

Lemma layout_sequence c p : sorted_key_layout c p = layout_in_sequence c p.
Proof.
  unfold sorted_key_layout, layout_in_sequence, rates_onwards, array_text,
    int_list_text, str_list_text, Py.join, Py.dump_item.
  destruct (probe_part p) as [l|];
    cbn [List.map app String.concat fst snd];
    rewrite <- !Py.append_assoc; reflexivity.
Qed.

Lemma rates_onwards_inputs c1 c2 :
  rates_onwards c1 = rates_onwards c2 ->
  rates c1 = rates c2 /\ vendor_ouis c1 = vendor_ouis c2
  /\ vht_supported c1 = vht_supported c2
  /\ vht_capabilities c1 = vht_capabilities c2
  /\ wps_enabled c1 = wps_enabled c2.
Proof.
  unfold rates_onwards. intros E.
  apply prefix_inj in E. apply prefix_inj in E.
  apply int_array_split in E. destruct E as [Hr E].
  do 3 apply prefix_inj in E.
  apply str_array_split in E. destruct E as [Ho E].
  do 3 apply prefix_inj in E.
  apply bool_split in E. destruct E as [Hv E].
  do 3 apply prefix_inj in E.
  apply int_split in E; [|reflexivity..]. destruct E as [Hvc E].
  do 3 apply prefix_inj in E.
  apply bool_split in E. destruct E as [Hw _].
  auto.
Qed.

(** The canonical texts of two observations are the same text exactly
    when the observations agree after sorting. *)
Lemma canonical_eq_iff c1 c2 p1 p2 :
  canonical c1 p1 = canonical c2 p2 <-> same_canonical_inputs c1 c2 p1 p2.
Proof.
  split.
  - rewrite !canonical_layout, !layout_sequence. unfold layout_in_sequence.
    intros E.
    do 3 apply prefix_inj in E.
    apply bool_split in E. destruct E as [Hhe E].
    do 3 apply prefix_inj in E.
    apply bool_split in E. destruct E as [Hht E].
    do 3 apply prefix_inj in E.
    apply int_split in E; [|reflexivity..]. destruct E as [Hhc E].
    apply prefix_inj in E.
    assert (Hp : probe_part p1 = probe_part p2 /\ rates_onwards c1 = rates_onwards c2).
    { destruct (probe_part p1) as [l1|], (probe_part p2) as [l2|].
      - do 2 apply prefix_inj in E. apply str_array_split in E.
        destruct E as [-> E]. apply prefix_inj in E. auto.
      - unfold rates_onwards in E. apply quote_split in E.
        destruct E as [E _]. discriminate E.
      - unfold rates_onwards in E. apply quote_split in E.
        destruct E as [E _]. discriminate E.
      - auto. }
    destruct Hp as [Hp E'].
    destruct (rates_onwards_inputs c1 c2 E') as (Hr & Ho & Hv & Hvc & Hw).
    unfold same_canonical_inputs. auto 10.
  - intros H. apply features_eq_iff in H. unfold canonical. now rewrite H.
Qed.

(** Observations with the same canonical features have the same
    fingerprint. *)
Lemma same_features_same_fingerprint c1 c2 p1 p2 :
  features c1 p1 = features c2 p2 ->
  compute_fingerprint c1 p1 = compute_fingerprint c2 p2.
Proof. intros H. unfold compute_fingerprint, canonical. now rewrite H. Qed.

(** C7, as the code has it: the fingerprint is the SHA-256 digest of the
    feature vector serialised as JSON with its keys in lexicographic order;
    rates, vendor OUIs and probed SSIDs enter it sorted, the probed SSIDs
    only when a list that is not empty is passed, and then as the sorted
    set of those that are not empty; observations that agree after sorting
    get the same fingerprint; the fingerprint is 64 characters of [0-9a-f].
    The canonical text determines the feature vector: two observations
    have the same text exactly when they agree after sorting, so two
    observations with one fingerprint agree after sorting or their texts
    are two messages with one SHA-256 digest. *)
Theorem fingerprint_of_canonical_features :
  (forall c1 c2 p1 p2,
      same_canonical_inputs c1 c2 p1 p2 ->
      compute_fingerprint c1 p1 = compute_fingerprint c2 p2)
  /\ (forall c p,
        compute_fingerprint c p = SHA256.hexdigest (sorted_key_layout c p))
  /\ (forall c p,
        StronglySorted Z.le (rates c) /\
        StronglySorted Py.str_le (vendor_ouis c) /\
        (forall l, probe_part p = Some l -> StronglySorted Py.str_le l))
  /\ (forall c p,
        String.length (compute_fingerprint c p) = 64%nat /\
        SHA256.all_chars SHA256.lower_hex (compute_fingerprint c p) = true)
  /\ (probe_part None = None /\ probe_part (Some []) = None
      /\ forall s l,
           probe_part (Some (s :: l))
           = Some (Py.sorted_str (Py.set_str (List.filter Py.truthy_str (s :: l)))))
  /\ (forall c1 c2 p1 p2,
        sorted_key_layout c1 p1 = sorted_key_layout c2 p2 <->
        same_canonical_inputs c1 c2 p1 p2)
  /\ (forall c1 c2 p1 p2,
        compute_fingerprint c1 p1 = compute_fingerprint c2 p2 ->
        same_canonical_inputs c1 c2 p1 p2
        \/ (sorted_key_layout c1 p1 <> sorted_key_layout c2 p2
            /\ SHA256.hexdigest (sorted_key_layout c1 p1)
               = SHA256.hexdigest (sorted_key_layout c2 p2))).
Proof.
  split; [|split; [|split; [|split; [|split; [|split]]]]].
  - intros c1 c2 p1 p2 H. now apply same_features_same_fingerprint, features_eq_iff.
  - intros c p. unfold compute_fingerprint. now rewrite canonical_layout.
  - intros c p. split; [apply rates_sorted|]. split; [apply vendor_ouis_sorted|].
    intros l Hl. now apply probe_part_sorted in Hl.
  - intros c p. apply SHA256.hexdigest_shape.
  - repeat split.
  - intros c1 c2 p1 p2. rewrite <- !canonical_layout. apply canonical_eq_iff.
  - intros c1 c2 p1 p2 H. unfold compute_fingerprint in H.
    rewrite !canonical_layout in H.
    destruct (string_dec (sorted_key_layout c1 p1) (sorted_key_layout c2 p2)) as [E|E].
    + left. rewrite <- !canonical_layout in E. now apply canonical_eq_iff.
    + right. split; [exact E|exact H].
Qed.

(** Two observations of one device: the rates split differently between
    the supported and the extended list, the vendor IEs in another order
    and repeated, the probed SSIDs in another order with an empty one. *)
Definition observation_a : WiFiCapabilities :=
  extract_capabilities (Some [6; 12; 24]) (Some [48]) (Some "1234") None
    (Some [wps_ie "00:50:f2"; wps_ie "00:17:f2"]).

Definition observation_b : WiFiCapabilities :=
  set_wps
    (set_ht
       (new_capabilities [48; 6] [24; 12]
          [wps_ie "00:17:f2"; wps_ie "00:50:f2"; wps_ie "00:17:f2"])
       true 4660)
    true.

Lemma fingerprint_of_canonical_features_witness :
  same_canonical_inputs observation_a observation_b
    (Some ["Home"; "Guest"]) (Some ["Guest"; ""; "Home"; "Guest"])
  /\ compute_fingerprint observation_a (Some ["Home"; "Guest"])
     = compute_fingerprint observation_b (Some ["Guest"; ""; "Home"; "Guest"]).
Proof.
  assert (H : same_canonical_inputs observation_a observation_b
                (Some ["Home"; "Guest"]) (Some ["Guest"; ""; "Home"; "Guest"]))
    by (vm_compute; repeat split; reflexivity).
  split; [exact H|].
  exact (proj1 fingerprint_of_canonical_features _ _ _ _ H).
Defined.

(** X3: the order in which rates, vendor IEs and probed SSIDs are listed
    does not change the fingerprint. *)
Lemma fingerprint_order_independent c1 c2 p1 p2 :
  supported_rates c1 ++ extended_rates c1 ≡ₚ supported_rates c2 ++ extended_rates c2 ->
  vendor_ies c1 ≡ₚ vendor_ies c2 ->
  p1 ≡ₚ p2 ->
  ht_supported c1 = ht_supported c2 -> ht_capabilities c1 = ht_capabilities c2 ->
  vht_supported c1 = vht_supported c2 -> vht_capabilities c1 = vht_capabilities c2 ->
  he_supported c1 = he_supported c2 -> wps_enabled c1 = wps_enabled c2 ->
  compute_fingerprint c1 (Some p1) = compute_fingerprint c2 (Some p2).
Proof.
  intros Hr Hi Hp Hht Hhc Hvht Hvc Hhe Hwps.
  apply same_features_same_fingerprint, features_eq_iff.
  unfold same_canonical_inputs. repeat (split; [assumption|]).
  split; [now apply Py.sorted_int_perm|]. repeat (split; [assumption|]).
  split.
  - unfold vendor_ouis. apply Py.sorted_set_str_ext. intros x.
    rewrite !List.in_map_iff.
    split; intros (ie & E & Hin); exists ie; (split; [exact E|]);
      rewrite List.filter_In in *; destruct Hin as [Hin Ht]; (split; [|exact Ht]).
    + now apply (Permutation_in _ Hi).
    + now apply (Permutation_in _ (Permutation_sym Hi)).
  - unfold probe_part.
    assert (Py.truthy_list p1 = Py.truthy_list p2) as ->.
    { destruct p1, p2; try reflexivity.
      - now apply Permutation_nil_cons in Hp.
      - symmetry in Hp. now apply Permutation_nil_cons in Hp. }
    destruct (Py.truthy_list p2); [|reflexivity]. f_equal.
    apply Py.sorted_set_str_ext. intros x. rewrite !List.filter_In.
    split; intros [Hin Ht]; (split; [|exact Ht]).
    + now apply (Permutation_in _ Hp).
    + now apply (Permutation_in _ (Permutation_sym Hp)).
Qed.

Lemma fingerprint_order_independent_witness :
  compute_fingerprint
    (new_capabilities [6; 12; 24; 48] [] [wps_ie "00:17:f2"; wps_ie "00:50:f2"])
    (Some ["Home"; "Guest"])
  = compute_fingerprint
      (new_capabilities [48; 6] [24; 12] [wps_ie "00:50:f2"; wps_ie "00:17:f2"])
      (Some ["Guest"; "Home"]).
Proof.
  apply fingerprint_order_independent; try reflexivity.
  - cbn [supported_rates extended_rates new_capabilities app].
    apply NoDup_Permutation.
    + apply NoDup_ListNoDup. repeat constructor; cbn; intuition lia.
    + apply NoDup_ListNoDup. repeat constructor; cbn; intuition lia.
    + intros x. rewrite !list_elem_of_In. cbn. intuition lia.
  - cbn [vendor_ies new_capabilities]. apply perm_swap.
  - apply perm_swap.
Defined.

(** The feature vector as the specification lists it: the probed SSIDs are
    its optional last entry, the sorted set of those that are not
    empty. *)
Definition listed_feature_vector (c : WiFiCapabilities) (p : option (list string))
  : list Z * (bool * Z) * (bool * Z) * bool * bool * list string
    * option (list string) :=
  (rates c, (ht_supported c, ht_capabilities c),
   (vht_supported c, vht_capabilities c), he_supported c, wps_enabled c,
   vendor_ouis c,
   option_map (fun l => Py.sorted_str (Py.set_str (List.filter Py.truthy_str l))) p).

(** A probe request with the rates of 802.11b and no other element. *)
Definition plain_probe : WiFiCapabilities :=
  extract_capabilities (Some [2; 4; 11; 22]) None None None None.

(** The capabilities of a probe request with one rate. *)
Definition one_rate (i : nat) : WiFiCapabilities :=
  extract_capabilities (Some [Z.of_nat i]) None None None None.

(** C7, as the specification words it, fails in both directions.  The
    list of probed SSIDs that holds the empty SSID only and the empty list
    give one feature vector, with no SSID in its last entry, and two
    fingerprints: the first has the key [probe_ssids] in its canonical
    text and the second has not.  And a digest has 256 bits while there
    are more feature vectors than that, so two probe requests that differ
    in their one rate share a fingerprint. *)
Lemma same_feature_vector_two_fingerprints :
  listed_feature_vector plain_probe (Some [""])
  = listed_feature_vector plain_probe (Some [])
  /\ compute_fingerprint plain_probe (Some [""])
     = "241a0ed18335b04d58b39a0a17d2169fde0b0bd184e88108f2070226236f87c0"
  /\ compute_fingerprint plain_probe (Some [])
     = "e7bfacae95a961214689c8da5f9b700e1f0cbc35e188683c3ff18b9f0d875fcf"
  /\ compute_fingerprint plain_probe (Some [""])
     <> compute_fingerprint plain_probe (Some [])
  /\ (exists i j,
        i <> j
        /\ rates (one_rate i) <> rates (one_rate j)
        /\ compute_fingerprint (one_rate i) None
           = compute_fingerprint (one_rate j) None)
  /\ ~ (forall c1 c2 p1 p2,
          compute_fingerprint c1 p1 = compute_fingerprint c2 p2 <->
          same_canonical_inputs c1 c2 p1 p2).
Proof.
  assert (Hrate : forall i, rates (one_rate i) = [Z.of_nat i]) by reflexivity.
  assert (Hshared : exists i j,
             i <> j
             /\ rates (one_rate i) <> rates (one_rate j)
             /\ compute_fingerprint (one_rate i) None
                = compute_fingerprint (one_rate j) None).
  { destruct (SHA256.digest_collision (fun i => canonical (one_rate i) None))
      as (i & j & Hij & E).
    exists i, j. split; [exact Hij|]. split; [|exact E].
    rewrite !Hrate. intros [= H]. lia. }
  split; [reflexivity|]. split; [vm_compute; reflexivity|].
  split; [vm_compute; reflexivity|]. split; [vm_compute; discriminate|].
  split; [exact Hshared|].
  intros Hiff. destruct Hshared as (i & j & _ & Hr & E).
  apply Hiff in E. now destruct E as [E _].
Qed.

(** ** The fingerprint cache and the probe profiles *)

Definition get_probe_profile (self : WiFiFingerprinter) (mac : string)
  : option ProbeProfile :=
  _probe_profiles self !! Py.upper mac.

Definition clear_cache (self : WiFiFingerprinter) : WiFiFingerprinter :=
  {| _probe_profiles := ∅; _fingerprint_cache := ∅ |}.

(** A digest is never the empty string, so [if not fingerprint] does not
    fire on a cached one. *)
Lemma hexdigest_truthy s : Py.truthy_str (SHA256.hexdigest s) = true.
Proof.
  destruct (SHA256.hexdigest_shape s) as [H _]. unfold Py.truthy_str.
  destruct (SHA256.hexdigest s); [discriminate|reflexivity].
Qed.

(** X5: for MACs whose capitals are code points below 256, what
    [fingerprint_from_probe] returns is what the cache answers for the MAC
    in any spelling with the same [upper()], and the signature data of the
    MAC carries that fingerprint, the time of the probe and the
    capabilities of the probe; the entries of the MACs with another
    [upper()] are as they were. *)
Lemma cached_fingerprint_round_trip self mac ssid rates ht vht ies ts now :
  Py.upper_fits mac = true ->
  let caps := extract_capabilities (Some rates) None ht vht ies in
  let h := fst (fingerprint_from_probe self mac ssid rates ht vht ies ts now) in
  let self' := snd (fingerprint_from_probe self mac ssid rates ht vht ies ts now) in
  (forall mac',
     Py.upper_fits mac' = true -> Py.upper mac' = Py.upper mac ->
     get_fingerprint self' mac' = Some h
     /\ exists d,
          get_signature_data self' mac' true = Some d
          /\ sig_mac d = Py.upper mac
          /\ sig_fingerprint_hash d = h
          /\ sig_last_seen d = Some (Py.isoformat (Py.or_now ts now))
          /\ sig_capabilities d = Some (summary caps)
          /\ sig_inferred_device_type d = Some (identify_device_type caps))
  /\ (forall other,
        Py.upper_fits other = true -> Py.upper other <> Py.upper mac ->
        get_fingerprint self' other = get_fingerprint self other
        /\ get_probe_profile self' other = get_probe_profile self other
        /\ get_signature_data self' other true = get_signature_data self other true).
Proof.
  intros _. cbv zeta. unfold fingerprint_from_probe. cbn [fst snd]. split.
  - intros mac' _ E. unfold get_fingerprint, get_signature_data.
    cbn [_fingerprint_cache _probe_profiles]. rewrite E, !lookup_insert_eq.
    split; [reflexivity|].
    unfold compute_fingerprint at 1. rewrite hexdigest_truthy. cbn [negb].
    eexists. split; [reflexivity|].
    cbn [sig_mac sig_fingerprint_hash sig_last_seen sig_capabilities
         sig_inferred_device_type last_seen capabilities add_probe
         set_capabilities option_map].
    repeat split.
  - intros other _ Hne. unfold get_fingerprint, get_probe_profile, get_signature_data.
    cbn [_fingerprint_cache _probe_profiles].
    rewrite !lookup_insert_ne by congruence. auto.
Qed.

(** A MAC whose last character is an e with acute accent (233), looked up
    with the capital (201) in its place. *)
Definition accented_mac : string :=
  "aa:bb:cc:dd:ee:f" +:+ String (ascii_of_N 233) EmptyString.

Definition accented_capital_mac : string :=
  "AA:BB:CC:DD:EE:F" +:+ String (ascii_of_N 201) EmptyString.

Lemma cached_fingerprint_round_trip_witness :
  let polled :=
    fingerprint_from_probe new_fingerprinter accented_mac "HomeWiFi"
      [6; 12; 24; 48] (Some "1234") None None None
      (Py.Datetime "2025-12-25T12:00:00") in
  get_fingerprint (snd polled) accented_capital_mac = Some (fst polled)
  /\ get_fingerprint (snd polled) "11:22:33:44:55:66" = None.
Proof.
  cbv zeta.
  pose proof (cached_fingerprint_round_trip new_fingerprinter accented_mac
                "HomeWiFi" [6; 12; 24; 48] (Some "1234") None None None
                (Py.Datetime "2025-12-25T12:00:00") eq_refl) as H.
  cbv zeta in H. destruct H as [H1 H2]. split.
  - apply (H1 accented_capital_mac); reflexivity.
  - rewrite (proj1 (H2 "11:22:33:44:55:66" eq_refl ltac:(discriminate))).
    reflexivity.
Defined.

(** *** A sequence of probes *)

(** The arguments of one call of [fingerprint_from_probe], with the clock
    reading of the call. *)
Record probe : Type := {
  p_mac : string;
  p_ssid : string;
  p_rates : list Z;
  p_ht : option string;
  p_vht : option string;
  p_ies : option (list VendorIE);
  p_timestamp : option Py.datetime;
  p_now : Py.datetime }.

Definition observe (self : WiFiFingerprinter) (p : probe) : WiFiFingerprinter :=
  snd (fingerprint_from_probe self (p_mac p) (p_ssid p) (p_rates p)
         (p_ht p) (p_vht p) (p_ies p) (p_timestamp p) (p_now p)).

Definition probe_caps (p : probe) : WiFiCapabilities :=
  extract_capabilities (Some (p_rates p)) None (p_ht p) (p_vht p) (p_ies p).

Definition probe_time (p : probe) : Py.datetime :=
  Py.or_now (p_timestamp p) (p_now p).

(** The probes of the MAC whose upper-case spelling is [m]. *)
Definition probes_of (m : string) (probes : list probe) : list probe :=
  List.filter (fun p => String.eqb (Py.upper (p_mac p)) m) probes.

(** The SSIDs a list of probes asked for, the empty one left out. *)
Definition ssids_of (probes : list probe) : gset string :=
  list_to_set (List.filter Py.truthy_str (List.map p_ssid probes)).

(** The entries of one MAC in the two dictionaries after one of its
    probes. *)
Definition entry_step (m : string)
    (st : option ProbeProfile * option string) (p : probe)
  : option ProbeProfile * option string :=
  let profile :=
    set_capabilities
      (add_probe (default (new_profile m) (fst st)) (p_ssid p) (probe_time p))
      (probe_caps p) in
  (Some profile,
   Some (compute_fingerprint (probe_caps p)
           (Some (elements (probed_ssids profile))))).

Definition entry (self : WiFiFingerprinter) (m : string)
  : option ProbeProfile * option string :=
  (_probe_profiles self !! m, _fingerprint_cache self !! m).

Lemma observe_entry self p m :
  entry (observe self p) m
  = if String.eqb (Py.upper (p_mac p)) m then entry_step m (entry self m) p
    else entry self m.
Proof.
  unfold entry, observe, fingerprint_from_probe. cbn [snd _probe_profiles _fingerprint_cache].
  destruct (String.eqb_spec (Py.upper (p_mac p)) m) as [->|Hne].
  - rewrite !lookup_insert_eq. unfold entry_step. cbn [fst].
    unfold probe_time, probe_caps.
    destruct (_probe_profiles self !! Py.upper (p_mac p)); reflexivity.
  - now rewrite !lookup_insert_ne.
Qed.

Lemma observe_all_entry m probes : forall self,
  entry (fold_left observe probes self) m
  = fold_left (entry_step m) (probes_of m probes) (entry self m).
Proof.
  induction probes as [|p probes IH]; intros self; [reflexivity|].
  cbn [fold_left probes_of List.filter]. rewrite IH, observe_entry.
  fold (probes_of m probes).
  now destruct (String.eqb (Py.upper (p_mac p)) m).
Qed.

Lemma ssids_of_cons p probes :
  ssids_of (p :: probes)
  = (if Py.truthy_str (p_ssid p) then {[ p_ssid p ]} else ∅) ∪ ssids_of probes.
Proof.
  unfold ssids_of. cbn [List.map List.filter].
  destruct (Py.truthy_str (p_ssid p)); cbn [list_to_set]; [reflexivity|].
  apply leibniz_equiv. set_solver.
Qed.

Lemma entry_steps m before : forall st last,
  let start := default (new_profile m) (fst st) in
  exists profile,
    fold_left (entry_step m) (before ++ [last]) st
    = (Some profile,
       Some (compute_fingerprint (probe_caps last)
               (Some (elements (probed_ssids profile)))))
    /\ probe_count profile
       = probe_count start + Z.of_nat (List.length (before ++ [last]))
    /\ probed_ssids profile = probed_ssids start ∪ ssids_of (before ++ [last])
    /\ first_seen profile
       = match first_seen start with
         | Some t => Some t
         | None => option_map probe_time (List.hd_error (before ++ [last]))
         end
    /\ last_seen profile = Some (probe_time last)
    /\ capabilities profile = Some (probe_caps last).
Proof.
  induction before as [|p before IH]; intros st last; cbv zeta.
  - cbn [app fold_left]. eexists. split; [reflexivity|].
    cbn [set_capabilities add_probe probe_count probed_ssids first_seen last_seen
         capabilities List.length List.hd_error option_map].
    rewrite ssids_of_cons. unfold ssids_of. cbn [List.map List.filter list_to_set].
    repeat split.
    + destruct (Py.truthy_str (p_ssid last)); apply leibniz_equiv; set_solver.
  - cbn [app fold_left].
    destruct (IH (entry_step m st p) last) as (profile & -> & Hc & Hs & Hf & Hl & Hcap).
    exists profile. split; [reflexivity|].
    cbn [entry_step fst default from_option id set_capabilities add_probe
         probe_count probed_ssids first_seen] in Hc, Hs, Hf.
    repeat split; try assumption.
    + rewrite Hc. cbn [List.length]. lia.
    + rewrite Hs, ssids_of_cons.
      destruct (Py.truthy_str (p_ssid p)); apply leibniz_equiv; set_solver.
    + rewrite Hf. cbn [List.hd_error option_map].
      now destruct (first_seen (default (new_profile m) (fst st))).
Qed.

(** X6: after any sequence of probes fed to a new fingerprinter, whose
    MACs have their capitals below 256, the profile kept under [m] counts
    the probes of the MACs whose [upper()] is [m], holds the non-empty
    SSIDs they asked for, the times of the first and the last of them and
    the capabilities of the last one; the fingerprint cached under [m] is
    that of the last probe's capabilities with all the SSIDs of the
    profile. *)
Lemma profile_accumulates_probes (probes : list probe) (m : string)
    (before : list probe) (last : probe) :
  Forall (fun p => Py.upper_fits (p_mac p) = true) probes ->
  probes_of m probes = before ++ [last] ->
  let self := fold_left observe probes new_fingerprinter in
  exists profile,
    _probe_profiles self !! m = Some profile
    /\ probe_count profile = Z.of_nat (List.length (probes_of m probes))
    /\ probed_ssids profile = ssids_of (probes_of m probes)
    /\ first_seen profile
       = option_map probe_time (List.hd_error (probes_of m probes))
    /\ last_seen profile = Some (probe_time last)
    /\ capabilities profile = Some (probe_caps last)
    /\ _fingerprint_cache self !! m
       = Some (compute_fingerprint (probe_caps last)
                 (Some (elements (ssids_of (probes_of m probes))))).
Proof.
  intros _ Hmine. cbv zeta.
  pose proof (observe_all_entry m probes new_fingerprinter) as H.
  rewrite Hmine in *.
  destruct (entry_steps m before (entry new_fingerprinter m) last)
    as (profile & E & Hc & Hs & Hf & Hl & Hcap).
  rewrite E in H. unfold entry in H. injection H as Hp Hcache.
  exists profile.
  cbn [entry new_fingerprinter _probe_profiles fst] in Hc, Hs, Hf.
  rewrite lookup_empty in Hc, Hs, Hf.
  cbn [default from_option id new_profile probe_count probed_ssids first_seen]
    in Hc, Hs, Hf.
  assert (Hs' : probed_ssids profile = ssids_of (before ++ [last])).
  { rewrite Hs. apply leibniz_equiv. set_solver. }
  split; [exact Hp|]. split; [rewrite Hc; lia|]. split; [exact Hs'|].
  split; [exact Hf|]. split; [exact Hl|]. split; [exact Hcap|].
  rewrite Hcache, Hs'. reflexivity.
Qed.

(** Two probes of one MAC, in two spellings, around a probe of another. *)
Definition probe_of (mac ssid now : string) : probe :=
  {| p_mac := mac; p_ssid := ssid; p_rates := [6; 12; 24; 48];
     p_ht := Some "1234"; p_vht := None; p_ies := None;
     p_timestamp := None; p_now := Py.Datetime now |}.

Definition probe_sequence : list probe :=
  [ probe_of "aa:bb:cc:dd:ee:ff" "Home" "2025-12-25T12:00:00";
    probe_of "11:22:33:44:55:66" "Cafe" "2025-12-25T12:00:01";
    probe_of "AA:BB:CC:DD:EE:FF" "Guest" "2025-12-25T12:00:02" ].

Lemma profile_accumulates_probes_witness :
  exists profile,
    get_probe_profile (fold_left observe probe_sequence new_fingerprinter)
      "aa:bb:cc:dd:ee:ff" = Some profile
    /\ probe_count profile = 2
    /\ last_seen profile = Some (Py.Datetime "2025-12-25T12:00:02").
Proof.
  destruct (profile_accumulates_probes probe_sequence "AA:BB:CC:DD:EE:FF"
              [probe_of "aa:bb:cc:dd:ee:ff" "Home" "2025-12-25T12:00:00"]
              (probe_of "AA:BB:CC:DD:EE:FF" "Guest" "2025-12-25T12:00:02")
              ltac:(repeat constructor) eq_refl)
    as (profile & Hp & Hc & _ & _ & Hl & _).
  exists profile. split; [exact Hp|]. split; [exact Hc|exact Hl].
Defined.

(** ** Randomised MAC addresses *)

(** The MAC as [is_likely_randomized_mac] reads it: in upper case, the
    separators removed. *)
Definition bare_mac (mac : string) : string :=
  remove_char "-" (remove_char ":" (Py.upper mac)).

(** The hexadecimal digits whose bit of weight 2 is set. *)
Definition local_bit_digits : list ascii :=
  ["2"; "3"; "6"; "7"; "A"; "B"; "E"; "F"]%char.

Definition is_lower (c : ascii) : bool :=
  let n := N_of_ascii c in ((97 <=? n) && (n <=? 122))%N.

Lemma upper_char_not_lower c :
  SHA256.all_chars (fun c => negb (is_lower c)) (Py.upper_char c) = true.
Proof. destruct c as [[] [] [] [] [] [] [] []]; reflexivity. Qed.

Lemma upper_not_lower s :
  SHA256.all_chars (fun c => negb (is_lower c)) (Py.upper s) = true.
Proof.
  induction s as [|c s IH]; [reflexivity|].
  cbn [Py.upper]. now rewrite SHA256.all_chars_append, upper_char_not_lower, IH.
Qed.

Lemma remove_char_all p c s :
  SHA256.all_chars p s = true -> SHA256.all_chars p (remove_char c s) = true.
Proof.
  induction s as [|d s IH]; [reflexivity|]. cbn [remove_char SHA256.all_chars].
  intros H. apply andb_prop in H. destruct H as [Hd Hs].
  destruct (Ascii.eqb c d); [now apply IH|].
  cbn [SHA256.all_chars]. now rewrite Hd, IH.
Qed.

Lemma bare_mac_not_lower mac :
  SHA256.all_chars (fun c => negb (is_lower c)) (bare_mac mac) = true.
Proof. unfold bare_mac. do 2 apply remove_char_all. apply upper_not_lower. Qed.

(** [int(c, 16) & 0x02 != 0] for a one-character string, [False] when
    [int] raises. *)
Lemma second_nibble_bit c :
  match Py.int16 (String c EmptyString) with
  | Some n => negb (Z.land n 2 =? 0)
  | None => false
  end
  = existsb (Ascii.eqb c) local_bit_digits || (is_lower c && existsb (Ascii.eqb c) ["a"; "b"; "e"; "f"]%char).
Proof. destruct c as [[] [] [] [] [] [] [] []]; reflexivity. Qed.

(** X7: a MAC whose capitals are code points below 256 is reported as
    randomised exactly when, once put in upper case (where a sharp s
    becomes two characters) and stripped of [:] and [-], it has twelve
    characters and the second one is a hexadecimal digit with the
    locally-administered bit set; a MAC of any other length, or with
    another second character, is reported as not randomised and no
    exception escapes. *)
Lemma randomized_mac_iff mac :
  Py.upper_fits mac = true ->
  is_likely_randomized_mac mac = true <->
  String.length (bare_mac mac) = 12%nat
  /\ exists c0 c rest,
       bare_mac mac = String c0 (String c rest) /\ In c local_bit_digits.
Proof.
  intros _. unfold is_likely_randomized_mac. fold (bare_mac mac).
  pose proof (bare_mac_not_lower mac) as Hlow.
  destruct (Nat.eqb_spec (String.length (bare_mac mac)) 12) as [Hlen|Hlen];
    cbn [negb]; [|split; [discriminate|tauto]].
  destruct (bare_mac mac) as [|c0 [|c rest]]; try discriminate Hlen.
  rewrite second_nibble_bit.
  cbn [SHA256.all_chars] in Hlow.
  apply andb_prop in Hlow. destruct Hlow as [_ Hlow].
  apply andb_prop in Hlow. destruct Hlow as [Hc _].
  apply negb_true_iff in Hc. rewrite Hc. cbn [andb]. rewrite orb_false_r.
  rewrite existsb_exists. split.
  - intros (d & Hin & E). apply Ascii.eqb_eq in E. subst d.
    split; [exact Hlen|]. now exists c0, c, rest.
  - intros (_ & d0 & d & r & [= -> -> ->] & Hin).
    exists d. split; [exact Hin|apply Ascii.eqb_refl].
Qed.

(** Eleven characters, the third of them a sharp s: twelve once in upper
    case. *)
Definition sharp_s_mac : string :=
  "02" +:+ String (ascii_of_N 223) "00000000".

Lemma randomized_mac_iff_witness :
  is_likely_randomized_mac "da:a1:19:00:00:01" = true
  /\ String.length sharp_s_mac = 11%nat
  /\ is_likely_randomized_mac sharp_s_mac = true.
Proof.
  split; [|split; [reflexivity|]].
  - apply (proj2 (randomized_mac_iff "da:a1:19:00:00:01" eq_refl)).
    split; [reflexivity|].
    exists "D"%char, "A"%char, "A119000001". split; [reflexivity|].
    cbn. tauto.
  - apply (proj2 (randomized_mac_iff sharp_s_mac eq_refl)).
    split; [reflexivity|].
    exists "0"%char, "2"%char, "SS00000000". split; [reflexivity|].
    cbn. tauto.
Defined.

(** ** Grouping the randomised MACs *)

(** [groups], a dictionary in insertion order: [if fp not in groups:
    groups[fp] = []] and [groups[fp].append(mac)]. *)
Fixpoint add_to_group (fp mac : string) (groups : list (string * list string))
  : list (string * list string) :=
  match groups with
  | [] => [(fp, [mac])]
  | (k, macs) :: rest =>
      if String.eqb k fp then (k, macs ++ [mac]) :: rest
      else (k, macs) :: add_to_group fp mac rest
  end.

(** The body of the loop [for mac, fp in fingerprints.items()]. *)
Definition correlate_step (groups : list (string * list string))
    (item : string * string) : list (string * list string) :=
  let '(mac, fp) := item in
  if is_likely_randomized_mac mac then add_to_group fp mac groups else groups.

(** [fingerprints] is the items of the dictionary, in its order. *)
Definition correlate_randomized_macs (fingerprints : list (string * string))
  : list (string * list string) :=
  fold_left correlate_step fingerprints [].

(** [mac] is in the group of [fp]. *)
Definition grouped (groups : list (string * list string)) (fp mac : string) : Prop :=
  exists macs, In (fp, macs) groups /\ In mac macs.

(** What the loop keeps of [groups]: the keys are distinct and no group is
    empty. *)
Definition groups_ok (groups : list (string * list string)) : Prop :=
  List.NoDup (List.map fst groups) /\ Forall (fun g => snd g <> []) groups.

Lemma add_to_group_keys fp mac groups k :
  In k (List.map fst (add_to_group fp mac groups)) <->
  k = fp \/ In k (List.map fst groups).
Proof.
  induction groups as [|[k' macs] rest IH]; cbn [add_to_group List.map fst In].
  - intuition congruence.
  - destruct (String.eqb_spec k' fp) as [->|Hne]; cbn [List.map fst In].
    + intuition congruence.
    + rewrite IH. intuition congruence.
Qed.

Lemma add_to_group_ok fp mac groups :
  groups_ok groups -> groups_ok (add_to_group fp mac groups).
Proof.
  unfold groups_ok. induction groups as [|[k macs] rest IH]; intros [Hnd Hne].
  - cbn. split; [repeat constructor; auto|repeat constructor; discriminate].
  - cbn [add_to_group]. cbn [List.map fst] in Hnd.
    apply List.NoDup_cons_iff in Hnd. destruct Hnd as [Hk Hnd].
    apply Forall_cons_1 in Hne. destruct Hne as [Hm Hne].
    destruct (String.eqb_spec k fp) as [->|Hkfp].
    + split; [cbn; now constructor|].
      constructor; [|exact Hne]. cbn. now destruct macs.
    + destruct (IH (conj Hnd Hne)) as [Hnd' Hne'].
      split; [|now constructor].
      cbn [List.map fst]. constructor; [|exact Hnd'].
      rewrite add_to_group_keys. intros [->|Hin]; [congruence|contradiction].
Qed.

Lemma add_to_group_grouped fp mac groups fp' mac' :
  grouped (add_to_group fp mac groups) fp' mac' <->
  grouped groups fp' mac' \/ (fp' = fp /\ mac' = mac).
Proof.
  unfold grouped. induction groups as [|[k macs] rest IH]; cbn [add_to_group].
  - split.
    + intros (ms & [[= <- <-]|[]] & [->|[]]). now right.
    + intros [(ms & [] & _)|[-> ->]]. exists [mac]. cbn. auto.
  - destruct (String.eqb_spec k fp) as [->|Hkfp].
    + split.
      * intros (ms & [[= <- <-]|Hin] & Hm).
        -- apply List.in_app_or in Hm. destruct Hm as [Hm|[->|[]]].
           ++ left. exists macs. cbn. auto.
           ++ now right.
        -- left. exists ms. cbn. auto.
      * intros [(ms & [[= <- <-]|Hin] & Hm)|[-> ->]].
        -- exists (macs ++ [mac]). split; [now left|].
           apply List.in_or_app. now left.
        -- exists ms. split; [now right|exact Hm].
        -- exists (macs ++ [mac]). split; [now left|].
           apply List.in_or_app. right. now left.
    + split.
      * intros (ms & [[= <- <-]|Hin] & Hm).
        -- left. exists macs. cbn. auto.
        -- destruct (proj1 IH (ex_intro _ ms (conj Hin Hm))) as [(ms' & Hin' & Hm')|H].
           ++ left. exists ms'. cbn. auto.
           ++ now right.
      * intros [(ms & [[= <- <-]|Hin] & Hm)|H].
        -- exists macs. cbn. auto.
        -- destruct (proj2 IH (or_introl (ex_intro _ ms (conj Hin Hm))))
             as (ms' & Hin' & Hm').
           exists ms'. cbn. auto.
        -- destruct (proj2 IH (or_intror H)) as (ms' & Hin' & Hm').
           exists ms'. cbn. auto.
Qed.

Lemma correlate_fold items : forall groups,
  groups_ok groups ->
  groups_ok (fold_left correlate_step items groups)
  /\ forall fp mac,
       grouped (fold_left correlate_step items groups) fp mac <->
       grouped groups fp mac
       \/ (In (mac, fp) items /\ is_likely_randomized_mac mac = true).
Proof.
  induction items as [|[m f] items IH]; intros groups Hok.
  - cbn. split; [exact Hok|]. intros fp mac. tauto.
  - cbn [fold_left]. unfold correlate_step at 2 4.
    destruct (is_likely_randomized_mac m) eqn:Er.
    + destruct (IH _ (add_to_group_ok f m groups Hok)) as [Hok' Hg].
      split; [exact Hok'|]. intros fp mac. rewrite Hg, add_to_group_grouped.
      cbn [In]. split.
      * intros [[H|[-> ->]]|[Hin Hr]]; auto.
      * intros [H|[[[= -> ->]|Hin] Hr]]; auto.
    + destruct (IH _ Hok) as [Hok' Hg].
      split; [exact Hok'|]. intros fp mac. rewrite Hg. cbn [In]. split.
      * intros [H|[Hin Hr]]; auto.
      * intros [H|[[[= -> ->]|Hin] Hr]]; auto. congruence.
Qed.

(** X8: [correlate_randomized_macs] puts a MAC into the group of a
    fingerprint exactly when the dictionary maps the MAC to that
    fingerprint and the MAC is reported as randomised; the result has one
    group per fingerprint and no empty group, so a fingerprint seen with
    one randomised MAC only has a group of its own. *)
Lemma correlate_groups_randomized_macs fingerprints :
  (forall fp mac,
      grouped (correlate_randomized_macs fingerprints) fp mac <->
      In (mac, fp) fingerprints /\ is_likely_randomized_mac mac = true)
  /\ List.NoDup (List.map fst (correlate_randomized_macs fingerprints))
  /\ Forall (fun g => snd g <> []) (correlate_randomized_macs fingerprints).
Proof.
  unfold correlate_randomized_macs.
  destruct (correlate_fold fingerprints []) as [[Hnd Hne] Hg].
  { split; constructor. }
  split; [|split; assumption].
  intros fp mac. rewrite Hg. split; [|auto].
  intros [(ms & [] & _)|H]; exact H.
Qed.

(** ** What [extract_capabilities] fills in *)

Lemma scan_vendor_ies_result ies : forall caps,
  scan_vendor_ies ies caps
  = if existsb is_wps_ie ies then set_wps caps true else caps.
Proof.
  induction ies as [|ie ies IH]; intros caps; [reflexivity|].
  cbn [scan_vendor_ies existsb]. destruct (is_wps_ie ie); cbn [orb].
  - rewrite IH. unfold _parse_wps_attributes. now destruct (existsb is_wps_ie ies).
  - apply IH.
Qed.

(** [int(h, 16)] where it succeeds, and the default of the field, 0, where
    it raises [ValueError] or no string is given. *)
Definition parsed_or_zero (h : option string) : Z :=
  match h with
  | Some s => match Py.int16 s with Some v => v | None => 0 end
  | None => 0
  end.

(** X9: [extract_capabilities] stores the rates and the vendor IEs as they
    are given (an absent list as the empty one); HT and VHT are marked as
    supported exactly when a non-empty string is given for them, also when
    the string is no hexadecimal number, and the capability word is then
    left at 0; HE is never marked as supported. *)
Lemma extract_capabilities_fields sr er ht vht ies :
  let caps := extract_capabilities sr er ht vht ies in
  supported_rates caps = Py.or_empty sr
  /\ extended_rates caps = Py.or_empty er
  /\ vendor_ies caps = Py.or_empty ies
  /\ ht_supported caps = Py.truthy_ostr ht
  /\ ht_capabilities caps = parsed_or_zero ht
  /\ vht_supported caps = Py.truthy_ostr vht
  /\ vht_capabilities caps = parsed_or_zero vht
  /\ he_supported caps = false.
Proof.
  cbv zeta. unfold extract_capabilities. rewrite scan_vendor_ies_result.
  assert (Hht : forall c, ht_supported c = false -> ht_capabilities c = 0 ->
            ht_supported (parse_ht c ht) = Py.truthy_ostr ht
            /\ ht_capabilities (parse_ht c ht) = parsed_or_zero ht).
  { intros c H1 H2. unfold parse_ht, parsed_or_zero, Py.truthy_ostr.
    destruct ht as [h|]; [|auto].
    destruct h as [|a h]; [cbn; auto|].
    cbn [Py.truthy_str String.eqb negb set_ht ht_supported ht_capabilities].
    split; [reflexivity|]. now destruct (Py.int16 (String a h)). }
  assert (Hvht : forall c, vht_supported c = false -> vht_capabilities c = 0 ->
            vht_supported (parse_vht c vht) = Py.truthy_ostr vht
            /\ vht_capabilities (parse_vht c vht) = parsed_or_zero vht).
  { intros c H1 H2. unfold parse_vht, parsed_or_zero, Py.truthy_ostr.
    destruct vht as [h|]; [|auto].
    destruct h as [|a h]; [cbn; auto|].
    cbn [Py.truthy_str String.eqb negb set_vht vht_supported vht_capabilities].
    split; [reflexivity|]. now destruct (Py.int16 (String a h)). }
  set (c0 := new_capabilities (Py.or_empty sr) (Py.or_empty er) (Py.or_empty ies)).
  destruct (Hht c0 eq_refl eq_refl) as [Hh1 Hh2].
  assert (Hkeep_ht : forall c,
            supported_rates (parse_ht c ht) = supported_rates c
            /\ extended_rates (parse_ht c ht) = extended_rates c
            /\ vendor_ies (parse_ht c ht) = vendor_ies c
            /\ vht_supported (parse_ht c ht) = vht_supported c
            /\ vht_capabilities (parse_ht c ht) = vht_capabilities c
            /\ he_supported (parse_ht c ht) = he_supported c).
  { intros c. unfold parse_ht. destruct ht as [h|]; [|auto 10].
    destruct (Py.truthy_str h); cbn; auto 10. }
  assert (Hkeep_vht : forall c,
            supported_rates (parse_vht c vht) = supported_rates c
            /\ extended_rates (parse_vht c vht) = extended_rates c
            /\ vendor_ies (parse_vht c vht) = vendor_ies c
            /\ ht_supported (parse_vht c vht) = ht_supported c
            /\ ht_capabilities (parse_vht c vht) = ht_capabilities c
            /\ he_supported (parse_vht c vht) = he_supported c).
  { intros c. unfold parse_vht. destruct vht as [h|]; [|auto 10].
    destruct (Py.truthy_str h); cbn; auto 10. }
  destruct (Hkeep_ht c0) as (K1 & K2 & K3 & K4 & K5 & K6).
  destruct (Hkeep_vht (parse_ht c0 ht)) as (L1 & L2 & L3 & L4 & L5 & L6).
  destruct (Hvht (parse_ht c0 ht)) as [Hv1 Hv2];
    [now rewrite K4|now rewrite K5|].
  assert (Hgoal :
    let c := parse_vht (parse_ht c0 ht) vht in
    supported_rates c = Py.or_empty sr /\ extended_rates c = Py.or_empty er
    /\ vendor_ies c = Py.or_empty ies /\ ht_supported c = Py.truthy_ostr ht
    /\ ht_capabilities c = parsed_or_zero ht /\ vht_supported c = Py.truthy_ostr vht
    /\ vht_capabilities c = parsed_or_zero vht /\ he_supported c = false).
  { cbv zeta. rewrite L1, L2, L3, L4, L5, L6, K1, K2, K3, K6, Hh1, Hh2, Hv1, Hv2.
    repeat split. }
  cbv zeta in Hgoal.
  destruct (existsb is_wps_ie _); [|exact Hgoal].
  cbn [set_wps supported_rates extended_rates vendor_ies ht_supported
       ht_capabilities vht_supported vht_capabilities he_supported].
  exact Hgoal.
Qed.

(** The HT words of five strings: plain digits, a prefix and capitals,
    white space around the digits, a file separator (28) after them, which
    [int] does not strip, and no number at all. *)
Example ht_words :
  List.map (fun h => let caps := extract_capabilities None None (Some h) None None in
                     (ht_supported caps, ht_capabilities caps))
    [ "1f"; "0x1F"; String (ascii_of_N 160) (" 1f" +:+ String (ascii_of_N 10) "");
      "1f" +:+ String (ascii_of_N 28) ""; "zz" ]
  = [ (true, 31); (true, 31); (true, 31); (true, 0); (true, 0) ].
Proof. vm_compute. reflexivity. Qed.

(** ** The device-type heuristics *)

Lemma max_rate_bound rates b :
  max_rate rates <= b -> Forall (fun r => r <= b) rates.
Proof.
  destruct rates as [|r rest]; [constructor|]. cbn [max_rate].
  revert r. induction rest as [|x rest IH]; intros r H; cbn [fold_left] in H.
  - repeat constructor. exact H.
  - specialize (IH _ H). apply Forall_cons_1 in IH. destruct IH as [Hm Hrest].
    constructor; [lia|]. constructor; [lia|exact Hrest].
Qed.

(** X10: the gaps of [identify_device_type].  A device with HT and without
    VHT support is never classified; a device is taken for an 802.11b one
    only if it lists at least five rates, none above 11, so the four rates
    of 802.11b give "iot"; and without HT, VHT and rates the answer is
    "iot". *)
Lemma identify_device_type_gaps c :
  (ht_supported c = true -> vht_supported c = false ->
   identify_device_type c = "unknown")
  /\ (identify_device_type c = "legacy_wifi_b" ->
      ht_supported c = false
      /\ (5 <= List.length (supported_rates c))%nat
      /\ Forall (fun r => r <= 11) (supported_rates c))
  /\ (ht_supported c = false -> vht_supported c = false ->
      (List.length (supported_rates c) <= 4)%nat ->
      identify_device_type c = "iot").
Proof.
  unfold identify_device_type. split; [|split].
  - intros -> ->. reflexivity.
  - destruct (vht_supported c && ht_supported c && _); [discriminate|].
    destruct (vht_supported c && _); [discriminate|].
    destruct (ht_supported c); cbn [negb andb]; [discriminate|].
    destruct (Z.leb_spec (Z.of_nat (List.length (supported_rates c))) 4);
      [discriminate|].
    destruct (existsb (Z.eqb 54) (supported_rates c)); [discriminate|].
    destruct (Z.leb_spec (max_rate (supported_rates c)) 11); [|discriminate].
    intros _. split; [reflexivity|]. split; [lia|]. now apply max_rate_bound.
  - intros -> -> H. cbn [andb negb].
    destruct (Z.leb_spec (Z.of_nat (List.length (supported_rates c))) 4);
      [reflexivity|lia].
Qed.

Lemma identify_device_type_gaps_witness :
  identify_device_type
    (set_ht (new_capabilities [1; 2; 6; 11; 12; 24; 48; 54] [] []) true 4660)
  = "unknown"
  /\ identify_device_type (new_capabilities [1; 2; 5; 11] [] []) = "iot".
Proof.
  split.
  - apply (proj1 (identify_device_type_gaps _)); reflexivity.
  - apply (proj2 (proj2 (identify_device_type_gaps _)));
      [reflexivity|reflexivity|cbn; lia].
Defined.

End Wifi.

(* ===================================================================== *)
(** * The upstream device poller (scanners/kismet_controller.py) *)
(* ===================================================================== *)

Module Kismet.

(** ** Raw records *)

(** The value under ["dot11.device.probed_ssid_map"]: a list of entries,
    each with an optional ["dot11.probedssid.ssid"], or something that is
    not a list. *)
Inductive probe_map : Type :=
| ProbeList (ssids : list (option string))
| NotAList.

(** The dictionary under ["dot11.device"]; [None] is an absent key. *)
Record Dot11 : Type := {
  last_beaconed_ssid : option string;
  probed_ssid_map : option probe_map }.

(** A device object of the daemon's answer, with the keys [_parse_device]
    reads; [None] is an absent key. *)
Record RawDevice : Type := {
  base_macaddr : option string;
  base_type : option string;
  base_first_time : option Z;
  base_last_time : option Z;
  base_channel : option Z;
  base_frequency : option Z;
  base_last_signal : option Z;
  base_manuf : option string;
  base_packets_total : option Z;
  base_key : option string;
  base_name : option string;
  dot11_device : option Dot11 }.

(** A [datetime] of a [KismetDevice]: [datetime.fromtimestamp(t)], kept as
    [t], or the [datetime.utcnow()] read while parsing. *)
Inductive seen : Type :=
| FromTimestamp (t : Z)
| UtcNow (now : Py.datetime).

Record KismetDevice : Type := {
  mac : string;
  device_type : string;
  first_seen : seen;
  last_seen : seen;
  channel : Z;
  frequency : Z;
  rssi : Z;
  ssid : option string;
  encryption : option string;
  manufacturer : option string;
  probe_ssids : list string;
  bt_name : option string;
  bt_class : option Z;
  bt_type : option string;
  kismet_key : option string;
  packets : Z }.

(** [d.get(key, default)] *)
Definition get {A} (o : option A) (default : A) : A :=
  match o with Some v => v | None => default end.

(** [[p.get("dot11.probedssid.ssid", "") for p in probe_map
      if p.get("dot11.probedssid.ssid")]] *)
Definition probed (entries : list (option string)) : list string :=
  List.map (fun p => get p "") (List.filter Py.truthy_ostr entries).

(** ** The REST exchange *)

(** What the daemon sent back: nothing, an array of device objects, or
    bytes that [resp.json()] rejects. *)
Inductive content : Type :=
| NoContent
| DeviceArray (devices : list RawDevice)
| NotJson.

Record response : Type := { status_code : Z; body : content }.

(** The outcome of [self._session.get/post]. *)
Inductive exchange : Type :=
| ConnectionError
| Timeout
| OtherException
| Response (r : response).

(** The JSON body of the devices query. *)
Record request : Type := {
  req_fields : list string;
  req_regex : option string;
  req_last_time : option Z }.

(** What [_api_request] returns when it does not return [None]: [{}] for
    an empty answer, else the parsed array. *)
Inductive api_value : Type :=
| EmptyObject
| Devices (devices : list RawDevice).

(** [resp.raise_for_status()] raises for the client and server error
    codes. *)
Definition is_http_error (r : response) : bool :=
  (400 <=? status_code r) && (status_code r <? 600).

(** [x] is the outcome of the HTTP call the method makes. *)
Definition _api_request (method : string) (x : exchange) : option api_value :=
  if String.eqb method "GET" || String.eqb method "POST" then
    match x with
    | ConnectionError => None
    | Timeout => None
    | OtherException => None
    | Response r =>
        if is_http_error r then None
        else
          match body r with
          | NoContent => Some EmptyObject
          | DeviceArray l => Some (Devices l)
          | NotJson => None
          end
    end
  else None.

Definition device_fields : list string :=
  [ "kismet.device.base.macaddr"; "kismet.device.base.name";
    "kismet.device.base.type"; "kismet.device.base.first_time";
    "kismet.device.base.last_time"; "kismet.device.base.channel";
    "kismet.device.base.frequency";
    "kismet.device.base.signal/kismet.common.signal.last_signal";
    "kismet.device.base.manuf"; "kismet.device.base.packets.total";
    "kismet.device.base.key";
    "dot11.device/dot11.device.last_beaconed_ssid";
    "dot11.device/dot11.device.probed_ssid_map";
    "dot11.device/dot11.device.wpa_present_handshake" ].

(** [int(x)] for a float: truncation towards zero. *)
Definition int_of_float (x : Q) : Z := Z.quot (Qnum x) (Z.pos (Qden x)).

(** Truthiness of a float. *)
Definition truthy_float (x : Q) : bool := negb (Qnum x =? 0).

(** The body [get_devices] posts. *)
Definition devices_request (device_type : option string) (last_time : option Q)
  : request :=
  {| req_fields := device_fields;
     req_regex := if Py.truthy_ostr device_type then device_type else None;
     req_last_time :=
       match last_time with
       | Some t => if truthy_float t then Some (int_of_float t) else None
       | None => None
       end |}.

(** [daemon] is the capture daemon as the controller sees it: the outcome
    of the exchange for each request body. *)
Definition get_devices (daemon : request -> exchange)
    (device_type : option string) (last_time : option Q) : list RawDevice :=
  match _api_request "POST" (daemon (devices_request device_type last_time)) with
  | Some (Devices l) => l
  | Some EmptyObject => []
  | None => []
  end.

Record KismetController : Type := {
  _devices : gmap string KismetDevice;
  _last_poll_time : option Q }.

(** A call of every callback registered for new devices, or of every
    callback registered for updates; a callback that raises is logged and
    the loop goes on. *)
Inductive event : Type :=
| NewDevice (d : KismetDevice)
| DeviceUpdate (d : KismetDevice).

Definition event_device (e : event) : KismetDevice :=
  match e with NewDevice d => d | DeviceUpdate d => d end.





(** What a call of [_poll_devices] leaves: the controller, the calls of
    the callbacks in order, and whether an exception left the method (the
    polling loop catches and logs it). *)
Record poll : Type := {
  after : KismetController;
  announced : list event;
  raised : bool }.

Definition get_device (self : KismetController) (mac : string)
  : option KismetDevice :=
  _devices self !! Py.upper mac.

Definition clear_devices (self : KismetController) : KismetController :=
  {| _devices := ∅; _last_poll_time := None |}.

Definition is_new (e : event) : bool :=
  match e with NewDevice _ => true | DeviceUpdate _ => false end.

(** [self._devices.get(m) is not None] *)
Definition tracked (devices : gmap string KismetDevice) (m : string) : bool :=
  match devices !! m with Some _ => true | None => false end.

(** The MAC of a raw record, as [_parse_device] reads it. *)
Definition mac_of (raw : RawDevice) : string := get (base_macaddr raw) "00:00:00:00:00:00".

(** The body of the loop [for raw in raw_devices] after [_parse_device]
    has returned [device]. *)
Definition track (st : gmap string KismetDevice * list event) (device : KismetDevice)
  : gmap string KismetDevice * list event :=
  match fst st !! mac device with
  | None => (<[ mac device := device ]> (fst st), snd st ++ [NewDevice device])
  | Some _ => (<[ mac device := device ]> (fst st), snd st ++ [DeviceUpdate device])
  end.

(** The event a parsed record gives rise to, given the devices tracked
    before the poll and the records parsed before it in the answer. *)
Definition expected_event (devices : gmap string KismetDevice)
    (before : list KismetDevice) (d : KismetDevice) : event :=
  if tracked devices (mac d)
     || existsb (fun r => String.eqb (mac r) (mac d)) before
  then DeviceUpdate d
  else NewDevice d.

Definition count_new (events : list event) : nat :=
  List.length (List.filter is_new events).

(** *** The loop over parsed records *)

Lemma track_step devices events d :
  exists e,
    event_device e = d /\
    track (devices, events) d = (<[ mac d := d ]> devices, events ++ [e]).
Proof.
  unfold track. cbn [fst snd]. destruct (devices !! mac d).
  - now exists (DeviceUpdate d).
  - now exists (NewDevice d).
Qed.

Lemma track_events ds : forall devices events,
  List.map event_device (snd (fold_left track ds (devices, events)))
  = List.map event_device events ++ ds.
Proof.
  induction ds as [|d ds IH]; intros devices events; cbn [fold_left].
  - cbn [snd]. now rewrite app_nil_r.
  - destruct (track_step devices events d) as (e & He & ->).
    rewrite IH, List.map_app, <- app_assoc. cbn [List.map app]. now rewrite He.
Qed.

Lemma track_keeps ds : forall devices events m,
  is_Some (devices !! m) ->
  is_Some (fst (fold_left track ds (devices, events)) !! m).
Proof.
  induction ds as [|d ds IH]; intros devices events m Hm; cbn [fold_left];
    [exact Hm|].
  destruct (track_step devices events d) as (e & _ & ->).
  apply IH.
  destruct (decide (mac d = m)) as [->|Hne];
    [rewrite lookup_insert_eq; eauto | now rewrite lookup_insert_ne].
Qed.

Lemma track_stores ds : forall devices events d,
  In d ds ->
  is_Some (fst (fold_left track ds (devices, events)) !! mac d).
Proof.
  induction ds as [|r ds IH]; intros devices events d Hin; [contradiction|].
  cbn [fold_left].
  destruct (track_step devices events r) as (e & _ & ->).
  destruct Hin as [->|Hin].
  - apply track_keeps. rewrite lookup_insert_eq. eauto.
  - now apply IH.
Qed.

Lemma tracked_insert devices m d m' :
  tracked (<[ m := d ]> devices) m' = String.eqb m m' || tracked devices m'.
Proof.
  unfold tracked. destruct (String.eqb_spec m m') as [->|Hne].
  - now rewrite lookup_insert_eq.
  - now rewrite lookup_insert_ne.
Qed.

Lemma track_fold ds : forall devices events,
  exists evs,
    snd (fold_left track ds (devices, events)) = events ++ evs
    /\ (forall before d after,
          ds = before ++ d :: after ->
          nth_error evs (List.length before)
          = Some (expected_event devices before d))
    /\ size (fst (fold_left track ds (devices, events)))
       = (size devices + count_new evs)%nat.
Proof.
  induction ds as [|r ds IH]; intros devices events.
  - exists []. cbn. rewrite app_nil_r. repeat split; [|lia].
    intros [|? ?] ? ? H; discriminate H.
  - cbn [fold_left].
    set (e := if tracked devices (mac r) then DeviceUpdate r else NewDevice r).
    assert (Hstep : track (devices, events) r
                    = (<[ mac r := r ]> devices, events ++ [e])).
    { unfold track, e, tracked. cbn [fst snd]. now destruct (devices !! mac r). }
    rewrite Hstep.
    destruct (IH (<[ mac r := r ]> devices) (events ++ [e]))
      as (evs & Hsnd & Hnth & Hsize).
    exists (e :: evs). split; [|split].
    + rewrite Hsnd, <- app_assoc. reflexivity.
    + intros [|b before] d after Hsplit.
      * injection Hsplit as <- _. cbn [List.length nth_error].
        unfold expected_event. cbn [existsb]. rewrite orb_false_r. reflexivity.
      * injection Hsplit as <- Hsplit. cbn [List.length nth_error].
        rewrite (Hnth before d after Hsplit). unfold expected_event.
        rewrite tracked_insert. cbn [existsb].
        now rewrite (orb_comm (String.eqb (mac r) (mac d))), orb_assoc.
    + rewrite Hsize. unfold count_new. cbn [List.filter].
      unfold e, tracked. destruct (devices !! mac r) eqn:El; cbn [is_new List.length].
      * rewrite map_size_insert_Some by (rewrite El; eauto). reflexivity.
      * rewrite map_size_insert_None by exact El. lia.
Qed.

Lemma track_other m ds : forall devices events,
  (forall r, In r ds -> mac r <> m) ->
  fst (fold_left track ds (devices, events)) !! m = devices !! m.
Proof.
  induction ds as [|r ds IH]; intros devices events H; [reflexivity|].
  cbn [fold_left].
  destruct (track_step devices events r) as (e & _ & ->).
  rewrite IH by (intros r' Hr'; apply H; now right).
  apply lookup_insert_ne. apply H. now left.
Qed.

Lemma track_last before d after devices events :
  (forall r, In r after -> mac r <> mac d) ->
  fst (fold_left track (before ++ d :: after) (devices, events)) !! mac d = Some d.
Proof.
  intros H. rewrite fold_left_app. cbn [fold_left].
  destruct (fold_left track before (devices, events)) as [devices1 events1].
  destruct (track_step devices1 events1 d) as (e & _ & ->).
  rewrite track_other by exact H. apply lookup_insert_eq.
Qed.

Lemma upper_append s t : Py.upper (s +:+ t) = Py.upper s +:+ Py.upper t.
Proof.
  induction s as [|c s IH]; [reflexivity|].
  change (String c s +:+ t) with (String c (s +:+ t)).
  cbn [Py.upper]. rewrite IH. apply Py.append_assoc.
Qed.

Lemma upper_char_idempotent c : Py.upper (Py.upper_char c) = Py.upper_char c.
Proof. destruct c as [[] [] [] [] [] [] [] []]; reflexivity. Qed.

Lemma upper_idempotent s : Py.upper (Py.upper s) = Py.upper s.
Proof.
  induction s as [|c s IH]; [reflexivity|].
  cbn [Py.upper]. now rewrite upper_append, upper_char_idempotent, IH.
Qed.

(** ** Parsing and polling *)

Section Poller.

(** Whether [datetime.fromtimestamp] converts a timestamp: outside the
    range of the platform's [time_t] and [localtime], and of the years 1
    to 9999 in the local time zone, it raises [OverflowError], [OSError]
    or [ValueError]. *)
Context (fromtimestamp_ok : Z -> bool).

(** [datetime.fromtimestamp(t) if t else datetime.utcnow()]; [None] when
    the conversion raises. *)
Definition seen_of (t : Z) (utcnow : Py.datetime) : option seen :=
  if t =? 0 then Some (UtcNow utcnow)
  else if fromtimestamp_ok t then Some (FromTimestamp t)
  else None.

(** [None] when the method raises: the two conversions of the constructor
    call are all that can, and nothing has been changed by then. *)
Definition _parse_device (raw : RawDevice) (utcnow : Py.datetime)
  : option KismetDevice :=
  let mac := get (base_macaddr raw) "00:00:00:00:00:00" in
  let dev_type := get (base_type raw) "unknown" in
  let device_type :=
    if String.eqb dev_type "Wi-Fi Device" then "wifi"
    else if String.eqb dev_type "BR/EDR" || String.eqb dev_type "BTLE" then "bluetooth"
    else "unknown" in
  let first_time := get (base_first_time raw) 0 in
  let last_time := get (base_last_time raw) 0 in
  let is_wifi := String.eqb device_type "wifi" in
  let is_bt := negb is_wifi && String.eqb device_type "bluetooth" in
  let dot11 := get (dot11_device raw)
                 {| last_beaconed_ssid := None; probed_ssid_map := None |} in
  match seen_of first_time utcnow with
  | None => None
  | Some first_seen =>
      match seen_of last_time utcnow with
      | None => None
      | Some last_seen =>
          Some
            {| mac := mac;
               device_type := device_type;
               first_seen := first_seen;
               last_seen := last_seen;
               channel := get (base_channel raw) 0;
               frequency := get (base_frequency raw) 0;
               rssi := get (base_last_signal raw) (-100);
               ssid :=
                 if is_wifi then Some (get (last_beaconed_ssid dot11) "") else None;
               encryption := None;
               manufacturer := Some (get (base_manuf raw) "");
               probe_ssids :=
                 if is_wifi then
                   match get (probed_ssid_map dot11) (ProbeList []) with
                   | ProbeList entries => probed entries
                   | NotAList => []
                   end
                 else [];
               bt_name := if is_bt then Some (get (base_name raw) "") else None;
               bt_class := None;
               bt_type :=
                 if is_bt
                 then Some (if String.eqb dev_type "BTLE" then "ble" else "classic")
                 else None;
               kismet_key := Some (get (base_key raw) "");
               packets := get (base_packets_total raw) 0 |}
      end
  end.

(** The loop [for raw in raw_devices]: the devices and the calls so far,
    and whether [_parse_device] raised, which ends the loop with the
    records before stored and announced. *)
Fixpoint poll_loop (utcnow : Py.datetime) (raws : list RawDevice)
    (st : gmap string KismetDevice * list event)
  : (gmap string KismetDevice * list event) * bool :=
  match raws with
  | [] => (st, false)
  | raw :: rest =>
      match _parse_device raw utcnow with
      | Some device => poll_loop utcnow rest (track st device)
      | None => (st, true)
      end
  end.

(** [utcnow] is [datetime.utcnow()] and [now] is [time.time()]; the
    assignment to [_last_poll_time] is the last statement, which a raise
    in the loop does not reach. *)
Definition _poll_devices (self : KismetController) (daemon : request -> exchange)
    (utcnow : Py.datetime) (now : Q) : poll :=
  let raw_devices := get_devices daemon None (_last_poll_time self) in
  let looped := poll_loop utcnow raw_devices (_devices self, []) in
  {| after :=
       {| _devices := fst (fst looped);
          _last_poll_time :=
            if snd looped then _last_poll_time self else Some now |};
     announced := snd (fst looped);
     raised := snd looped |}.

(** The timestamps of a record are 0, absent or convertible. *)
Definition convertible (raw : RawDevice) : bool :=
  let ok t := (t =? 0) || fromtimestamp_ok t in
  ok (get (base_first_time raw) 0) && ok (get (base_last_time raw) 0).

(** The records of an answer that a poll gets to: those before the first
    one that [_parse_device] raises on, parsed. *)
Fixpoint parsed (utcnow : Py.datetime) (raws : list RawDevice) : list KismetDevice :=
  match raws with
  | [] => []
  | raw :: rest =>
      match _parse_device raw utcnow with
      | Some device => device :: parsed utcnow rest
      | None => []
      end
  end.

Lemma parse_device_convertible raw utcnow :
  convertible raw = true <-> is_Some (_parse_device raw utcnow).
Proof.
  unfold convertible, _parse_device, seen_of.
  destruct (get (base_first_time raw) 0 =? 0), (get (base_last_time raw) 0 =? 0);
    cbn [orb andb];
    try destruct (fromtimestamp_ok (get (base_first_time raw) 0));
    try destruct (fromtimestamp_ok (get (base_last_time raw) 0));
    cbn [andb]; split; intros H; try discriminate H; eauto;
    destruct H as [? H]; discriminate H.
Qed.

Lemma parse_device_mac raw utcnow d :
  _parse_device raw utcnow = Some d -> mac d = mac_of raw.
Proof.
  unfold _parse_device.
  destruct (seen_of _ utcnow); [|discriminate].
  destruct (seen_of _ utcnow); [|discriminate].
  now intros [= <-].
Qed.

Lemma poll_loop_parsed utcnow raws : forall st,
  fst (poll_loop utcnow raws st) = fold_left track (parsed utcnow raws) st
  /\ (snd (poll_loop utcnow raws st) = false <->
      Forall (fun raw => convertible raw = true) raws).
Proof.
  induction raws as [|raw raws IH]; intros st; cbn [poll_loop parsed].
  - split; [reflexivity|]. split; [constructor|reflexivity].
  - pose proof (parse_device_convertible raw utcnow) as Hc.
    destruct (_parse_device raw utcnow) as [d|].
    + cbn [fold_left]. destruct (IH (track st d)) as [-> Hs].
      split; [reflexivity|]. rewrite Hs. split.
      * intros H. constructor; [apply Hc; eauto|exact H].
      * intros H. now inversion H.
    + split; [reflexivity|]. cbn [snd]. split; [discriminate|].
      intros H. inversion H as [|? ? Hraw _]. apply Hc in Hraw.
      destruct Hraw as [? Hraw]. discriminate Hraw.
Qed.

Lemma parsed_all utcnow raws :
  Forall (fun raw => convertible raw = true) raws ->
  List.map Some (parsed utcnow raws)
  = List.map (fun raw => _parse_device raw utcnow) raws.
Proof.
  induction raws as [|raw raws IH]; intros H; [reflexivity|].
  inversion H as [|? ? Hraw Hrest]. cbn [parsed List.map].
  apply (parse_device_convertible raw utcnow) in Hraw. destruct Hraw as [d Hd].
  rewrite Hd. cbn [List.map]. now rewrite IH.
Qed.

Lemma parsed_prefix utcnow raws :
  exists rest,
    List.map Some (parsed utcnow raws) ++ rest
    = List.map (fun raw => _parse_device raw utcnow) raws.
Proof.
  induction raws as [|raw raws IH]; [now exists []|].
  cbn [parsed List.map]. destruct (_parse_device raw utcnow) as [d|].
  - destruct IH as [rest IH]. exists rest. cbn [List.map app]. now rewrite IH.
  - eexists. reflexivity.
Qed.

(** ** The cursor of the incremental poll *)

Lemma poll_raised self daemon utcnow now :
  raised (_poll_devices self daemon utcnow now) = false <->
  Forall (fun raw => convertible raw = true)
    (get_devices daemon None (_last_poll_time self)).
Proof. unfold _poll_devices. cbn [raised]. apply poll_loop_parsed. Qed.




(** ** The type mapping *)

Lemma poll_events self daemon utcnow now :
  List.map event_device (announced (_poll_devices self daemon utcnow now))
  = parsed utcnow (get_devices daemon None (_last_poll_time self)).
Proof.
  unfold _poll_devices. cbn [announced].
  rewrite (proj1 (poll_loop_parsed utcnow _ _)).
  now rewrite track_events.
Qed.

Lemma poll_stores self daemon utcnow now d :
  In d (parsed utcnow (get_devices daemon None (_last_poll_time self))) ->
  is_Some (_devices (after (_poll_devices self daemon utcnow now)) !! mac d).
Proof.
  intros Hin. unfold _poll_devices. cbn [after _devices].
  rewrite (proj1 (poll_loop_parsed utcnow _ _)).
  now apply track_stores.
Qed.

(** C6, as the code has it: a record is parsed when its two timestamps are
    0, absent or convertible (otherwise the conversion raises), and then
    the label ["Wi-Fi Device"] gives wifi, ["BR/EDR"] gives bluetooth with
    the type classic, ["BTLE"] gives bluetooth with the type ble, and
    every other label gives unknown, the labels ["Wi-Fi AP"] and
    ["Wi-Fi Client"] and a missing label among them.  Whatever its type, a
    parsed record is stored and handed to the callbacks, in the order of
    the answer: every record of an answer whose timestamps are
    convertible, and else the records before the first one that raises,
    which ends the poll. *)
Theorem type_mapping_of_parse_device :
  (forall raw utcnow,
      (convertible raw = true <-> is_Some (_parse_device raw utcnow))
      /\ forall d,
           _parse_device raw utcnow = Some d ->
           mac d = mac_of raw
           /\ (base_type raw = Some "Wi-Fi Device" ->
               device_type d = "wifi" /\ bt_type d = None)
           /\ (base_type raw = Some "BR/EDR" ->
               device_type d = "bluetooth" /\ bt_type d = Some "classic")
           /\ (base_type raw = Some "BTLE" ->
               device_type d = "bluetooth" /\ bt_type d = Some "ble")
           /\ (base_type raw <> Some "Wi-Fi Device" ->
               base_type raw <> Some "BR/EDR" ->
               base_type raw <> Some "BTLE" ->
               device_type d = "unknown" /\ bt_type d = None))
  /\ (forall self daemon utcnow now,
        let raws := get_devices daemon None (_last_poll_time self) in
        let p := _poll_devices self daemon utcnow now in
        List.map event_device (announced p) = parsed utcnow raws
        /\ (forall d, In d (parsed utcnow raws) ->
                      is_Some (_devices (after p) !! mac d))
        /\ (exists rest,
              List.map Some (parsed utcnow raws) ++ rest
              = List.map (fun raw => _parse_device raw utcnow) raws)
        /\ (raised p = false <-> Forall (fun raw => convertible raw = true) raws)
        /\ (Forall (fun raw => convertible raw = true) raws ->
            List.map Some (List.map event_device (announced p))
            = List.map (fun raw => _parse_device raw utcnow) raws)).
Proof.
  split.
  - intros raw utcnow. split; [apply parse_device_convertible|].
    intros d Hd. split; [exact (parse_device_mac raw utcnow d Hd)|].
    unfold _parse_device in Hd.
    destruct (seen_of _ utcnow); [|discriminate].
    destruct (seen_of _ utcnow); [|discriminate].
    injection Hd as <-. cbn [device_type bt_type].
    split; [|split; [|split]].
    + intros H. rewrite H. split; reflexivity.
    + intros H. rewrite H. split; reflexivity.
    + intros H. rewrite H. split; reflexivity.
    + intros H1 H2 H3.
      destruct (base_type raw) as [t|]; [|split; reflexivity]. cbn [get].
      destruct (String.eqb_spec t "Wi-Fi Device") as [->|_]; [congruence|].
      destruct (String.eqb_spec t "BR/EDR") as [->|_]; [congruence|].
      destruct (String.eqb_spec t "BTLE") as [->|_]; [congruence|].
      split; reflexivity.
  - intros self daemon utcnow now. cbv zeta.
    split; [apply poll_events|]. split; [intros d; apply poll_stores|].
    split; [apply parsed_prefix|]. split; [apply poll_raised|].
    intros H. rewrite poll_events. now apply parsed_all.
Qed.

(** ** New devices and updates *)

(** X11: a poll announces the records of the answer it gets to, which are
    all of them unless a timestamp cannot be converted.  Such a record is
    announced to the callbacks for new devices exactly when its MAC was
    not tracked before the poll and no earlier record of the same answer
    has it, and to the callbacks for updates otherwise; the number of
    tracked devices grows by the number of records announced as new. *)
Lemma poll_announces_new_devices_once self daemon utcnow now :
  let raws := get_devices daemon None (_last_poll_time self) in
  let p := _poll_devices self daemon utcnow now in
  (forall before d rest,
      parsed utcnow raws = before ++ d :: rest ->
      nth_error (announced p) (List.length before)
      = Some (expected_event (_devices self) before d))
  /\ List.length (announced p) = List.length (parsed utcnow raws)
  /\ (raised p = false -> List.length (announced p) = List.length raws)
  /\ size (_devices (after p))
     = (size (_devices self) + count_new (announced p))%nat.
Proof.
  cbv zeta.
  pose proof (poll_events self daemon utcnow now) as Hmap.
  pose proof (poll_raised self daemon utcnow now) as Hraised.
  unfold _poll_devices in *. cbn [announced after raised _devices] in *.
  rewrite (proj1 (poll_loop_parsed utcnow _ _)) in *.
  destruct (track_fold (parsed utcnow (get_devices daemon None (_last_poll_time self)))
              (_devices self) []) as (evs & Hsnd & Hnth & Hsize).
  cbn [app] in Hsnd. rewrite Hsnd in *.
  assert (Hlen : List.length evs
                 = List.length
                     (parsed utcnow (get_devices daemon None (_last_poll_time self)))).
  { apply (f_equal (@List.length _)) in Hmap.
    now rewrite List.length_map in Hmap. }
  split; [exact Hnth|]. split; [exact Hlen|]. split; [|exact Hsize].
  intros Hr. apply Hraised in Hr. rewrite Hlen.
  apply (parsed_all utcnow) in Hr. apply (f_equal (@List.length _)) in Hr.
  now rewrite !List.length_map in Hr.
Qed.

(** ** The record kept for a MAC *)

(** X12: after a poll the controller holds, for each MAC among the records
    the poll got to, the last of these records with that MAC, and what it
    held for the other MACs is as it was.  [get_device] puts its argument
    in upper case and the poll stores a record under the MAC as the daemon
    spelled it: for an argument whose capitals are code points below 256,
    a record is found by [get_device], in any spelling of the argument,
    when the daemon's spelling of its MAC is the [upper()] of the
    argument, and only keys that [upper()] leaves as they are are ever
    looked up. *)
Lemma poll_keeps_last_record self daemon utcnow now :
  let raws := get_devices daemon None (_last_poll_time self) in
  let p := _poll_devices self daemon utcnow now in
  (forall before d rest,
      parsed utcnow raws = before ++ d :: rest ->
      (forall r, In r rest -> mac r <> mac d) ->
      _devices (after p) !! mac d = Some d
      /\ forall m, Py.upper_fits m = true -> Py.upper m = mac d ->
                   get_device (after p) m = Some d)
  /\ (forall m, (forall d, In d (parsed utcnow raws) -> mac d <> m) ->
                _devices (after p) !! m = _devices self !! m)
  /\ (forall m, Py.upper_fits m = true ->
        exists key,
          Py.upper key = key /\ get_device (after p) m = _devices (after p) !! key).
Proof.
  cbv zeta. unfold _poll_devices. cbn [after _devices].
  rewrite (proj1 (poll_loop_parsed utcnow _ _)).
  split; [|split].
  - intros before d rest Hsplit Hrest.
    assert (H : fst (fold_left track
                       (parsed utcnow (get_devices daemon None (_last_poll_time self)))
                       (_devices self, [])) !! mac d = Some d).
    { rewrite Hsplit. now apply track_last. }
    split; [exact H|]. intros m _ Hm. unfold get_device. cbn [_devices].
    now rewrite Hm.
  - intros m Hm. now apply track_other.
  - intros m _. exists (Py.upper m). split; [apply upper_idempotent|reflexivity].
Qed.

End Poller.

(** ** Polls of a platform that converts the timestamps of the years 1970
       to 9999 *)

Definition unix_years (t : Z) : bool := (0 <=? t) && (t <? 253402300800).

(** A controller that polled at second 100, a daemon that cannot be
    reached, and a poll at second 200. *)
Definition polled_at_100 : KismetController :=
  {| _devices := ∅; _last_poll_time := Some (100 # 1)%Q |}.




(** The first two records of the test fixture [mock_kismet_devices]. *)
Definition fixture_ap : RawDevice :=
  {| base_macaddr := Some "AA:BB:CC:DD:EE:FF"; base_type := Some "Wi-Fi AP";
     base_first_time := Some 1735120000; base_last_time := Some 1735121000;
     base_channel := Some 6; base_frequency := None; base_last_signal := None;
     base_manuf := Some "Cisco"; base_packets_total := Some 1000;
     base_key := Some "wifi_key_001"; base_name := Some "TestAP";
     dot11_device := None |}.

Definition fixture_client : RawDevice :=
  {| base_macaddr := Some "11:22:33:44:55:66"; base_type := Some "Wi-Fi Client";
     base_first_time := Some 1735120500; base_last_time := Some 1735121000;
     base_channel := Some 1; base_frequency := None; base_last_signal := None;
     base_manuf := Some "Apple"; base_packets_total := Some 50;
     base_key := Some "wifi_key_002"; base_name := Some "";
     dot11_device := None |}.

Definition fixture_daemon (_ : request) : exchange :=
  Response {| status_code := 200; body := DeviceArray [fixture_ap; fixture_client] |}.

Definition fresh_controller : KismetController :=
  {| _devices := ∅; _last_poll_time := None |}.

Lemma type_mapping_of_parse_device_witness :
  let utcnow := Py.Datetime "2025-12-25T12:00:00" in
  let p := _poll_devices unix_years fresh_controller fixture_daemon utcnow
             (1735121001 # 1)%Q in
  (exists d,
      _parse_device unix_years fixture_ap utcnow = Some d
      /\ device_type d = "unknown" /\ bt_type d = None)
  /\ raised p = false
  /\ List.map Some (List.map event_device (announced p))
     = [_parse_device unix_years fixture_ap utcnow;
        _parse_device unix_years fixture_client utcnow].
Proof.
  cbv zeta.
  destruct (type_mapping_of_parse_device unix_years) as [Hmap Hpoll].
  assert (Hall : Forall (fun raw => convertible unix_years raw = true)
                   [fixture_ap; fixture_client]) by (repeat constructor).
  split; [|split].
  - destruct (Hmap fixture_ap (Py.Datetime "2025-12-25T12:00:00")) as [Hc Hd].
    destruct (proj1 Hc eq_refl) as [d E]. exists d. split; [exact E|].
    apply (Hd d E); discriminate.
  - apply (Hpoll fresh_controller fixture_daemon). exact Hall.
  - apply (Hpoll fresh_controller fixture_daemon). exact Hall.
Defined.

(** C6, as the specification words it, fails: the labels ["Wi-Fi AP"] and
    ["Wi-Fi Client"] do not give wifi. *)
Lemma wifi_ap_and_client_are_unknown :
  let utcnow := Py.Datetime "2025-12-25T12:00:00" in
  base_type fixture_ap = Some "Wi-Fi AP"
  /\ option_map device_type (_parse_device unix_years fixture_ap utcnow)
     = Some "unknown"
  /\ option_map device_type (_parse_device unix_years fixture_ap utcnow)
     <> Some "wifi"
  /\ base_type fixture_client = Some "Wi-Fi Client"
  /\ option_map device_type (_parse_device unix_years fixture_client utcnow)
     = Some "unknown"
  /\ option_map device_type (_parse_device unix_years fixture_client utcnow)
     <> Some "wifi".
Proof. cbv zeta. repeat split; discriminate. Qed.

(** A record whose last timestamp is beyond the year 9999, between two
    records that parse: the poll stores and announces the first, raises,
    and leaves the cursor where it was. *)
Definition beyond_9999 : RawDevice :=
  {| base_macaddr := Some "AA:BB:CC:DD:EE:02"; base_type := Some "Wi-Fi Device";
     base_first_time := Some 1735120000; base_last_time := Some 1000000000000000;
     base_channel := Some 6; base_frequency := None; base_last_signal := None;
     base_manuf := None; base_packets_total := None; base_key := None;
     base_name := None; dot11_device := None |}.

Definition late_daemon (_ : request) : exchange :=
  Response {| status_code := 200;
              body := DeviceArray [fixture_ap; beyond_9999; fixture_client] |}.

Example poll_stops_at_unconvertible_timestamp :
  let p := _poll_devices unix_years polled_at_100 late_daemon
             (Py.Datetime "2025-12-25T12:03:20") (200 # 1)%Q in
  raised p = true
  /\ _last_poll_time (after p) = Some (100 # 1)%Q
  /\ List.map (fun e => mac (event_device e)) (announced p) = ["AA:BB:CC:DD:EE:FF"]
  /\ tracked (_devices (after p)) "11:22:33:44:55:66" = false.
Proof. cbv zeta. repeat split; vm_compute; reflexivity. Qed.

(** A daemon that reports one MAC twice and another once. *)
Definition seen_twice : list RawDevice :=
  [ {| base_macaddr := Some "AA:BB:CC:DD:EE:FF"; base_type := Some "Wi-Fi Device";
       base_first_time := Some 1735120000; base_last_time := Some 1735121000;
       base_channel := Some 6; base_frequency := None; base_last_signal := Some (-60);
       base_manuf := None; base_packets_total := Some 10; base_key := None;
       base_name := None; dot11_device := None |};
    {| base_macaddr := Some "aa:bb:cc:dd:ee:01"; base_type := Some "BTLE";
       base_first_time := Some 1735120000; base_last_time := Some 1735121000;
       base_channel := None; base_frequency := None; base_last_signal := None;
       base_manuf := None; base_packets_total := None; base_key := None;
       base_name := Some "Band"; dot11_device := None |};
    {| base_macaddr := Some "AA:BB:CC:DD:EE:FF"; base_type := Some "Wi-Fi Device";
       base_first_time := Some 1735120000; base_last_time := Some 1735121005;
       base_channel := Some 11; base_frequency := None; base_last_signal := Some (-48);
       base_manuf := None; base_packets_total := Some 12; base_key := None;
       base_name := None; dot11_device := None |} ].

Definition twice_daemon (_ : request) : exchange :=
  Response {| status_code := 200; body := DeviceArray seen_twice |}.

Lemma poll_announces_new_devices_once_witness :
  let p := _poll_devices unix_years fresh_controller twice_daemon
             (Py.Datetime "2025-12-25T12:00:00") (1735121006 # 1)%Q in
  List.map is_new (announced p) = [true; true; false]
  /\ size (_devices (after p)) = 2%nat.
Proof.
  cbv zeta.
  pose proof (poll_announces_new_devices_once unix_years fresh_controller twice_daemon
                (Py.Datetime "2025-12-25T12:00:00") (1735121006 # 1)%Q) as H.
  cbv zeta in H. destruct H as (Hnth & Hlen & _ & Hsize).
  assert (H0 := Hnth [] _ _ eq_refl).
  assert (H1 := Hnth [_] _ _ eq_refl).
  assert (H2 := Hnth [_; _] _ _ eq_refl).
  destruct (announced (_poll_devices _ _ _ _ _)) as [|e0 [|e1 [|e2 [|e3 rest]]]];
    try discriminate Hlen.
  cbn in H0, H1, H2. injection H0 as ->. injection H1 as ->. injection H2 as ->.
  split; [reflexivity|]. rewrite Hsize. reflexivity.
Defined.

Lemma poll_keeps_last_record_witness :
  let p := _poll_devices unix_years fresh_controller twice_daemon
             (Py.Datetime "2025-12-25T12:00:00") (1735121006 # 1)%Q in
  option_map channel (get_device (after p) "aa:bb:cc:dd:ee:ff") = Some 11
  /\ option_map bt_name (_devices (after p) !! "aa:bb:cc:dd:ee:01")
     = Some (Some "Band")
  /\ get_device (after p) "aa:bb:cc:dd:ee:01" = None.
Proof.
  cbv zeta.
  pose proof (poll_keeps_last_record unix_years fresh_controller twice_daemon
                (Py.Datetime "2025-12-25T12:00:00") (1735121006 # 1)%Q) as H.
  cbv zeta in H. destruct H as (Hlast & Hother & _).
  split; [|split].
  - destruct (Hlast [_; _] _ [] eq_refl) as [_ H]; [intros r []|].
    rewrite (H "aa:bb:cc:dd:ee:ff" eq_refl eq_refl). reflexivity.
  - destruct (Hlast [_] _ [_] eq_refl) as [H _].
    { intros r [<-|[]]. discriminate. }
    exact (f_equal (option_map bt_name) H).
  - unfold get_device. rewrite Hother; [reflexivity|].
    intros d [<-|[<-|[<-|[]]]]; discriminate.
Defined.

(** ** The channel hopper *)

Section Hopper.

(** [rate] is the type of the hop rates, floats that the hopper hands on
    to the daemon. *)
Context {rate : Type}.

Definition CHANNELS_24GHZ : list string :=
  ["1"; "2"; "3"; "4"; "5"; "6"; "7"; "8"; "9"; "10"; "11"].

Definition CHANNELS_5GHZ : list string :=
  ["36"; "40"; "44"; "48"; "52"; "56"; "60"; "64";
   "100"; "104"; "108"; "112"; "116"; "120"; "124"; "128";
   "132"; "136"; "140"; "144"; "149"; "153"; "157"; "161"; "165"].

(** The POST requests the controller makes for the hopper:
    [set_hop_channels] ([set_hop.cmd] with the channels and the rate),
    [enable_hop_mode] and [disable_hop_mode] ([set_hop.cmd] with [hop]),
    and [set_channel] ([set_channel.cmd]). *)
Inductive command : Type :=
| SetHopChannels (source_uuid : string) (channels : list string) (r : rate)
| SetHop (source_uuid : string) (hop : bool)
| SetChannel (source_uuid : string) (channel : string).

(** [self._api_request(..., method="POST", ...) is not None]: [daemon]
    gives the outcome of the exchange for each command. *)
Definition accepted (daemon : command -> exchange) (c : command) : bool :=
  match _api_request "POST" (daemon c) with
  | Some _ => true
  | None => false
  end.

Definition set_channel (daemon : command -> exchange)
    (source_uuid channel : string) : bool :=
  accepted daemon (SetChannel source_uuid channel).

Definition set_hop_channels (daemon : command -> exchange)
    (source_uuid : string) (channels : list string) (r : rate) : bool :=
  accepted daemon (SetHopChannels source_uuid channels r).

Definition enable_hop_mode (daemon : command -> exchange)
    (source_uuid : string) : bool :=
  accepted daemon (SetHop source_uuid true).

Definition disable_hop_mode (daemon : command -> exchange)
    (source_uuid : string) : bool :=
  accepted daemon (SetHop source_uuid false).

Record ChannelHopper : Type := {
  fast_rate : rate;
  slow_rate : rate;
  adaptive_rate : rate;
  _mode : string;
  _active_source : option string }.

Definition with_mode (self : ChannelHopper) (mode : string) : ChannelHopper :=
  {| fast_rate := fast_rate self; slow_rate := slow_rate self;
     adaptive_rate := adaptive_rate self; _mode := mode;
     _active_source := _active_source self |}.

Definition set_active_source (self : ChannelHopper) (source_uuid : string)
  : ChannelHopper :=
  {| fast_rate := fast_rate self; slow_rate := slow_rate self;
     adaptive_rate := adaptive_rate self; _mode := _mode self;
     _active_source := Some source_uuid |}.

Definition hop_modes : list string := ["fast"; "slow"; "adaptive"; "lock"].

(** The value returned, the hopper after the call and the commands sent
    to the daemon. *)
Definition set_mode (self : ChannelHopper) (mode : string)
    (daemon : command -> exchange) : bool * ChannelHopper * list command :=
  if negb (existsb (String.eqb mode) hop_modes) then (false, self, [])
  else
    let self := with_mode self mode in
    match _active_source self with
    | None => (true, self, [])
    | Some source =>
        if negb (Py.truthy_str source) then (true, self, [])
        else
          let channels := CHANNELS_24GHZ ++ CHANNELS_5GHZ in
          if String.eqb mode "fast" then
            (set_hop_channels daemon source channels (fast_rate self), self,
             [SetHopChannels source channels (fast_rate self)])
          else if String.eqb mode "slow" then
            (set_hop_channels daemon source channels (slow_rate self), self,
             [SetHopChannels source channels (slow_rate self)])
          else if String.eqb mode "adaptive" then
            (set_hop_channels daemon source channels (adaptive_rate self), self,
             [SetHopChannels source channels (adaptive_rate self)])
          else if String.eqb mode "lock" then
            (disable_hop_mode daemon source, self, [SetHop source false])
          else (false, self, [])
    end.

Definition lock_channel (self : ChannelHopper) (channel : string)
    (daemon : command -> exchange) : bool * ChannelHopper * list command :=
  match _active_source self with
  | None => (false, self, [])
  | Some source =>
      if negb (Py.truthy_str source) then (false, self, [])
      else
        (set_channel daemon source channel, with_mode self "lock",
         [SetChannel source channel])
  end.

(** The command [set_mode] sends for a mode. *)
Definition mode_command (self : ChannelHopper) (mode source : string) : command :=
  if String.eqb mode "lock" then SetHop source false
  else
    SetHopChannels source (CHANNELS_24GHZ ++ CHANNELS_5GHZ)
      (if String.eqb mode "fast" then fast_rate self
       else if String.eqb mode "slow" then slow_rate self
       else adaptive_rate self).

(** X13: [set_mode] rejects a mode that is not one of the four, changing
    nothing and sending nothing.  A mode that is one of them is recorded
    before anything is sent: without an active source the call answers
    [True] and sends nothing; with one it sends one command, all 36
    channels with the rate of the mode or, for "lock", the end of the
    hopping, and answers whether the daemon took it, so a call that
    answers [False] has changed the recorded mode all the same. *)
Lemma set_mode_records_the_mode_first self mode daemon :
  let ok := fst (fst (set_mode self mode daemon)) in
  let self' := snd (fst (set_mode self mode daemon)) in
  let sent := snd (set_mode self mode daemon) in
  (~ In mode hop_modes -> ok = false /\ self' = self /\ sent = [])
  /\ (In mode hop_modes ->
      self' = with_mode self mode
      /\ (Py.truthy_ostr (_active_source self) = false -> ok = true /\ sent = [])
      /\ (forall source,
            _active_source self = Some source -> Py.truthy_str source = true ->
            sent = [mode_command self mode source]
            /\ ok = accepted daemon (mode_command self mode source)
            /\ List.length (CHANNELS_24GHZ ++ CHANNELS_5GHZ) = 36%nat)).
Proof.
  cbv zeta. unfold set_mode.
  destruct (existsb (String.eqb mode) hop_modes) eqn:E; cbn [negb fst snd].
  - split.
    + intros Hn. exfalso. apply Hn. apply existsb_exists in E.
      destruct E as (x & Hin & Hx). apply String.eqb_eq in Hx. now subst.
    + intros Hin. cbn [_active_source with_mode].
      destruct (_active_source self) as [source|] eqn:Es; cbn [fst snd].
      * destruct (Py.truthy_str source) eqn:Et; cbn [negb fst snd].
        -- assert (Hcase :
             mode = "fast" \/ mode = "slow" \/ mode = "adaptive" \/ mode = "lock").
           { cbn in Hin. intuition auto. }
           destruct Hcase as [-> | [-> | [-> | ->]]]; cbn [String.eqb Ascii.eqb Bool.eqb fst snd].
           all: split; [reflexivity|]; split; [cbn; rewrite Et; discriminate|].
           all: intros s [= <-] _; repeat split.
        -- split; [reflexivity|]. split; [auto|].
           intros s [= <-] Hs. congruence.
      * split; [reflexivity|]. split; [auto|]. intros s Hs. discriminate Hs.
  - split; [auto|]. intros Hin. exfalso.
    assert (H : existsb (String.eqb mode) hop_modes = true).
    { apply existsb_exists. exists mode. split; [exact Hin|apply String.eqb_refl]. }
    congruence.
Qed.

End Hopper.

(** A hopper with a source, and a daemon that cannot be reached. *)
Definition hopper_on_wlan1 : @ChannelHopper Q :=
  {| fast_rate := 10%Q; slow_rate := 2%Q; adaptive_rate := 5%Q;
     _mode := "adaptive"; _active_source := Some "5FE308BD-0000-0000-0000-00C0CAAB1234" |}.

Definition daemon_down (_ : @command Q) : exchange := ConnectionError.

Lemma set_mode_records_the_mode_first_witness :
  fst (fst (set_mode hopper_on_wlan1 "fast" daemon_down)) = false
  /\ _mode (snd (fst (set_mode hopper_on_wlan1 "fast" daemon_down))) = "fast"
  /\ set_mode hopper_on_wlan1 "turbo" daemon_down = (false, hopper_on_wlan1, []).
Proof.
  pose proof (set_mode_records_the_mode_first hopper_on_wlan1 "fast" daemon_down) as H.
  cbv zeta in H. destruct H as [_ H].
  destruct H as (Hs & _ & Hc); [cbn; auto|].
  destruct (Hc _ eq_refl eq_refl) as (_ & Hok & _).
  split; [rewrite Hok; reflexivity|]. split; [rewrite Hs; reflexivity|].
  pose proof (set_mode_records_the_mode_first hopper_on_wlan1 "turbo" daemon_down) as H.
  cbv zeta in H. destruct H as [H _].
  destruct H as (H1 & H2 & H3).
  { cbn. intros [H|[H|[H|[H|[]]]]]; discriminate H. }
  destruct (set_mode hopper_on_wlan1 "turbo" daemon_down) as [[ok s] sent].
  cbn [fst snd] in *. now subst.
Defined.

End Kismet.

(* ===================================================================== *)
(** * The GPS service (scanners/gps_logger.py) *)
(* ===================================================================== *)

Module Gps.

Section Logger.

(** Latitude, longitude, altitude, speed, heading and HDOP are floats that
    the logger stores and hands on; [zero] is [0.0].  A [subscriber] is a
    registered callback. *)
Context {float : Type} (zero : float) {subscriber : Type}.

Record GPSPosition : Type := {
  latitude : float;
  longitude : float;
  altitude : float;
  timestamp : Py.datetime;
  speed : float;
  heading : float;
  hdop : float;
  fix_quality : Z;
  satellites : Z;
  valid : bool }.

Definition to_tuple (p : GPSPosition) : float * float * float * Py.datetime :=
  (latitude p, longitude p, altitude p, timestamp p).

Record GPSLogger : Type := {
  history_size : Z;
  _current_position : option GPSPosition;
  _position_history : list GPSPosition;
  _callbacks : list subscriber;
  _fix_count : Z;
  _no_fix_count : Z;
  _last_fix_time : option Py.datetime }.

(** What one iteration reads: the gpsd library is missing, the read raises,
    or a packet arrives, given as the position [_parse_gpsd_packet] makes
    of it (a valid one, or an invalid one when there is no fix). *)
Inductive reading : Type :=
| GpsdUnavailable
| ReadFailed
| Sample (position : GPSPosition).

(** [if len(h) > history_size: h = h[-history_size:]] *)
Definition trim (size : Z) (h : list GPSPosition) : list GPSPosition :=
  if size <? Z.of_nat (List.length h) then Py.slice_from (- size) h else h.

(** The block under the lock. *)
Definition record_position (self : GPSLogger) (position : GPSPosition) : GPSLogger :=
  if valid position then
    {| history_size := history_size self;
       _current_position := Some position;
       _position_history :=
         trim (history_size self) (_position_history self ++ [position]);
       _callbacks := _callbacks self;
       _fix_count := _fix_count self + 1;
       _no_fix_count := _no_fix_count self;
       _last_fix_time := Some (timestamp position) |}
  else
    {| history_size := history_size self;
       _current_position := Some position;
       _position_history := _position_history self;
       _callbacks := _callbacks self;
       _fix_count := _fix_count self;
       _no_fix_count := _no_fix_count self + 1;
       _last_fix_time := _last_fix_time self |}.

(** The logger after the iteration and the calls made, in order: each is a
    subscriber with the position it was called with.  A callback that
    raises is logged and the loop goes on. *)
Definition _update_position (self : GPSLogger) (r : reading)
  : GPSLogger * list (subscriber * GPSPosition) :=
  match r with
  | GpsdUnavailable => (self, [])
  | ReadFailed => (self, [])
  | Sample position =>
      (record_position self position,
       List.map (fun callback => (callback, position)) (_callbacks self))
  end.

(** [now] is [datetime.utcnow()]. *)
Definition get_current_position (self : GPSLogger) (now : Py.datetime)
  : float * float * float * Py.datetime :=
  match _current_position self with
  | Some p => if valid p then to_tuple p else (zero, zero, zero, now)
  | None => (zero, zero, zero, now)
  end.

Definition has_fix (self : GPSLogger) : bool :=
  match _current_position self with
  | Some p => valid p
  | None => false
  end.

(** ** Delivery, history and the current position *)

Lemma in_drop {A} (n : nat) (l : list A) x : In x (drop n l) -> In x l.
Proof.
  intros H. rewrite <- (List.firstn_skipn n l). apply List.in_or_app. now right.
Qed.

Lemma slice_from_incl {A} (start : Z) (l : list A) x :
  In x (Py.slice_from start l) -> In x l.
Proof. unfold Py.slice_from. destruct (start <? 0); apply in_drop. Qed.

Lemma trim_incl size h x : In x (trim size h) -> In x h.
Proof.
  unfold trim. destruct (size <? Z.of_nat (List.length h)); [|auto].
  apply slice_from_incl.
Qed.

(** X4: with a positive size the history holds at most [size] positions
    after a trim. *)
Lemma trim_length size h :
  0 < size -> Z.of_nat (List.length (trim size h)) <= size.
Proof.
  intros Hs. unfold trim.
  destruct (Z.ltb_spec size (Z.of_nat (List.length h))) as [Hlt|Hge]; [|lia].
  unfold Py.slice_from.
  destruct (Z.ltb_spec (- size) 0) as [_|Hc]; [|lia].
  rewrite length_drop. lia.
Qed.

Lemma trim_within size h :
  Z.of_nat (List.length h) <= size -> trim size h = h.
Proof.
  intros H. unfold trim.
  now destruct (Z.ltb_spec size (Z.of_nat (List.length h))); [lia|].
Qed.

Lemma trim_beyond size h :
  0 < size < Z.of_nat (List.length h) ->
  trim size h = drop (List.length h - Z.to_nat size) h.
Proof.
  intros H. unfold trim, Py.slice_from.
  destruct (Z.ltb_spec size (Z.of_nat (List.length h))); [|lia].
  destruct (Z.ltb_spec (- size) 0); [|lia].
  f_equal. lia.
Qed.

Lemma trim_not_positive size h :
  size <= 0 -> h <> [] -> trim size h = drop (Z.to_nat (- size)) h.
Proof.
  intros H Hh. unfold trim, Py.slice_from.
  destruct (Z.ltb_spec size (Z.of_nat (List.length h))) as [_|Hc].
  - destruct (Z.ltb_spec (- size) 0); [lia|reflexivity].
  - destruct h; [congruence|cbn [List.length] in Hc; lia].
Qed.

(** C8: a sample, valid or not, is handed to every subscriber; an invalid
    sample leaves the history as it was and a valid one is appended before
    the trim, so the history only ever gains valid samples; the trim keeps
    the last [history_size] positions, so that with a positive
    [history_size] the history holds at most that many after a valid
    sample and stays within the bound once it is (with [history_size] 0
    nothing is ever dropped, and with a negative one the first
    [-history_size] positions are); and while the current sample is not
    valid (or there is none) the current-position query answers zeros for
    latitude, longitude and altitude. *)
Theorem sample_delivery_history_and_position :
  forall (self : GPSLogger) (p : GPSPosition),
    let self' := fst (_update_position self (Sample p)) in
    let calls := snd (_update_position self (Sample p)) in
    let appended := _position_history self ++ [p] in
    List.map fst calls = _callbacks self
    /\ (forall c, In c calls -> snd c = p)
    /\ _current_position self' = Some p
    /\ (valid p = false -> _position_history self' = _position_history self)
    /\ (valid p = true ->
        _position_history self'
        = trim (history_size self) (_position_history self ++ [p]))
    /\ (forall q, In q (_position_history self') ->
                  In q (_position_history self) \/ (q = p /\ valid p = true))
    /\ (valid p = false ->
        forall now, get_current_position self' now = (zero, zero, zero, now))
    /\ (forall now,
          has_fix self = false ->
          get_current_position self now = (zero, zero, zero, now))
    /\ (valid p = true ->
        (Z.of_nat (List.length appended) <= history_size self ->
         _position_history self' = appended)
        /\ (0 < history_size self < Z.of_nat (List.length appended) ->
            _position_history self'
            = drop (List.length appended - Z.to_nat (history_size self)) appended
            /\ Z.of_nat (List.length (_position_history self')) = history_size self)
        /\ (history_size self <= 0 ->
            _position_history self'
            = drop (Z.to_nat (- history_size self)) appended)
        /\ (0 < history_size self ->
            Z.of_nat (List.length (_position_history self')) <= history_size self))
    /\ (0 < history_size self ->
        Z.of_nat (List.length (_position_history self)) <= history_size self ->
        Z.of_nat (List.length (_position_history self')) <= history_size self).
Proof.
  intros self p. cbv zeta. cbn [_update_position fst snd].
  assert (Hbound : valid p = true -> 0 < history_size self ->
                   Z.of_nat (List.length (_position_history (record_position self p)))
                   <= history_size self).
  { intros Hv Hs. unfold record_position. rewrite Hv. cbn [_position_history].
    destruct (Z.le_gt_cases (Z.of_nat (List.length (_position_history self ++ [p])))
                (history_size self)) as [Hle|Hgt].
    - now rewrite trim_within.
    - rewrite trim_beyond by lia. rewrite length_drop. lia. }
  split; [|split; [|split; [|split; [|split; [|split; [|split; [|split; [|split]]]]]]]].
  - rewrite List.map_map. cbn [fst]. apply List.map_id.
  - intros c Hc. apply List.in_map_iff in Hc. destruct Hc as (cb & <- & _). reflexivity.
  - unfold record_position. now destruct (valid p).
  - intros Hv. unfold record_position. now rewrite Hv.
  - intros Hv. unfold record_position. now rewrite Hv.
  - intros q. unfold record_position. destruct (valid p) eqn:Hv;
      cbn [_position_history]; [|auto].
    intros Hq. apply trim_incl, List.in_app_iff in Hq.
    destruct Hq as [Hq|[<-|[]]]; auto.
  - intros Hv now. unfold get_current_position, record_position.
    rewrite Hv. cbn [_current_position]. now rewrite Hv.
  - intros now. unfold has_fix, get_current_position.
    destruct (_current_position self) as [q|]; [|reflexivity].
    now intros ->.
  - intros Hv. split; [|split; [|split]].
    + intros Hle. unfold record_position. rewrite Hv. cbn [_position_history].
      now apply trim_within.
    + intros Hgt. unfold record_position. rewrite Hv. cbn [_position_history].
      rewrite trim_beyond by exact Hgt. split; [reflexivity|].
      rewrite length_drop. lia.
    + intros Hle. unfold record_position. rewrite Hv. cbn [_position_history].
      apply trim_not_positive; [exact Hle|].
      now destruct (_position_history self).
    + now apply Hbound.
  - intros Hs Hle. destruct (valid p) eqn:Hv.
    + now apply Hbound.
    + unfold record_position. rewrite Hv. exact Hle.
Qed.

End Logger.

(** A logger with two subscribers that holds one valid position, and an
    invalid sample as [GPSPosition.invalid()] builds it. *)
Definition london : @GPSPosition Q :=
  {| latitude := (515074 # 10000)%Q; longitude := (-1278 # 10000)%Q;
     altitude := (30 # 1)%Q; timestamp := Py.Datetime "2025-12-25T12:00:00";
     speed := 0%Q; heading := 0%Q; hdop := (12 # 10)%Q;
     fix_quality := 1; satellites := 8; valid := true |}.

Definition no_fix : @GPSPosition Q :=
  {| latitude := 0%Q; longitude := 0%Q; altitude := 0%Q;
     timestamp := Py.Datetime "2025-12-25T12:00:01";
     speed := 0%Q; heading := 0%Q; hdop := (99 # 1)%Q;
     fix_quality := 0; satellites := 0; valid := false |}.

Definition tracking : @GPSLogger Q string :=
  {| history_size := 100; _current_position := Some london;
     _position_history := [london]; _callbacks := ["store"; "engine"];
     _fix_count := 1; _no_fix_count := 0;
     _last_fix_time := Some (Py.Datetime "2025-12-25T12:00:00") |}.

(** A logger that keeps two positions and holds two, and a third valid
    sample. *)
Definition greenwich : @GPSPosition Q :=
  {| latitude := (514779 # 10000)%Q; longitude := (-15 # 10000)%Q;
     altitude := (45 # 1)%Q; timestamp := Py.Datetime "2025-12-25T12:00:05";
     speed := 0%Q; heading := 0%Q; hdop := (11 # 10)%Q;
     fix_quality := 1; satellites := 9; valid := true |}.

Definition richmond : @GPSPosition Q :=
  {| latitude := (514613 # 10000)%Q; longitude := (-3037 # 10000)%Q;
     altitude := (10 # 1)%Q; timestamp := Py.Datetime "2025-12-25T12:00:10";
     speed := 0%Q; heading := 0%Q; hdop := (9 # 10)%Q;
     fix_quality := 1; satellites := 10; valid := true |}.

Definition two_kept : @GPSLogger Q string :=
  {| history_size := 2; _current_position := Some greenwich;
     _position_history := [london; greenwich]; _callbacks := ["store"];
     _fix_count := 2; _no_fix_count := 0;
     _last_fix_time := Some (Py.Datetime "2025-12-25T12:00:05") |}.

Lemma sample_delivery_history_and_position_witness :
  let after := _update_position tracking (Sample no_fix) in
  let third := _update_position two_kept (Sample richmond) in
  snd after = [("store", no_fix); ("engine", no_fix)]
  /\ _position_history (fst after) = [london]
  /\ get_current_position 0%Q (fst after) (Py.Datetime "2025-12-25T12:00:02")
     = (0%Q, 0%Q, 0%Q, Py.Datetime "2025-12-25T12:00:02")
  /\ _position_history (fst third) = [greenwich; richmond]
  /\ Z.of_nat (List.length (_position_history (fst third))) <= 2.
Proof.
  pose proof (sample_delivery_history_and_position 0%Q tracking no_fix) as H.
  pose proof (sample_delivery_history_and_position 0%Q two_kept richmond) as T.
  cbv zeta in H, T. destruct H as (_ & _ & _ & Hh & _ & _ & Hz & _).
  destruct T as (_ & _ & _ & _ & _ & _ & _ & _ & Ht & _).
  destruct (Ht eq_refl) as (_ & Hdrop & _ & Hbound).
  cbv zeta. split; [reflexivity|]. split; [exact (Hh eq_refl)|].
  split; [exact (Hz eq_refl _)|]. split.
  - destruct Hdrop as [Hd _]; [cbn; lia|]. rewrite Hd. reflexivity.
  - apply Hbound. cbn. lia.
Defined.

(** A history of three positions trimmed to two. *)
Lemma trim_length_witness :
  Z.of_nat (List.length (trim 2 [london; no_fix; london])) <= 2.
Proof. apply trim_length. lia. Defined.

(** ** A run of the polling loop *)

Section Runs.

Context {float : Type} {subscriber : Type}.

(** [GPSLogger(history_size=size)] *)
Definition new_logger (size : Z) : @GPSLogger float subscriber :=
  {| history_size := size; _current_position := None; _position_history := [];
     _callbacks := []; _fix_count := 0; _no_fix_count := 0;
     _last_fix_time := None |}.

(** The iterations of [_poll_loop], one per reading. *)
Definition run (self : @GPSLogger float subscriber) (readings : list (@reading float)) : @GPSLogger float subscriber :=
  fold_left (fun s r => fst (_update_position s r)) readings self.

(** The positions a list of readings delivers. *)
Definition samples (readings : list (@reading float)) : list (@GPSPosition float) :=
  omap (fun r => match r with Sample p => Some p | _ => None end) readings.

Definition fixes (readings : list (@reading float)) : list (@GPSPosition float) :=
  List.filter valid (samples readings).

Definition misses (readings : list (@reading float)) : list (@GPSPosition float) :=
  List.filter (fun p => negb (valid p)) (samples readings).

Lemma trim_short size (h : list (@GPSPosition float)) :
  Z.of_nat (List.length h) <= size -> trim size h = h.
Proof.
  intros H. unfold trim.
  destruct (Z.ltb_spec size (Z.of_nat (List.length h))); [lia|reflexivity].
Qed.

Lemma trim_long size (h : list (@GPSPosition float)) :
  0 < size -> size <= Z.of_nat (List.length h) ->
  trim size h = drop (List.length h - Z.to_nat size) h.
Proof.
  intros H0 H. unfold trim.
  destruct (Z.ltb_spec size (Z.of_nat (List.length h))) as [Hlt|Hge].
  - unfold Py.slice_from. destruct (Z.ltb_spec (- size) 0) as [Hn|Hn]; [|lia].
    f_equal. lia.
  - assert (Hd : (List.length h - Z.to_nat size = 0)%nat) by lia.
    now rewrite Hd.
Qed.

(** [h[-0:]] is [h]: with the size 0 nothing is ever dropped. *)
Lemma trim_zero (h : list (@GPSPosition float)) : trim 0 h = h.
Proof.
  unfold trim, Py.slice_from. change (- 0) with 0. change (0 <? 0) with false.
  cbn [Z.to_nat drop]. now destruct (0 <? _).
Qed.

(** Trimming after every append is trimming once at the end. *)
Lemma trim_append size (h : list (@GPSPosition float)) p :
  0 <= size -> trim size (trim size h ++ [p]) = trim size (h ++ [p]).
Proof.
  intros H0.
  destruct (Z.le_gt_cases (Z.of_nat (List.length h)) size) as [Hs|Hl].
  - now rewrite (trim_short size h).
  - destruct (Z.eq_dec size 0) as [->|Hpos].
    { now rewrite !trim_zero. }
    rewrite (trim_long size h) by lia.
    rewrite !trim_long; rewrite ?length_app, ?length_drop; cbn [List.length]; try lia.
    rewrite drop_app_le by (rewrite length_drop; lia).
    rewrite drop_drop, drop_app_le by lia. do 2 f_equal. lia.
Qed.

Lemma fixes_cons r (readings : list (@reading float)) :
  fixes (r :: readings)
  = match r with
    | Sample p => if valid p then p :: fixes readings else fixes readings
    | _ => fixes readings
    end.
Proof. now destruct r as [| |p]. Qed.

Lemma misses_cons r (readings : list (@reading float)) :
  misses (r :: readings)
  = match r with
    | Sample p => if valid p then misses readings else p :: misses readings
    | _ => misses readings
    end.
Proof.
  destruct r as [| |p]; try reflexivity. unfold misses. cbn.
  now destruct (valid p).
Qed.

Lemma run_fields readings : forall (self : @GPSLogger float subscriber) (h : list (@GPSPosition float)),
  0 <= history_size self ->
  _position_history self = trim (history_size self) h ->
  let self' := run self readings in
  history_size self' = history_size self
  /\ _callbacks self' = _callbacks self
  /\ _position_history self' = trim (history_size self) (h ++ fixes readings)
  /\ _fix_count self' = _fix_count self + Z.of_nat (List.length (fixes readings))
  /\ _no_fix_count self'
     = _no_fix_count self + Z.of_nat (List.length (misses readings)).
Proof.
  induction readings as [|r readings IH]; intros self h H0 Hh; cbv zeta.
  - cbn. rewrite app_nil_r, !Z.add_0_r. auto.
  - cbn [run fold_left]. fold (run (fst (_update_position self r)) readings).
    rewrite fixes_cons, misses_cons.
    destruct r as [| |p]; cbn [_update_position fst].
    + apply (IH self h H0 Hh).
    + apply (IH self h H0 Hh).
    + destruct (valid p) eqn:Hv.
      * destruct (IH (record_position self p) (h ++ [p])) as (I1 & I2 & I3 & I4 & I5).
        { unfold record_position. rewrite Hv. exact H0. }
        { unfold record_position. rewrite Hv. cbn [_position_history history_size].
          rewrite Hh. now apply trim_append. }
        unfold record_position in *. rewrite Hv in *.
        cbn [history_size _callbacks _fix_count _no_fix_count] in *.
        rewrite I1, I2, I3, I4, I5, <- app_assoc. cbn [List.length app].
        repeat split; try reflexivity. lia.
      * destruct (IH (record_position self p) h) as (I1 & I2 & I3 & I4 & I5).
        { unfold record_position. rewrite Hv. exact H0. }
        { unfold record_position. rewrite Hv. exact Hh. }
        unfold record_position in *. rewrite Hv in *.
        cbn [history_size _callbacks _fix_count _no_fix_count] in *.
        rewrite I1, I2, I3, I4, I5. cbn [List.length].
        repeat split; try reflexivity. lia.
Qed.

(** X14: after any run of the polling loop of a new logger whose
    [history_size] is not negative, the history is the valid positions
    read so far, trimmed once to the last [history_size] of them (to all
    of them when [history_size] is 0, where the slice [[-0:]] keeps the
    whole list); it holds valid positions only, and the two counters are
    the numbers of valid and of invalid samples. *)
Lemma history_is_the_last_fixes (size : Z) (readings : list (@reading float)) :
  0 <= size ->
  let self := run (new_logger size) readings in
  _position_history self = trim size (fixes readings)
  /\ Forall (fun p => valid p = true) (_position_history self)
  /\ _fix_count self = Z.of_nat (List.length (fixes readings))
  /\ _no_fix_count self = Z.of_nat (List.length (misses readings))
  /\ (size = 0 -> _position_history self = fixes readings)
  /\ (0 < size -> Z.of_nat (List.length (_position_history self)) <= size).
Proof.
  intros H0. cbv zeta.
  assert (Hstart : _position_history (new_logger size)
                   = trim (history_size (new_logger size)) []).
  { symmetry. apply trim_short. cbn. exact H0. }
  destruct (run_fields readings (new_logger size) [] H0 Hstart)
    as (_ & _ & Hh & Hf & Hn).
  cbn [new_logger history_size _fix_count _no_fix_count app] in Hh, Hf, Hn.
  rewrite Hh, Hf, Hn. repeat split.
  - apply Forall_forall. intros p Hp. apply list_elem_of_In, trim_incl in Hp.
    unfold fixes in Hp. now apply List.filter_In in Hp.
  - intros ->. apply trim_zero.
  - intros Hpos. now apply trim_length.
Qed.

(** ** The history query *)

Definition get_history (self : @GPSLogger float subscriber) (count : option Z) : list (@GPSPosition float) :=
  match count with
  | Some c =>
      if c =? 0 then _position_history self
      else Py.slice_from (- c) (_position_history self)
  | None => _position_history self
  end.

(** X15: [get_history] answers the whole history for no count and for the
    count 0; for a positive count the newest [count] positions, or all of
    them when there are fewer; and for a negative count the history
    without its oldest [-count] positions. *)
Lemma get_history_counts (self : @GPSLogger float subscriber) :
  get_history self None = _position_history self
  /\ get_history self (Some 0) = _position_history self
  /\ (forall c, 0 < c ->
        get_history self (Some c)
        = drop (List.length (_position_history self) - Z.to_nat c)
            (_position_history self)
        /\ Z.of_nat (List.length (get_history self (Some c)))
           = Z.min c (Z.of_nat (List.length (_position_history self))))
  /\ (forall c, c < 0 ->
        get_history self (Some c) = drop (Z.to_nat (- c)) (_position_history self)).
Proof.
  unfold get_history. split; [reflexivity|]. split; [reflexivity|]. split.
  - intros c Hc. destruct (Z.eqb_spec c 0) as [->|_]; [lia|].
    unfold Py.slice_from. destruct (Z.ltb_spec (- c) 0); [|lia].
    assert (E : Z.to_nat (Z.max 0 (Z.of_nat (List.length (_position_history self)) + - c))
                = (List.length (_position_history self) - Z.to_nat c)%nat) by lia.
    rewrite E. split; [reflexivity|]. rewrite length_drop. lia.
  - intros c Hc. destruct (Z.eqb_spec c 0) as [->|_]; [lia|].
    unfold Py.slice_from. destruct (Z.ltb_spec (- c) 0); [lia|reflexivity].
Qed.

(** ** Registering and removing callbacks *)

Context {subscriber_eq : EqDecision subscriber}.

Definition with_callbacks (self : @GPSLogger float subscriber) (callbacks : list subscriber)
  : @GPSLogger float subscriber :=
  {| history_size := history_size self;
     _current_position := _current_position self;
     _position_history := _position_history self;
     _callbacks := callbacks;
     _fix_count := _fix_count self; _no_fix_count := _no_fix_count self;
     _last_fix_time := _last_fix_time self |}.

Definition register_callback (self : @GPSLogger float subscriber) (callback : subscriber) : @GPSLogger float subscriber :=
  with_callbacks self (_callbacks self ++ [callback]).

(** [l.remove(x)] for an [x] that is in [l]: the first occurrence goes. *)
Fixpoint remove_first (x : subscriber) (l : list subscriber) : list subscriber :=
  match l with
  | [] => []
  | y :: rest => if decide (x = y) then rest else y :: remove_first x rest
  end.

Definition unregister_callback (self : @GPSLogger float subscriber) (callback : subscriber)
  : @GPSLogger float subscriber :=
  if existsb (fun c => bool_decide (callback = c)) (_callbacks self)
  then with_callbacks self (remove_first callback (_callbacks self))
  else self.

(** How often one sample is handed to [callback]. *)
Definition deliveries (self : @GPSLogger float subscriber) (p : @GPSPosition float) (callback : subscriber)
  : nat :=
  count_occ subscriber_eq (List.map fst (snd (_update_position self (Sample p))))
    callback.

Lemma deliveries_callbacks self p callback :
  deliveries self p callback = count_occ subscriber_eq (_callbacks self) callback.
Proof.
  unfold deliveries. cbn [_update_position snd].
  rewrite List.map_map. cbn [fst]. now rewrite List.map_id.
Qed.

Lemma count_occ_remove_first x l y :
  count_occ subscriber_eq (remove_first x l) y
  = (count_occ subscriber_eq l y - (if decide (x = y) then 1 else 0))%nat.
Proof.
  induction l as [|z l IH]; cbn [remove_first count_occ].
  - now destruct (decide (x = y)).
  - destruct (decide (x = z)) as [->|Hxz].
    + destruct (subscriber_eq z y) as [->|Hzy].
      * rewrite decide_True by reflexivity. lia.
      * rewrite decide_False by exact Hzy. lia.
    + cbn [count_occ]. rewrite IH.
      destruct (subscriber_eq z y) as [->|Hzy]; [|reflexivity].
      rewrite decide_False by exact Hxz. lia.
Qed.

(** X16: a sample is handed to a callback once for each time it was
    registered: [register_callback] adds one delivery per sample, also for
    a callback that is registered already, and [unregister_callback] takes
    one away, if there is one, and leaves the other callbacks alone. *)
Lemma callbacks_are_called_once_per_registration self p callback other :
  deliveries (register_callback self callback) p other
  = (deliveries self p other + (if decide (callback = other) then 1 else 0))%nat
  /\ deliveries (unregister_callback self callback) p other
     = (deliveries self p other - (if decide (callback = other) then 1 else 0))%nat.
Proof.
  rewrite !deliveries_callbacks. split.
  - cbn [register_callback with_callbacks _callbacks].
    rewrite count_occ_app. cbn [count_occ].
    destruct (subscriber_eq callback other) as [->|Hne].
    + now rewrite decide_True.
    + now rewrite decide_False.
  - unfold unregister_callback.
    destruct (existsb _ (_callbacks self)) eqn:E.
    + cbn [with_callbacks _callbacks]. apply count_occ_remove_first.
    + destruct (decide (callback = other)) as [<-|Hne]; [|lia].
      assert (H0 : count_occ subscriber_eq (_callbacks self) callback = 0%nat).
      { apply count_occ_not_In. intros Hin.
        assert (Ht : existsb (fun c => bool_decide (callback = c)) (_callbacks self) = true).
        { apply existsb_exists. exists callback. split; [exact Hin|].
          now apply bool_decide_eq_true. }
        congruence. }
      rewrite H0. reflexivity.
Qed.

End Runs.

(** Five readings of a logger that keeps two positions. *)
Definition later (p : @GPSPosition Q) (now : string) : @GPSPosition Q :=
  {| latitude := latitude p; longitude := longitude p; altitude := altitude p;
     timestamp := Py.Datetime now; speed := speed p; heading := heading p;
     hdop := hdop p; fix_quality := fix_quality p; satellites := satellites p;
     valid := valid p |}.

Definition five_readings : list (@reading Q) :=
  [ Sample london; Sample no_fix; ReadFailed;
    Sample (later london "2025-12-25T12:00:03");
    Sample (later london "2025-12-25T12:00:04") ].

Lemma history_is_the_last_fixes_witness :
  let self := run (@new_logger Q string 2) five_readings in
  _position_history self
  = [later london "2025-12-25T12:00:03"; later london "2025-12-25T12:00:04"]
  /\ _fix_count self = 3 /\ _no_fix_count self = 1.
Proof.
  cbv zeta.
  destruct (@history_is_the_last_fixes Q string 2 five_readings ltac:(lia))
    as (Hh & _ & Hf & Hn & _).
  rewrite Hh, Hf, Hn. repeat split.
Defined.

Lemma get_history_counts_witness :
  get_history (run (@new_logger Q string 0) five_readings) (Some 2)
  = [later london "2025-12-25T12:00:03"; later london "2025-12-25T12:00:04"]
  /\ get_history (run (@new_logger Q string 0) five_readings) (Some (-2))
     = [later london "2025-12-25T12:00:04"].
Proof.
  destruct (get_history_counts (run (@new_logger Q string 0) five_readings))
    as (_ & _ & Hpos & Hneg).
  split.
  - rewrite (proj1 (Hpos 2 ltac:(lia))). reflexivity.
  - rewrite (Hneg (-2) ltac:(lia)). reflexivity.
Defined.

(** ** Parsing a gpsd packet *)

Section Packets.

(** [zero] is [0.0], [ninety_nine] is [99.0] and [fle] is [<=] on
    floats. *)
Context {float : Type} (zero ninety_nine : float) (fle : float -> float -> bool).

(** What a call of a method of the packet does: it returns, or it raises
    ([gpsd.NoFixError] or anything else). *)
Inductive outcome (A : Type) : Type :=
| Returns (a : A)
| Raises.

Arguments Returns {A} a.
Arguments Raises {A}.

(** A packet, by what [_parse_gpsd_packet] asks of it.  An attribute the
    packet may lack ([hasattr]) is an [option]. *)
Record packet : Type := {
  (** [packet.position()] *)
  pkt_position : outcome (float * float);
  (** [packet.altitude()] *)
  pkt_altitude : option (outcome float);
  (** [packet.speed()] *)
  pkt_speed : option (outcome float);
  (** [packet.movement()], as the entry [track] of the dictionary it
      returns, if there is one *)
  pkt_movement : option (outcome (option float));
  (** [packet.position_precision()], as the first component of a tuple
      that is not empty *)
  pkt_position_precision : outcome (option float);
  (** [packet.sats], as the flag [used] of each satellite; [None] is a
      value that is falsy *)
  pkt_sats : outcome (option (list bool));
  (** [packet.mode] *)
  pkt_mode : option Z }.

(** [GPSPosition.invalid()]; [now] is [datetime.utcnow()]. *)
Definition invalid (now : Py.datetime) : @GPSPosition float :=
  {| latitude := zero; longitude := zero; altitude := zero; timestamp := now;
     speed := zero; heading := zero; hdop := ninety_nine;
     fix_quality := 0; satellites := 0; valid := false |}.

(** [m() if hasattr(packet, name) else 0.0] *)
Definition call_or_zero (m : option (outcome float)) : outcome float :=
  match m with
  | Some r => r
  | None => Returns zero
  end.

(** [min_hdop] and [min_satellites] are the two fields of the logger the
    method reads. *)
Definition _parse_gpsd_packet (min_hdop : float) (min_satellites : Z)
    (pkt : packet) (now : Py.datetime) : @GPSPosition float :=
  match pkt_position pkt with
  | Raises => invalid now
  | Returns (lat, lon) =>
      match call_or_zero (pkt_altitude pkt) with
      | Raises => invalid now
      | Returns alt =>
          match call_or_zero (pkt_speed pkt) with
          | Raises => invalid now
          | Returns speed =>
              match
                match pkt_movement pkt with
                | Some (Returns (Some track)) => Returns track
                | Some (Returns None) => Returns zero
                | Some Raises => Raises
                | None => Returns zero
                end
              with
              | Raises => invalid now
              | Returns heading =>
                  let hdop :=
                    match pkt_position_precision pkt with
                    | Returns (Some h) => h
                    | Returns None => ninety_nine
                    | Raises => ninety_nine
                    end in
                  let satellites :=
                    match pkt_sats pkt with
                    | Returns (Some sats) =>
                        Z.of_nat (List.length (List.filter (fun used => used) sats))
                    | Returns None => 0
                    | Raises => 0
                    end in
                  let mode := match pkt_mode pkt with Some m => m | None => 0 end in
                  let fix_quality := if 2 <=? mode then 1 else 0 in
                  let valid :=
                    fle hdop min_hdop && (min_satellites <=? satellites)
                    && (2 <=? mode) in
                  {| latitude := lat; longitude := lon; altitude := alt;
                     timestamp := now; speed := speed; heading := heading;
                     hdop := hdop; fix_quality := fix_quality;
                     satellites := satellites; valid := valid |}
              end
          end
      end
  end.

(** One of the four calls outside the inner [try] blocks raises. *)
Definition raises (pkt : packet) : bool :=
  match pkt_position pkt with Raises => true | _ => false end
  || match pkt_altitude pkt with Some Raises => true | _ => false end
  || match pkt_speed pkt with Some Raises => true | _ => false end
  || match pkt_movement pkt with Some Raises => true | _ => false end.

Definition mode_of (pkt : packet) : Z :=
  match pkt_mode pkt with Some m => m | None => 0 end.

(** X17: the quality gate of the GPS service.  A parsed position is valid
    exactly when no call on the packet raised, its HDOP is at most
    [min_hdop], at least [min_satellites] of its satellites are in use and
    the mode is 2 or more; when a call raises the result is the invalid
    placeholder, all zeros; the HDOP is 99.0 when the precision cannot be
    read, the satellite count 0 when the satellites cannot be read; and
    [fix_quality] is 1 for a mode of 2 or more and 0 otherwise, never
    another value. *)
Lemma gpsd_quality_gate min_hdop min_satellites pkt now :
  let p := _parse_gpsd_packet min_hdop min_satellites pkt now in
  (valid p = true <->
     raises pkt = false /\ fle (hdop p) min_hdop = true
     /\ min_satellites <= satellites p /\ 2 <= mode_of pkt)
  /\ (raises pkt = true -> p = invalid now)
  /\ (raises pkt = false ->
      timestamp p = now
      /\ pkt_position pkt = Returns (latitude p, longitude p)
      /\ fix_quality p = (if 2 <=? mode_of pkt then 1 else 0)
      /\ (pkt_position_precision pkt = Raises
          \/ pkt_position_precision pkt = Returns None -> hdop p = ninety_nine)
      /\ (pkt_sats pkt = Raises \/ pkt_sats pkt = Returns None ->
          satellites p = 0))
  /\ (fix_quality p = 0 \/ fix_quality p = 1).
Proof.
  cbv zeta. unfold _parse_gpsd_packet, raises, mode_of, call_or_zero.
  destruct (pkt_position pkt) as [[lat lon]|]; cbn [orb].
  2:{ split; [split; [discriminate|intros [H _]; discriminate H]|].
      split; [reflexivity|]. split; [discriminate|]. now left. }
  destruct (pkt_altitude pkt) as [[alt|]|]; cbn [orb].
  2:{ split; [split; [discriminate|intros [H _]; discriminate H]|].
      split; [reflexivity|]. split; [discriminate|]. now left. }
  all: destruct (pkt_speed pkt) as [[speed|]|]; cbn [orb].
  2,5:(split; [split; [discriminate|intros [H _]; discriminate H]|];
       split; [reflexivity|]; split; [discriminate|]; now left).
  all: destruct (pkt_movement pkt) as [[[track|]|]|]; cbn [orb].
  3,7,11,15:(split; [split; [discriminate|intros [H _]; discriminate H]|];
             split; [reflexivity|]; split; [discriminate|]; now left).
  all: cbn [valid hdop satellites fix_quality timestamp latitude longitude].
  all: split; [|split; [discriminate|split]].
  all: try (rewrite !andb_true_iff, !Z.leb_le; tauto).
  all: try (destruct (2 <=? _); auto).
  all: intros _; split; [reflexivity|]; split; [reflexivity|]; split; [reflexivity|].
  all: split; intros [->| ->]; reflexivity.
Qed.

End Packets.

Arguments Returns {A} a.
Arguments Raises {A}.

(** A packet with a 3D fix and six satellites in use, read by a logger
    with the default thresholds ([min_hdop] 10.0 and four satellites), and
    the same packet when [altitude()] raises. *)
Definition fix_3d : @packet Q :=
  {| pkt_position := Returns ((515074 # 10000)%Q, (-1278 # 10000)%Q);
     pkt_altitude := Some (Returns (30 # 1)%Q);
     pkt_speed := Some (Returns (12 # 10)%Q);
     pkt_movement := Some (Returns (Some (90 # 1)%Q));
     pkt_position_precision := Returns (Some (25 # 10)%Q);
     pkt_sats := Returns (Some [true; true; false; true; true; true; true]);
     pkt_mode := Some 3 |}.

Definition no_altitude : @packet Q :=
  {| pkt_position := pkt_position fix_3d;
     pkt_altitude := Some Raises;
     pkt_speed := pkt_speed fix_3d; pkt_movement := pkt_movement fix_3d;
     pkt_position_precision := pkt_position_precision fix_3d;
     pkt_sats := pkt_sats fix_3d; pkt_mode := pkt_mode fix_3d |}.

Lemma gpsd_quality_gate_witness :
  let now := Py.Datetime "2025-12-25T12:00:00" in
  valid (_parse_gpsd_packet 0%Q (99 # 1)%Q Qle_bool (10 # 1)%Q 4 fix_3d now) = true
  /\ _parse_gpsd_packet 0%Q (99 # 1)%Q Qle_bool (10 # 1)%Q 4 no_altitude now
     = invalid 0%Q (99 # 1)%Q now.
Proof.
  cbv zeta.
  split.
  - apply (proj1 (gpsd_quality_gate 0%Q (99 # 1)%Q Qle_bool (10 # 1)%Q 4 fix_3d _)).
    repeat split; cbn; lia.
  - apply (proj1 (proj2 (gpsd_quality_gate 0%Q (99 # 1)%Q Qle_bool (10 # 1)%Q 4
                          no_altitude _))).
    reflexivity.
Defined.

End Gps.

(* ===================================================================== *)
(** * The store (core/models.py, core/database.py) *)
(* ===================================================================== *)

Module Store.

(** ** Exceptions *)

(** The exceptions the store meets: [sqlite3.Error] (a constraint of the
    schema is violated), [AttributeError] (a method of a [datetime] or an
    enumeration is called on a [str]), [TypeError], and [OverflowError]
    (an [int] bound to a parameter of a statement does not fit in 64
    bits), which is no [sqlite3.Error]. *)
Inductive exn : Type :=
| SqliteError
| AttributeError
| TypeError
| OverflowError.

Inductive result (A : Type) : Type :=
| Ok (a : A)
| Raise (e : exn).

Arguments Ok {A} a.
Arguments Raise {A} e.

Definition bind {A B} (r : result A) (k : A -> result B) : result B :=
  match r with
  | Ok a => k a
  | Raise e => Raise e
  end.

Notation "x <- r ;; k" := (bind r (fun x => k))
  (at level 100, r at next level, right associativity).

(** ** Models *)

Inductive DeviceType : Type := AP | CLIENT | BRIDGE | ADHOC | UNKNOWN.

Definition DeviceType_value (t : DeviceType) : string :=
  match t with
  | AP => "ap" | CLIENT => "client" | BRIDGE => "bridge"
  | ADHOC => "adhoc" | UNKNOWN => "unknown"
  end.

Inductive BTDeviceType : Type := CLASSIC | BLE | DUAL | BT_UNKNOWN.

Definition BTDeviceType_value (t : BTDeviceType) : string :=
  match t with
  | CLASSIC => "classic" | BLE => "ble" | DUAL => "dual" | BT_UNKNOWN => "unknown"
  end.

Inductive ScanStatus : Type := RUNNING | STOPPED | ERROR | STARTING | STOPPING.

Definition ScanStatus_value (s : ScanStatus) : string :=
  match s with
  | RUNNING => "running" | STOPPED => "stopped" | ERROR => "error"
  | STARTING => "starting" | STOPPING => "stopping"
  end.

(** The value of a field declared with the type [A]: an object of that
    type, or the [str] that stands in its place once a record has been
    written with [to_dict] and read back with [json.loads]. *)
Inductive dyn (A : Type) : Type :=
| Obj (a : A)
| Text (s : string).

Arguments Obj {A} a.
Arguments Text {A} s.

(** [x.isoformat()] *)
Definition isoformat_of (x : dyn Py.datetime) : result string :=
  match x with
  | Obj d => Ok (Py.isoformat d)
  | Text _ => Raise AttributeError
  end.

(** [x.value] *)
Definition value_of {A} (value : A -> string) (x : dyn A) : result string :=
  match x with
  | Obj a => Ok (value a)
  | Text _ => Raise AttributeError
  end.

(** [x.value if hasattr(x, 'value') else x] *)
Definition value_or_self {A} (value : A -> string) (x : dyn A) : string :=
  match x with
  | Obj a => value a
  | Text s => s
  end.

(** A [Dict[str, Any]]. *)
Definition dict : Type := list (string * Py.json).

(** [json.dumps(d) if d else None] *)
Definition dumps_if_truthy (d : option dict) : option string :=
  match d with
  | Some (kv :: rest) => Some (Py.dumps false (Py.JDict (kv :: rest)))
  | Some [] => None
  | None => None
  end.

(** [json.dumps(l)] for a list of [str]. *)
Definition dumps_strs (l : list string) : string :=
  Py.dumps false (Py.JList (List.map Py.JStr l)).

(** [COALESCE(?, column)] *)
Definition coalesce {A} (incoming old : option A) : option A :=
  match incoming with
  | Some v => Some v
  | None => old
  end.

(** Equality of two strings, and of a column with a parameter that may be
    [NULL]: a comparison with [NULL] is never true. *)
Definition eqs (a b : string) : bool := String.eqb a b.

Definition eq_param (column : string) (param : option string) : bool :=
  match param with
  | Some p => eqs column p
  | None => false
  end.

(** ** Parameters of a statement *)

(** [sqlite3] binds an [int] as a signed integer of 64 bits and raises
    [OverflowError] for any other, when the statement is executed and
    before it runs: after the parameters have been evaluated, before any
    constraint is checked. *)
Definition int64 (z : Z) : bool := (- 2 ^ 63 <=? z) && (z <? 2 ^ 63).

(** Whether the [int] parameters of a statement can be bound; [None] is
    bound as [NULL]. *)
Definition fits (params : list (option Z)) : bool :=
  forallb (fun x => match x with Some z => int64 z | None => true end) params.

(** [math.isnan] on the type of Python's [float] and of the [REAL]
    columns. *)
Class Float (real : Type) := isnan : real -> bool.

Section Tables.

(** [real] is the type of the [REAL] columns and of Python's [float]. *)
Context {real : Type} {real_float : Float real}.

(** A [float] bound to a parameter: SQLite stores a NaN as [NULL]. *)
Definition bound (x : option real) : option real :=
  match x with
  | Some v => if isnan v then None else Some v
  | None => None
  end.

Record ScanSession : Type := {
  ss_session_id : string;
  ss_start_time : Py.datetime;
  ss_end_time : option Py.datetime;
  ss_status : dyn ScanStatus;
  ss_property_id : option string;
  ss_operator : option string;
  ss_scan_type : string;
  ss_notes : option string;
  ss_node_id : option string;
  ss_swarm_session_id : option string;
  ss_wifi_device_count : Z;
  ss_bt_device_count : Z }.

Record WiFiDevice : Type := {
  device_key : string;
  bssid : string;
  essid : option string;
  device_type : dyn DeviceType;
  channel : option Z;
  frequency : option Z;
  signal_dbm : option Z;
  encryption : option string;
  manufacturer : option string;
  packets_total : Z;
  first_seen : dyn Py.datetime;
  last_seen : dyn Py.datetime;
  gps_lat : option real;
  gps_lon : option real;
  gps_alt : option real;
  gps_valid : bool;
  fingerprint_hash : option string;
  fingerprint_data : option dict;
  is_known : bool;
  identified_as : option string;
  session_id : option string;
  is_duplicate : bool;
  duplicate_of_id : option Z;
  seen_by_nodes : list string }.

Record BTDevice : Type := {
  bt_device_key : string;
  mac_address : string;
  device_name : option string;
  bt_device_type : dyn BTDeviceType;
  device_class : option string;
  rssi : option Z;
  bt_manufacturer : option string;
  service_uuids : list string;
  bt_first_seen : dyn Py.datetime;
  bt_last_seen : dyn Py.datetime;
  bt_gps_lat : option real;
  bt_gps_lon : option real;
  bt_gps_alt : option real;
  bt_gps_valid : bool;
  bt_fingerprint_hash : option string;
  bt_fingerprint_data : option dict;
  bt_is_known : bool;
  bt_identified_as : option string;
  bt_session_id : option string;
  bt_is_duplicate : bool;
  bt_duplicate_of_id : option Z;
  bt_seen_by_nodes : list string }.


(** ** Rows *)

(** The columns of each table; a column that may be [NULL] is an
    [option]. *)

Record SessionRow : Type := {
  s_id : Z;
  s_session_id : string;
  s_start_time : string;
  s_end_time : option string;
  s_status : string;
  s_property_id : option string;
  s_operator : option string;
  s_scan_type : string;
  s_notes : option string;
  s_node_id : option string;
  s_swarm_session_id : option string;
  s_wifi_device_count : Z;
  s_bt_device_count : Z }.

Record WifiRow : Type := {
  w_id : Z;
  w_session_id : string;
  w_device_key : string;
  w_bssid : string;
  w_essid : option string;
  w_device_type : string;
  w_channel : option Z;
  w_frequency : option Z;
  w_signal_dbm : option Z;
  w_encryption : option string;
  w_manufacturer : option string;
  w_packets_total : Z;
  w_first_seen : string;
  w_last_seen : string;
  w_gps_lat : option real;
  w_gps_lon : option real;
  w_gps_alt : option real;
  w_gps_valid : bool;
  w_fingerprint_hash : option string;
  w_fingerprint_data : option string;
  w_is_known : bool;
  w_identified_as : option string;
  w_is_duplicate : bool;
  w_duplicate_of_id : option Z;
  w_seen_by_nodes : option string }.

Record BtRow : Type := {
  b_id : Z;
  b_session_id : string;
  b_device_key : string;
  b_mac_address : string;
  b_device_name : option string;
  b_device_type : string;
  b_device_class : option string;
  b_rssi : option Z;
  b_manufacturer : option string;
  b_service_uuids : option string;
  b_first_seen : string;
  b_last_seen : string;
  b_gps_lat : option real;
  b_gps_lon : option real;
  b_gps_alt : option real;
  b_gps_valid : bool;
  b_fingerprint_hash : option string;
  b_fingerprint_data : option string;
  b_is_known : bool;
  b_identified_as : option string;
  b_is_duplicate : bool;
  b_duplicate_of_id : option Z;
  b_seen_by_nodes : option string }.

Record GpsRow : Type := {
  g_id : Z;
  g_session_id : string;
  g_timestamp : string;
  g_latitude : option real;
  g_longitude : option real;
  g_altitude : option real;
  g_speed : option real;
  g_track : option real;
  g_fix_quality : Z;
  g_hdop : option real;
  g_satellites : Z }.

Record SignatureRow : Type := {
  f_id : Z;
  f_fingerprint_hash : string;
  f_device_type : string;
  f_device_model : option string;
  f_os_version : option string;
  f_confidence : real;
  f_identifiers : string;
  f_first_seen : string;
  f_times_seen : Z;
  f_notes : option string }.

(** A line of a buffer file, read with [json.loads]: an object whose keys
    the constructor of [WiFiDevice] accepts, given as the device the
    constructor builds from them; an object whose keys the constructor of
    [BTDevice] accepts; or anything else (text that is not JSON, or an
    object neither constructor accepts). *)
Inductive line : Type :=
| WifiObject (d : WiFiDevice)
| BtObject (d : BTDevice)
| OtherLine.

(** The tables in [rowid] order with the largest [rowid] each table has
    handed out ([AUTOINCREMENT]), and the files of [backup_dir] as the
    directory listing yields them. *)
Record Database : Type := {
  scan_sessions : list SessionRow;
  wifi_devices : list WifiRow;
  bt_devices : list BtRow;
  gps_track : list GpsRow;
  fingerprint_signatures : list SignatureRow;
  seq_sessions : Z;
  seq_wifi : Z;
  seq_bt : Z;
  seq_gps : Z;
  seq_signatures : Z;
  backup_dir : list (string * list line) }.

(** [Database(...)] followed by [initialize_schema()] on a new file. *)
Definition initialize_schema : Database :=
  {| scan_sessions := []; wifi_devices := []; bt_devices := [];
     gps_track := []; fingerprint_signatures := [];
     seq_sessions := 0; seq_wifi := 0; seq_bt := 0; seq_gps := 0;
     seq_signatures := 0; backup_dir := [] |}.


(** ** Updating one table *)

Definition with_sessions (self : Database) (rows : list SessionRow) (seq : Z) : Database :=
  {| scan_sessions := rows; wifi_devices := wifi_devices self;
     bt_devices := bt_devices self; gps_track := gps_track self;
     fingerprint_signatures := fingerprint_signatures self;
     seq_sessions := seq; seq_wifi := seq_wifi self; seq_bt := seq_bt self;
     seq_gps := seq_gps self; seq_signatures := seq_signatures self;
     backup_dir := backup_dir self |}.

Definition with_wifi (self : Database) (rows : list WifiRow) (seq : Z) : Database :=
  {| scan_sessions := scan_sessions self; wifi_devices := rows;
     bt_devices := bt_devices self; gps_track := gps_track self;
     fingerprint_signatures := fingerprint_signatures self;
     seq_sessions := seq_sessions self; seq_wifi := seq; seq_bt := seq_bt self;
     seq_gps := seq_gps self; seq_signatures := seq_signatures self;
     backup_dir := backup_dir self |}.

Definition with_bt (self : Database) (rows : list BtRow) (seq : Z) : Database :=
  {| scan_sessions := scan_sessions self; wifi_devices := wifi_devices self;
     bt_devices := rows; gps_track := gps_track self;
     fingerprint_signatures := fingerprint_signatures self;
     seq_sessions := seq_sessions self; seq_wifi := seq_wifi self; seq_bt := seq;
     seq_gps := seq_gps self; seq_signatures := seq_signatures self;
     backup_dir := backup_dir self |}.

Definition with_gps (self : Database) (rows : list GpsRow) (seq : Z) : Database :=
  {| scan_sessions := scan_sessions self; wifi_devices := wifi_devices self;
     bt_devices := bt_devices self; gps_track := rows;
     fingerprint_signatures := fingerprint_signatures self;
     seq_sessions := seq_sessions self; seq_wifi := seq_wifi self;
     seq_bt := seq_bt self; seq_gps := seq; seq_signatures := seq_signatures self;
     backup_dir := backup_dir self |}.


Definition with_backup_dir (self : Database) (files : list (string * list line))
  : Database :=
  {| scan_sessions := scan_sessions self; wifi_devices := wifi_devices self;
     bt_devices := bt_devices self; gps_track := gps_track self;
     fingerprint_signatures := fingerprint_signatures self;
     seq_sessions := seq_sessions self; seq_wifi := seq_wifi self;
     seq_bt := seq_bt self; seq_gps := seq_gps self;
     seq_signatures := seq_signatures self;
     backup_dir := files |}.

(** The foreign key of the child tables: a row of [scan_sessions] has the
    session id. *)
Definition session_exists (self : Database) (sid : string) : bool :=
  existsb (fun r => eqs (s_session_id r) sid) (scan_sessions self).

(** ** Scan sessions *)

(** A statement that violates a constraint raises [sqlite3.IntegrityError];
    the transaction rolls back and raises it again, and the database is as
    it was. *)
Definition create_session (self : Database) (session : ScanSession)
  : result (Z * Database) :=
  if session_exists self (ss_session_id session) then Raise SqliteError
  else
    let id := seq_sessions self + 1 in
    Ok (id,
        with_sessions self
          (scan_sessions self ++
           [ {| s_id := id;
                s_session_id := ss_session_id session;
                s_start_time := Py.isoformat (ss_start_time session);
                s_end_time := None;
                s_status := value_or_self ScanStatus_value (ss_status session);
                s_property_id := ss_property_id session;
                s_operator := ss_operator session;
                s_scan_type := ss_scan_type session;
                s_notes := ss_notes session;
                s_node_id := ss_node_id session;
                s_swarm_session_id := ss_swarm_session_id session;
                s_wifi_device_count := 0;
                s_bt_device_count := 0 |} ])
          id).

(** [UPDATE scan_sessions SET end_time = ? WHERE session_id = ?] on one
    row. *)
Definition set_end_time (end_time : string) (r : SessionRow) : SessionRow :=
  {| s_id := s_id r; s_session_id := s_session_id r;
     s_start_time := s_start_time r;
     s_end_time := Some end_time;
     s_status := s_status r;
     s_property_id := s_property_id r; s_operator := s_operator r;
     s_scan_type := s_scan_type r; s_notes := s_notes r;
     s_node_id := s_node_id r; s_swarm_session_id := s_swarm_session_id r;
     s_wifi_device_count := s_wifi_device_count r;
     s_bt_device_count := s_bt_device_count r |}.

(** [now] is [datetime.utcnow()]. *)
Definition end_session (self : Database) (session_id : string)
    (end_time : option Py.datetime) (now : Py.datetime) : Database :=
  let end_time := Py.or_now end_time now in
  with_sessions self
    (List.map (fun r => if eqs (s_session_id r) session_id
                        then set_end_time (Py.isoformat end_time) r else r)
       (scan_sessions self))
    (seq_sessions self).

(** [UPDATE scan_sessions SET end_time = ?, status = ?, wifi_device_count
    = ?, bt_device_count = ? WHERE session_id = ?] on one row. *)
Definition set_session_values (session : ScanSession) (r : SessionRow) : SessionRow :=
  {| s_id := s_id r; s_session_id := s_session_id r;
     s_start_time := s_start_time r;
     s_end_time := option_map Py.isoformat (ss_end_time session);
     s_status := value_or_self ScanStatus_value (ss_status session);
     s_property_id := s_property_id r; s_operator := s_operator r;
     s_scan_type := s_scan_type r; s_notes := s_notes r;
     s_node_id := s_node_id r; s_swarm_session_id := s_swarm_session_id r;
     s_wifi_device_count := ss_wifi_device_count session;
     s_bt_device_count := ss_bt_device_count session |}.

Definition update_session (self : Database) (session : ScanSession) : Database :=
  with_sessions self
    (List.map (fun r => if eqs (s_session_id r) (ss_session_id session)
                        then set_session_values session r else r)
       (scan_sessions self))
    (seq_sessions self).

Definition get_session (self : Database) (session_id : string) : option SessionRow :=
  List.find (fun r => eqs (s_session_id r) session_id) (scan_sessions self).

(** ** Wi-Fi devices *)

(** The [UPDATE wifi_devices SET ... WHERE id = ?] of [_do_insert_wifi] on
    one row. *)
Definition merge_wifi (device : WiFiDevice) (last_seen : string) (r : WifiRow)
  : WifiRow :=
  {| w_id := w_id r;
     w_session_id := w_session_id r;
     w_device_key := w_device_key r;
     w_bssid := w_bssid r;
     w_essid := coalesce (essid device) (w_essid r);
     w_device_type := w_device_type r;
     w_channel := coalesce (channel device) (w_channel r);
     w_frequency := coalesce (frequency device) (w_frequency r);
     w_signal_dbm := signal_dbm device;
     w_encryption := coalesce (encryption device) (w_encryption r);
     w_manufacturer := w_manufacturer r;
     w_packets_total := packets_total device;
     w_first_seen := w_first_seen r;
     w_last_seen := last_seen;
     w_gps_lat := bound (gps_lat device);
     w_gps_lon := bound (gps_lon device);
     w_gps_alt := bound (gps_alt device);
     w_gps_valid := gps_valid device;
     w_fingerprint_hash := coalesce (fingerprint_hash device) (w_fingerprint_hash r);
     w_fingerprint_data :=
       coalesce (dumps_if_truthy (fingerprint_data device)) (w_fingerprint_data r);
     w_is_known := w_is_known r;
     w_identified_as := w_identified_as r;
     w_is_duplicate := w_is_duplicate r;
     w_duplicate_of_id := w_duplicate_of_id r;
     w_seen_by_nodes := w_seen_by_nodes r |}.

(** The row [INSERT INTO wifi_devices] adds; [is_duplicate] and
    [duplicate_of_id] take their defaults. *)
Definition new_wifi_row (id : Z) (session_id : string) (device : WiFiDevice)
    (device_type first_seen last_seen : string) : WifiRow :=
  {| w_id := id;
     w_session_id := session_id;
     w_device_key := device_key device;
     w_bssid := bssid device;
     w_essid := essid device;
     w_device_type := device_type;
     w_channel := channel device;
     w_frequency := frequency device;
     w_signal_dbm := signal_dbm device;
     w_encryption := encryption device;
     w_manufacturer := manufacturer device;
     w_packets_total := packets_total device;
     w_first_seen := first_seen;
     w_last_seen := last_seen;
     w_gps_lat := bound (gps_lat device);
     w_gps_lon := bound (gps_lon device);
     w_gps_alt := bound (gps_alt device);
     w_gps_valid := gps_valid device;
     w_fingerprint_hash := fingerprint_hash device;
     w_fingerprint_data := dumps_if_truthy (fingerprint_data device);
     w_is_known := is_known device;
     w_identified_as := identified_as device;
     w_is_duplicate := false;
     w_duplicate_of_id := None;
     w_seen_by_nodes := Some (dumps_strs (seen_by_nodes device)) |}.

(** [SELECT id, packets_total FROM wifi_devices WHERE session_id = ? AND
    device_key = ?], [fetchone()]. *)
Definition find_wifi (self : Database) (session_id : option string) (key : string)
  : option WifiRow :=
  List.find (fun r => eq_param (w_session_id r) session_id && eqs (w_device_key r) key)
    (wifi_devices self).

(** The [int] parameters of the [UPDATE] and of the [INSERT] of
    [_do_insert_wifi]. *)
Definition wifi_ints (device : WiFiDevice) : list (option Z) :=
  [channel device; frequency device; signal_dbm device; Some (packets_total device)].

(** The parameters of a statement are evaluated before it runs, so an
    [AttributeError] comes before any error of the database; they are
    bound before it runs, so an [OverflowError] comes before the error of
    a violated constraint. *)
Definition _do_insert_wifi (self : Database) (device : WiFiDevice) : result Database :=
  match find_wifi self (session_id device) (device_key device) with
  | Some existing =>
      last_seen <- isoformat_of (last_seen device) ;;
      if fits (wifi_ints device) then
        Ok (with_wifi self
              (List.map (fun r => if w_id r =? w_id existing
                                  then merge_wifi device last_seen r else r)
                 (wifi_devices self))
              (seq_wifi self))
      else Raise OverflowError
  | None =>
      device_type <- value_of DeviceType_value (device_type device) ;;
      first_seen <- isoformat_of (first_seen device) ;;
      last_seen <- isoformat_of (last_seen device) ;;
      if fits (wifi_ints device) then
        match session_id device with
        | None => Raise SqliteError
        | Some sid =>
            if session_exists self sid then
              let id := seq_wifi self + 1 in
              Ok (with_wifi self
                    (wifi_devices self ++
                     [new_wifi_row id sid device device_type first_seen last_seen])
                    id)
            else Raise SqliteError
        end
      else Raise OverflowError
  end.

(** [device.to_dict()], written with [json.dumps] and read back with
    [json.loads] and the constructor: the enumeration and the two
    timestamps come back as [str], and [duplicate_of_id], which [to_dict]
    leaves out, takes its default. *)
Definition wifi_to_dict (device : WiFiDevice) : result line :=
  device_type <- value_of DeviceType_value (device_type device) ;;
  first_seen <- isoformat_of (first_seen device) ;;
  last_seen <- isoformat_of (last_seen device) ;;
  Ok (WifiObject
        {| device_key := device_key device; bssid := bssid device;
           essid := essid device; device_type := Text device_type;
           channel := channel device; frequency := frequency device;
           signal_dbm := signal_dbm device; encryption := encryption device;
           manufacturer := manufacturer device;
           packets_total := packets_total device;
           first_seen := Text first_seen; last_seen := Text last_seen;
           gps_lat := gps_lat device; gps_lon := gps_lon device;
           gps_alt := gps_alt device; gps_valid := gps_valid device;
           fingerprint_hash := fingerprint_hash device;
           fingerprint_data := fingerprint_data device;
           is_known := is_known device; identified_as := identified_as device;
           session_id := session_id device; is_duplicate := is_duplicate device;
           duplicate_of_id := None;
           seen_by_nodes := seen_by_nodes device |}).

(** ** The buffer files *)

Definition buffer_file_name (record_type : string) (epoch : Z) : string :=
  "buffer_" +:+ record_type +:+ "_" +:+ Py.str_of_int epoch +:+ ".jsonl".

(** [open(name, "a")] and one [write]. *)
Fixpoint append_line (name : string) (l : line) (files : list (string * list line))
  : list (string * list line) :=
  match files with
  | [] => [(name, [l])]
  | (n, ls) :: rest =>
      if eqs n name then (n, ls ++ [l]) :: rest
      else (n, ls) :: append_line name l rest
  end.

(** [epoch] is [int(time.time())]. *)
Definition _buffer_to_file (self : Database) (record_type : string) (data : line)
    (epoch : Z) : Database :=
  with_backup_dir self
    (append_line (buffer_file_name record_type epoch) data (backup_dir self)).

(** The loop [for attempt in range(retries)] of [insert_wifi_device]: an
    [sqlite3.Error] leads to the next attempt, any other exception leaves
    the function.  [None] is the end of the loop without a [return]. *)
Fixpoint wifi_attempts (n : nat) (self : Database) (device : WiFiDevice)
  : result (option Database) :=
  match n with
  | O => Ok None
  | S n' =>
      match _do_insert_wifi self device with
      | Ok self' => Ok (Some self')
      | Raise SqliteError => wifi_attempts n' self device
      | Raise e => Raise e
      end
  end.

Definition insert_wifi_device (self : Database) (device : WiFiDevice)
    (retries : Z) (epoch : Z) : result (bool * Database) :=
  attempt <- wifi_attempts (Z.to_nat retries) self device ;;
  match attempt with
  | Some self' => Ok (true, self')
  | None =>
      data <- wifi_to_dict device ;;
      Ok (false, _buffer_to_file self "wifi" data epoch)
  end.

(** ** Bluetooth devices *)

(** The [UPDATE bt_devices SET ... WHERE id = ?] of [_do_insert_bt] on one
    row; [json.dumps(device.service_uuids)] is never [NULL]. *)
Definition merge_bt (device : BTDevice) (last_seen : string) (r : BtRow) : BtRow :=
  {| b_id := b_id r;
     b_session_id := b_session_id r;
     b_device_key := b_device_key r;
     b_mac_address := b_mac_address r;
     b_device_name := coalesce (device_name device) (b_device_name r);
     b_device_type := b_device_type r;
     b_device_class := coalesce (device_class device) (b_device_class r);
     b_rssi := rssi device;
     b_manufacturer := b_manufacturer r;
     b_service_uuids :=
       coalesce (Some (dumps_strs (service_uuids device))) (b_service_uuids r);
     b_first_seen := b_first_seen r;
     b_last_seen := last_seen;
     b_gps_lat := bound (bt_gps_lat device);
     b_gps_lon := bound (bt_gps_lon device);
     b_gps_alt := bound (bt_gps_alt device);
     b_gps_valid := bt_gps_valid device;
     b_fingerprint_hash :=
       coalesce (bt_fingerprint_hash device) (b_fingerprint_hash r);
     b_fingerprint_data :=
       coalesce (dumps_if_truthy (bt_fingerprint_data device)) (b_fingerprint_data r);
     b_is_known := b_is_known r;
     b_identified_as := b_identified_as r;
     b_is_duplicate := b_is_duplicate r;
     b_duplicate_of_id := b_duplicate_of_id r;
     b_seen_by_nodes := b_seen_by_nodes r |}.

Definition new_bt_row (id : Z) (session_id : string) (device : BTDevice)
    (device_type first_seen last_seen : string) : BtRow :=
  {| b_id := id;
     b_session_id := session_id;
     b_device_key := bt_device_key device;
     b_mac_address := mac_address device;
     b_device_name := device_name device;
     b_device_type := device_type;
     b_device_class := device_class device;
     b_rssi := rssi device;
     b_manufacturer := bt_manufacturer device;
     b_service_uuids := Some (dumps_strs (service_uuids device));
     b_first_seen := first_seen;
     b_last_seen := last_seen;
     b_gps_lat := bound (bt_gps_lat device);
     b_gps_lon := bound (bt_gps_lon device);
     b_gps_alt := bound (bt_gps_alt device);
     b_gps_valid := bt_gps_valid device;
     b_fingerprint_hash := bt_fingerprint_hash device;
     b_fingerprint_data := dumps_if_truthy (bt_fingerprint_data device);
     b_is_known := bt_is_known device;
     b_identified_as := bt_identified_as device;
     b_is_duplicate := false;
     b_duplicate_of_id := None;
     b_seen_by_nodes := Some (dumps_strs (bt_seen_by_nodes device)) |}.

Definition find_bt (self : Database) (session_id : option string) (key : string)
  : option BtRow :=
  List.find (fun r => eq_param (b_session_id r) session_id && eqs (b_device_key r) key)
    (bt_devices self).

(** [rssi] is the one [int] parameter of the two statements. *)
Definition _do_insert_bt (self : Database) (device : BTDevice) : result Database :=
  match find_bt self (bt_session_id device) (bt_device_key device) with
  | Some existing =>
      last_seen <- isoformat_of (bt_last_seen device) ;;
      if fits [rssi device] then
        Ok (with_bt self
              (List.map (fun r => if b_id r =? b_id existing
                                  then merge_bt device last_seen r else r)
                 (bt_devices self))
              (seq_bt self))
      else Raise OverflowError
  | None =>
      device_type <- value_of BTDeviceType_value (bt_device_type device) ;;
      first_seen <- isoformat_of (bt_first_seen device) ;;
      last_seen <- isoformat_of (bt_last_seen device) ;;
      if fits [rssi device] then
        match bt_session_id device with
        | None => Raise SqliteError
        | Some sid =>
            if session_exists self sid then
              let id := seq_bt self + 1 in
              Ok (with_bt self
                    (bt_devices self ++
                     [new_bt_row id sid device device_type first_seen last_seen])
                    id)
            else Raise SqliteError
        end
      else Raise OverflowError
  end.

Definition bt_to_dict (device : BTDevice) : result line :=
  device_type <- value_of BTDeviceType_value (bt_device_type device) ;;
  first_seen <- isoformat_of (bt_first_seen device) ;;
  last_seen <- isoformat_of (bt_last_seen device) ;;
  Ok (BtObject
        {| bt_device_key := bt_device_key device;
           mac_address := mac_address device;
           device_name := device_name device;
           bt_device_type := Text device_type;
           device_class := device_class device; rssi := rssi device;
           bt_manufacturer := bt_manufacturer device;
           service_uuids := service_uuids device;
           bt_first_seen := Text first_seen; bt_last_seen := Text last_seen;
           bt_gps_lat := bt_gps_lat device; bt_gps_lon := bt_gps_lon device;
           bt_gps_alt := bt_gps_alt device; bt_gps_valid := bt_gps_valid device;
           bt_fingerprint_hash := bt_fingerprint_hash device;
           bt_fingerprint_data := bt_fingerprint_data device;
           bt_is_known := bt_is_known device;
           bt_identified_as := bt_identified_as device;
           bt_session_id := bt_session_id device;
           bt_is_duplicate := bt_is_duplicate device;
           bt_duplicate_of_id := None;
           bt_seen_by_nodes := bt_seen_by_nodes device |}).

Fixpoint bt_attempts (n : nat) (self : Database) (device : BTDevice)
  : result (option Database) :=
  match n with
  | O => Ok None
  | S n' =>
      match _do_insert_bt self device with
      | Ok self' => Ok (Some self')
      | Raise SqliteError => bt_attempts n' self device
      | Raise e => Raise e
      end
  end.

Definition insert_bt_device (self : Database) (device : BTDevice)
    (retries : Z) (epoch : Z) : result (bool * Database) :=
  attempt <- bt_attempts (Z.to_nat retries) self device ;;
  match attempt with
  | Some self' => Ok (true, self')
  | None =>
      data <- bt_to_dict device ;;
      Ok (false, _buffer_to_file self "bt" data epoch)
  end.

(** ** GPS track *)

Definition insert_gps_point (self : Database) (session_id : string)
    (lat lon alt speed track : option real) (fix_quality : Z)
    (hdop : option real) (satellites : Z)
    (timestamp : option Py.datetime) (now : Py.datetime) : result Database :=
  let timestamp := Py.or_now timestamp now in
  if fits [Some fix_quality; Some satellites] then
    if session_exists self session_id then
      let id := seq_gps self + 1 in
      Ok (with_gps self
            (gps_track self ++
             [ {| g_id := id; g_session_id := session_id;
                  g_timestamp := Py.isoformat timestamp;
                  g_latitude := bound lat; g_longitude := bound lon;
                  g_altitude := bound alt;
                  g_speed := bound speed; g_track := bound track;
                  g_fix_quality := fix_quality; g_hdop := bound hdop;
                  g_satellites := satellites |} ])
            id)
    else Raise SqliteError
  else Raise OverflowError.

(** ** Fingerprint signatures *)





(** ** Statistics *)

Record Stats : Type := {
  stat_wifi_devices : Z;
  stat_wifi_unknown : Z;
  stat_bt_devices : Z;
  stat_bt_unknown : Z;
  stat_gps_points : Z }.

(** [SELECT COUNT( * ) FROM ... WHERE ...] *)
Definition count {A} (p : A -> bool) (rows : list A) : Z :=
  Z.of_nat (List.length (List.filter p rows)).

Definition get_session_stats (self : Database) (session_id : string) : Stats :=
  {| stat_wifi_devices :=
       count (fun r => eqs (w_session_id r) session_id) (wifi_devices self);
     stat_wifi_unknown :=
       count (fun r => eqs (w_session_id r) session_id && negb (w_is_known r))
         (wifi_devices self);
     stat_bt_devices :=
       count (fun r => eqs (b_session_id r) session_id) (bt_devices self);
     stat_bt_unknown :=
       count (fun r => eqs (b_session_id r) session_id && negb (b_is_known r))
         (bt_devices self);
     stat_gps_points :=
       count (fun r => eqs (g_session_id r) session_id) (gps_track self) |}.

(** ** Draining the buffer *)

Definition has_suffix (suffix s : string) : bool :=
  let n := String.length s in
  let k := String.length suffix in
  (k <=? n)%nat && eqs (String.substring (n - k) k s) suffix.

(** A name that the pattern [buffer_*.jsonl] matches. *)
Definition is_buffer_file (name : string) : bool :=
  String.prefix "buffer_" name && has_suffix ".jsonl" name
  && (13 <=? String.length name)%nat.

(** [s.split(sep)] for a one-character separator. *)
Fixpoint split (sep : ascii) (s : string) : list string :=
  match s with
  | EmptyString => [EmptyString]
  | String c s' =>
      if Ascii.eqb c sep then EmptyString :: split sep s'
      else
        match split sep s' with
        | [] => [String c EmptyString]
        | w :: ws => String c w :: ws
        end
  end.

(** [buffer_file.stem.split("_")[1]] for a name that ends in [.jsonl]. *)
Definition record_type_of (name : string) : string :=
  let stem := String.substring 0 (String.length name - 6) name in
  nth 1 (split "_" stem) "".

(** The body of the loop over the lines: every exception is caught and
    logged, the line's record is then in neither the database nor, once the
    file is removed, the buffer. *)
Definition replay (record_type : string) (st : Z * Database) (l : line)
  : Z * Database :=
  let '(imported, self) := st in
  if eqs record_type "wifi" then
    match l with
    | WifiObject device =>
        match _do_insert_wifi self device with
        | Ok self' => (imported + 1, self')
        | Raise _ => (imported, self)
        end
    | _ => (imported, self)
    end
  else if eqs record_type "bt" then
    match l with
    | BtObject device =>
        match _do_insert_bt self device with
        | Ok self' => (imported + 1, self')
        | Raise _ => (imported, self)
        end
    | _ => (imported, self)
    end
  else (imported, self).

(** [buffer_file.unlink()] *)
Definition unlink (name : string) (self : Database) : Database :=
  with_backup_dir self
    (List.filter (fun f => negb (eqs (fst f) name)) (backup_dir self)).

(** The body of the loop over the buffer files. *)
Definition drain_file (st : Z * Database) (file : string * list line)
  : Z * Database :=
  let '(name, lines) := file in
  if is_buffer_file name then
    let '(imported, self) := fold_left (replay (record_type_of name)) lines st in
    (imported, unlink name self)
  else st.

Definition import_buffered_records (self : Database) : Z * Database :=
  fold_left drain_file (backup_dir self) (0, self).

(** ** Lists as tables *)

Lemma find_split {A} (p : A -> bool) (l : list A) (x : A) :
  List.find p l = Some x ->
  exists l1 l2, l = l1 ++ x :: l2 /\ p x = true /\ List.find p l1 = None.
Proof.
  induction l as [|y l IH]; simpl; [discriminate|].
  destruct (p y) eqn:E.
  - intros [= ->]. exists [], l. auto.
  - intros H. destruct (IH H) as (l1 & l2 & -> & Hx & Hn).
    exists (y :: l1), l2. simpl. rewrite E. auto.
Qed.

Lemma find_app_none {A} (p : A -> bool) (l1 l2 : list A) :
  List.find p l1 = None -> List.find p (l1 ++ l2) = List.find p l2.
Proof.
  induction l1 as [|y l1 IH]; simpl; [reflexivity|].
  destruct (p y); [discriminate|exact IH].
Qed.

(** An [UPDATE ... WHERE id = ?] on a table whose ids are distinct changes
    the one row with that id. *)
Lemma update_by_id {A} (id : A -> Z) (f : A -> A) (l1 l2 : list A) (x : A) :
  List.NoDup (List.map id (l1 ++ x :: l2)) ->
  List.map (fun r => if id r =? id x then f r else r) (l1 ++ x :: l2)
  = l1 ++ f x :: l2.
Proof.
  intros Hnd.
  assert (Hother : forall r, In r (l1 ++ l2) -> (id r =? id x) = false).
  { intros r Hr. apply Z.eqb_neq. intros E.
    rewrite List.map_app in Hnd. cbn [List.map] in Hnd.
    apply List.NoDup_remove_2 in Hnd. apply Hnd.
    rewrite <- List.map_app, <- E. now apply List.in_map. }
  rewrite List.map_app. cbn [List.map]. rewrite Z.eqb_refl. f_equal; [|f_equal].
  - rewrite <- (List.map_id l1) at 2. apply List.map_ext_in.
    intros r Hr. rewrite Hother; [reflexivity|]. apply List.in_or_app. now left.
  - rewrite <- (List.map_id l2) at 2. apply List.map_ext_in.
    intros r Hr. rewrite Hother; [reflexivity|]. apply List.in_or_app. now right.
Qed.


(** ** Signatures: [times_seen] counts the inserts *)







(** ** Upserts merge into the existing row *)

(** The primary key of the two device tables. *)
Definition wifi_ids_distinct (self : Database) : Prop :=
  List.NoDup (List.map w_id (wifi_devices self)).

Definition bt_ids_distinct (self : Database) : Prop :=
  List.NoDup (List.map b_id (bt_devices self)).

(** The merge rules for a Wi-Fi row, column by column: [old] is the row
    before the call and [new] the row after it. *)
Definition wifi_merged (old : WifiRow) (device : WiFiDevice) (last_seen : Py.datetime)
    (new : WifiRow) : Prop :=
  (* coalesce *)
  w_essid new = coalesce (essid device) (w_essid old)
  /\ w_encryption new = coalesce (encryption device) (w_encryption old)
  /\ w_fingerprint_hash new = coalesce (fingerprint_hash device) (w_fingerprint_hash old)
  /\ w_fingerprint_data new
     = match fingerprint_data device with
       | Some (kv :: rest) => Some (Py.dumps false (Py.JDict (kv :: rest)))
       | _ => w_fingerprint_data old
       end
  /\ w_channel new = coalesce (channel device) (w_channel old)
  /\ w_frequency new = coalesce (frequency device) (w_frequency old)
  (* replace *)
  /\ w_signal_dbm new = signal_dbm device
  /\ w_packets_total new = packets_total device
  /\ w_last_seen new = Py.isoformat last_seen
  /\ w_gps_lat new = bound (gps_lat device)
  /\ w_gps_lon new = bound (gps_lon device)
  /\ w_gps_alt new = bound (gps_alt device)
  /\ w_gps_valid new = gps_valid device
  (* keep *)
  /\ w_id new = w_id old
  /\ w_session_id new = w_session_id old
  /\ w_first_seen new = w_first_seen old
  /\ w_device_key new = w_device_key old
  /\ w_bssid new = w_bssid old
  /\ w_device_type new = w_device_type old
  /\ w_manufacturer new = w_manufacturer old
  /\ w_is_known new = w_is_known old
  /\ w_identified_as new = w_identified_as old
  /\ w_is_duplicate new = w_is_duplicate old
  /\ w_duplicate_of_id new = w_duplicate_of_id old
  /\ w_seen_by_nodes new = w_seen_by_nodes old.

Definition bt_merged (old : BtRow) (device : BTDevice) (last_seen : Py.datetime)
    (new : BtRow) : Prop :=
  (* coalesce *)
  b_device_name new = coalesce (device_name device) (b_device_name old)
  /\ b_device_class new = coalesce (device_class device) (b_device_class old)
  /\ b_fingerprint_hash new
     = coalesce (bt_fingerprint_hash device) (b_fingerprint_hash old)
  /\ b_fingerprint_data new
     = match bt_fingerprint_data device with
       | Some (kv :: rest) => Some (Py.dumps false (Py.JDict (kv :: rest)))
       | _ => b_fingerprint_data old
       end
  (* replace *)
  /\ b_rssi new = rssi device
  /\ b_service_uuids new = Some (dumps_strs (service_uuids device))
  /\ b_last_seen new = Py.isoformat last_seen
  /\ b_gps_lat new = bound (bt_gps_lat device)
  /\ b_gps_lon new = bound (bt_gps_lon device)
  /\ b_gps_alt new = bound (bt_gps_alt device)
  /\ b_gps_valid new = bt_gps_valid device
  (* keep *)
  /\ b_id new = b_id old
  /\ b_session_id new = b_session_id old
  /\ b_first_seen new = b_first_seen old
  /\ b_device_key new = b_device_key old
  /\ b_mac_address new = b_mac_address old
  /\ b_device_type new = b_device_type old
  /\ b_manufacturer new = b_manufacturer old
  /\ b_is_known new = b_is_known old
  /\ b_identified_as new = b_identified_as old
  /\ b_is_duplicate new = b_is_duplicate old
  /\ b_duplicate_of_id new = b_duplicate_of_id old
  /\ b_seen_by_nodes new = b_seen_by_nodes old.

Lemma merge_wifi_merged old device ls :
  wifi_merged old device ls (merge_wifi device (Py.isoformat ls) old).
Proof.
  unfold wifi_merged, merge_wifi; cbn. repeat split.
  unfold dumps_if_truthy. destruct (fingerprint_data device) as [[|kv rest]|]; reflexivity.
Qed.

Lemma merge_bt_merged old device ls :
  bt_merged old device ls (merge_bt device (Py.isoformat ls) old).
Proof.
  unfold bt_merged, merge_bt; cbn. repeat split.
  unfold dumps_if_truthy. destruct (bt_fingerprint_data device) as [[|kv rest]|]; reflexivity.
Qed.

Lemma wifi_attempts_ok n self device self' :
  _do_insert_wifi self device = Ok self' ->
  wifi_attempts (S n) self device = Ok (Some self').
Proof. intros H0. cbn. now rewrite H0. Qed.

Lemma bt_attempts_ok n self device self' :
  _do_insert_bt self device = Ok self' ->
  bt_attempts (S n) self device = Ok (Some self').
Proof. intros H0. cbn. now rewrite H0. Qed.

Lemma positive_retries retries : 0 < retries -> exists n, Z.to_nat retries = S n.
Proof. intros H0. exists (Z.to_nat (retries - 1)). lia. Qed.

Lemma upsert_wifi self device existing ls retries epoch :
  0 < retries ->
  wifi_ids_distinct self ->
  find_wifi self (session_id device) (device_key device) = Some existing ->
  last_seen device = Obj ls ->
  fits (wifi_ints device) = true ->
  exists self' before after new,
    insert_wifi_device self device retries epoch = Ok (true, self')
    /\ wifi_devices self = before ++ existing :: after
    /\ wifi_devices self' = before ++ new :: after
    /\ wifi_merged existing device ls new
    /\ self' = with_wifi self (wifi_devices self') (seq_wifi self).
Proof.
  intros Hr Hnd Hfind Hls Hfits.
  destruct (find_split _ _ _ Hfind) as (before & after & Hrows & _ & _).
  destruct (positive_retries retries Hr) as [n Hn].
  set (new := merge_wifi device (Py.isoformat ls) existing).
  set (self' := with_wifi self (before ++ new :: after) (seq_wifi self)).
  assert (Hdo : _do_insert_wifi self device = Ok self').
  { unfold _do_insert_wifi. rewrite Hfind, Hls. cbn [isoformat_of bind].
    rewrite Hfits. unfold self'. do 2 f_equal. rewrite Hrows.
    apply (update_by_id w_id). unfold wifi_ids_distinct in Hnd. now rewrite Hrows in Hnd. }
  exists self', before, after, new. repeat split.
  - unfold insert_wifi_device. rewrite Hn, (wifi_attempts_ok n _ _ _ Hdo). reflexivity.
  - exact Hrows.
  - apply merge_wifi_merged.
Qed.

Lemma upsert_bt self device existing ls retries epoch :
  0 < retries ->
  bt_ids_distinct self ->
  find_bt self (bt_session_id device) (bt_device_key device) = Some existing ->
  bt_last_seen device = Obj ls ->
  fits [rssi device] = true ->
  exists self' before after new,
    insert_bt_device self device retries epoch = Ok (true, self')
    /\ bt_devices self = before ++ existing :: after
    /\ bt_devices self' = before ++ new :: after
    /\ bt_merged existing device ls new
    /\ self' = with_bt self (bt_devices self') (seq_bt self).
Proof.
  intros Hr Hnd Hfind Hls Hfits.
  destruct (find_split _ _ _ Hfind) as (before & after & Hrows & _ & _).
  destruct (positive_retries retries Hr) as [n Hn].
  set (new := merge_bt device (Py.isoformat ls) existing).
  set (self' := with_bt self (before ++ new :: after) (seq_bt self)).
  assert (Hdo : _do_insert_bt self device = Ok self').
  { unfold _do_insert_bt. rewrite Hfind, Hls. cbn [isoformat_of bind].
    rewrite Hfits. unfold self'. do 2 f_equal. rewrite Hrows.
    apply (update_by_id b_id). unfold bt_ids_distinct in Hnd. now rewrite Hrows in Hnd. }
  exists self', before, after, new. repeat split.
  - unfold insert_bt_device. rewrite Hn, (bt_attempts_ok n _ _ _ Hdo). reflexivity.
  - exact Hrows.
  - apply merge_bt_merged.
Qed.

(** An upsert that raises leaves [insert_wifi_device]: the exception is
    no [sqlite3.Error], so no further attempt is made and nothing is
    buffered. *)
Lemma insert_wifi_raises self device retries epoch e :
  0 < retries ->
  e <> SqliteError ->
  _do_insert_wifi self device = Raise e ->
  insert_wifi_device self device retries epoch = Raise e.
Proof.
  intros Hr He Hdo. destruct (positive_retries retries Hr) as [n Hn].
  unfold insert_wifi_device. rewrite Hn. cbn [wifi_attempts].
  rewrite Hdo. now destruct e.
Qed.

Lemma insert_bt_raises self device retries epoch e :
  0 < retries ->
  e <> SqliteError ->
  _do_insert_bt self device = Raise e ->
  insert_bt_device self device retries epoch = Raise e.
Proof.
  intros Hr He Hdo. destruct (positive_retries retries Hr) as [n Hn].
  unfold insert_bt_device. rewrite Hn. cbn [bt_attempts].
  rewrite Hdo. now destruct e.
Qed.

(** C4, as the code has it: when the row for (session_id, device_key)
    exists, an insert with at least one attempt, a [datetime] as
    [last_seen] and [int] fields of at most 64 bits succeeds and changes
    that row only.  The text columns keep their value unless the incoming
    value is not null, [fingerprint_data] unless the incoming dictionary
    is not empty, and so do the channel and the frequency; signal, packet
    count, [last_seen] and the GPS columns take the incoming values, a NaN
    coordinate as [NULL]; every other column is kept, [first_seen],
    [device_key] and the address among them.  With a [str] as [last_seen]
    the insert raises [AttributeError] and with an [int] field beyond 64
    bits [OverflowError]; neither is retried nor buffered. *)
Theorem upsert_merges_existing_row :
  (forall self (device : WiFiDevice) existing retries epoch,
      0 < retries ->
      wifi_ids_distinct self ->
      find_wifi self (session_id device) (device_key device) = Some existing ->
      (forall ls,
          last_seen device = Obj ls ->
          fits (wifi_ints device) = true ->
          exists self' before after new,
            insert_wifi_device self device retries epoch = Ok (true, self')
            /\ wifi_devices self = before ++ existing :: after
            /\ wifi_devices self' = before ++ new :: after
            /\ wifi_merged existing device ls new
            /\ self' = with_wifi self (wifi_devices self') (seq_wifi self))
      /\ (forall ls,
            last_seen device = Obj ls ->
            fits (wifi_ints device) = false ->
            insert_wifi_device self device retries epoch = Raise OverflowError)
      /\ (forall s,
            last_seen device = Text s ->
            insert_wifi_device self device retries epoch = Raise AttributeError))
  /\ (forall self (device : BTDevice) existing retries epoch,
        0 < retries ->
        bt_ids_distinct self ->
        find_bt self (bt_session_id device) (bt_device_key device) = Some existing ->
        (forall ls,
            bt_last_seen device = Obj ls ->
            fits [rssi device] = true ->
            exists self' before after new,
              insert_bt_device self device retries epoch = Ok (true, self')
              /\ bt_devices self = before ++ existing :: after
              /\ bt_devices self' = before ++ new :: after
              /\ bt_merged existing device ls new
              /\ self' = with_bt self (bt_devices self') (seq_bt self))
        /\ (forall ls,
              bt_last_seen device = Obj ls ->
              fits [rssi device] = false ->
              insert_bt_device self device retries epoch = Raise OverflowError)
        /\ (forall s,
              bt_last_seen device = Text s ->
              insert_bt_device self device retries epoch = Raise AttributeError)).
Proof.
  split.
  - intros self device existing retries epoch Hr Hnd Hfind. split; [|split].
    + intros ls Hls Hfits. now apply (upsert_wifi self device existing).
    + intros ls Hls Hfits. apply insert_wifi_raises; [exact Hr|discriminate|].
      unfold _do_insert_wifi. rewrite Hfind, Hls. cbn [isoformat_of bind].
      now rewrite Hfits.
    + intros s Hs. apply insert_wifi_raises; [exact Hr|discriminate|].
      unfold _do_insert_wifi. now rewrite Hfind, Hs.
  - intros self device existing retries epoch Hr Hnd Hfind. split; [|split].
    + intros ls Hls Hfits. now apply (upsert_bt self device existing).
    + intros ls Hls Hfits. apply insert_bt_raises; [exact Hr|discriminate|].
      unfold _do_insert_bt. rewrite Hfind, Hls. cbn [isoformat_of bind].
      now rewrite Hfits.
    + intros s Hs. apply insert_bt_raises; [exact Hr|discriminate|].
      unfold _do_insert_bt. now rewrite Hfind, Hs.
Qed.

(** ** The session lifecycle *)

(** The arguments of one call of [insert_gps_point]. *)
Record GpsPoint : Type := {
  pt_lat : option real;
  pt_lon : option real;
  pt_alt : option real;
  pt_speed : option real;
  pt_track : option real;
  pt_fix_quality : Z;
  pt_hdop : option real;
  pt_satellites : Z;
  pt_timestamp : option Py.datetime }.

Definition insert_point (session_id : string) (now : Py.datetime)
    (acc : result Database) (pt : GpsPoint) : result Database :=
  self <- acc ;;
  insert_gps_point self session_id (pt_lat pt) (pt_lon pt) (pt_alt pt)
    (pt_speed pt) (pt_track pt) (pt_fix_quality pt) (pt_hdop pt)
    (pt_satellites pt) (pt_timestamp pt) now.

(** The scenario: a new store, [create_session], two Wi-Fi inserts, one
    Bluetooth insert, one [insert_gps_point] per point, [end_session]. *)
Definition session_lifecycle (session : ScanSession) (w1 w2 : WiFiDevice)
    (b : BTDevice) (points : list GpsPoint)
    (end_time : option Py.datetime) (now : Py.datetime) (epoch : Z)
  : result Database :=
  created <- create_session initialize_schema session ;;
  r1 <- insert_wifi_device (snd created) w1 3 epoch ;;
  r2 <- insert_wifi_device (snd r1) w2 3 epoch ;;
  r3 <- insert_bt_device (snd r2) b 3 epoch ;;
  self <- fold_left (insert_point (ss_session_id session) now) points (Ok (snd r3)) ;;
  Ok (end_session self (ss_session_id session) end_time now).

(** A device as the capture pipeline builds it: the enumeration and the
    timestamps have their declared types, and the session is [sid]. *)
Definition wifi_typed (sid : string) (d : WiFiDevice) : Prop :=
  session_id d = Some sid
  /\ (exists t, device_type d = Obj t)
  /\ (exists t, first_seen d = Obj t)
  /\ (exists t, last_seen d = Obj t).

Definition bt_typed (sid : string) (d : BTDevice) : Prop :=
  bt_session_id d = Some sid
  /\ (exists t, bt_device_type d = Obj t)
  /\ (exists t, bt_first_seen d = Obj t)
  /\ (exists t, bt_last_seen d = Obj t).

Lemma eqs_refl a : eqs a a = true.
Proof. apply String.eqb_refl. Qed.

Lemma eqs_neq a b : a <> b -> eqs a b = false.
Proof. intros H. now apply String.eqb_neq. Qed.

(** A first observation of a typed device in an existing session adds one
    row, when its [int] fields can be bound. *)
Lemma insert_new_wifi self sid d retries epoch :
  0 < retries ->
  wifi_typed sid d ->
  fits (wifi_ints d) = true ->
  session_exists self sid = true ->
  find_wifi self (Some sid) (device_key d) = None ->
  exists row,
    insert_wifi_device self d retries epoch
    = Ok (true, with_wifi self (wifi_devices self ++ [row]) (seq_wifi self + 1))
    /\ w_session_id row = sid /\ w_device_key row = device_key d
    /\ w_id row = seq_wifi self + 1.
Proof.
  intros Hr (Hsid & [t Ht] & [fs Hfs] & [ls Hls]) Hfits Hex Hfind.
  destruct (positive_retries retries Hr) as [n Hn].
  eexists. split.
  - unfold insert_wifi_device. rewrite Hn.
    erewrite wifi_attempts_ok; [reflexivity|].
    unfold _do_insert_wifi. rewrite Hsid, Hfind, Ht, Hfs, Hls.
    cbn [value_of isoformat_of bind]. rewrite Hfits, Hex.
    reflexivity.
  - cbn. auto.
Qed.

Lemma insert_new_bt self sid d retries epoch :
  0 < retries ->
  bt_typed sid d ->
  fits [rssi d] = true ->
  session_exists self sid = true ->
  find_bt self (Some sid) (bt_device_key d) = None ->
  exists row,
    insert_bt_device self d retries epoch
    = Ok (true, with_bt self (bt_devices self ++ [row]) (seq_bt self + 1))
    /\ b_session_id row = sid /\ b_device_key row = bt_device_key d
    /\ b_id row = seq_bt self + 1.
Proof.
  intros Hr (Hsid & [t Ht] & [fs Hfs] & [ls Hls]) Hfits Hex Hfind.
  destruct (positive_retries retries Hr) as [n Hn].
  eexists. split.
  - unfold insert_bt_device. rewrite Hn.
    erewrite bt_attempts_ok; [reflexivity|].
    unfold _do_insert_bt. rewrite Hsid, Hfind, Ht, Hfs, Hls.
    cbn [value_of isoformat_of bind]. rewrite Hfits, Hex.
    reflexivity.
  - cbn. auto.
Qed.

(** A first observation of a typed device with an [int] field beyond 64
    bits raises. *)
Lemma insert_new_wifi_overflow self sid d retries epoch :
  0 < retries ->
  wifi_typed sid d ->
  fits (wifi_ints d) = false ->
  find_wifi self (Some sid) (device_key d) = None ->
  insert_wifi_device self d retries epoch = Raise OverflowError.
Proof.
  intros Hr (Hsid & [t Ht] & [fs Hfs] & [ls Hls]) Hfits Hfind.
  apply insert_wifi_raises; [exact Hr|discriminate|].
  unfold _do_insert_wifi. rewrite Hsid, Hfind, Ht, Hfs, Hls.
  cbn [value_of isoformat_of bind]. now rewrite Hfits.
Qed.

Lemma insert_new_bt_overflow self sid d retries epoch :
  0 < retries ->
  bt_typed sid d ->
  fits [rssi d] = false ->
  find_bt self (Some sid) (bt_device_key d) = None ->
  insert_bt_device self d retries epoch = Raise OverflowError.
Proof.
  intros Hr (Hsid & [t Ht] & [fs Hfs] & [ls Hls]) Hfits Hfind.
  apply insert_bt_raises; [exact Hr|discriminate|].
  unfold _do_insert_bt. rewrite Hsid, Hfind, Ht, Hfs, Hls.
  cbn [value_of isoformat_of bind]. now rewrite Hfits.
Qed.

(** The [int] arguments of the call for a point. *)
Definition point_ints (pt : GpsPoint) : list (option Z) :=
  [Some (pt_fix_quality pt); Some (pt_satellites pt)].

(** Every point of an existing session adds one row to [gps_track] and
    touches no other table. *)
Lemma insert_points sid now points : forall self,
  session_exists self sid = true ->
  forallb (fun pt => fits (point_ints pt)) points = true ->
  exists rows,
    fold_left (insert_point sid now) points (Ok self)
    = Ok (with_gps self (gps_track self ++ rows)
            (seq_gps self + Z.of_nat (List.length points)))
    /\ List.length rows = List.length points
    /\ Forall (fun r => g_session_id r = sid) rows.
Proof.
  induction points as [|pt points IH]; intros self Hex Hfits.
  - exists []. cbn. rewrite app_nil_r, Z.add_0_r. destruct self; auto.
  - cbn [forallb] in Hfits. apply andb_prop in Hfits. destruct Hfits as [Hpt Hfits].
    cbn [fold_left]. unfold insert_point at 2. cbn [bind].
    unfold insert_gps_point. unfold point_ints in Hpt. rewrite Hpt, Hex.
    match goal with
    | |- context [fold_left _ points (Ok ?s)] =>
        destruct (IH s Hex Hfits) as (rows & -> & Hlen & Hall)
    end.
    eexists (_ :: rows). cbn [with_gps gps_track seq_gps]. split; [|split].
    + rewrite <- app_assoc. cbn [app List.length]. do 2 f_equal. lia.
    + cbn [List.length]. now rewrite Hlen.
    + constructor; [reflexivity|exact Hall].
Qed.

Lemma insert_points_raised sid now points e :
  fold_left (insert_point sid now) points (Raise e) = Raise e.
Proof. induction points as [|pt points IH]; [reflexivity|exact IH]. Qed.

(** The first point with an [int] argument beyond 64 bits raises, and no
    later point is inserted. *)
Lemma insert_points_overflow sid now points : forall self,
  session_exists self sid = true ->
  forallb (fun pt => fits (point_ints pt)) points = false ->
  fold_left (insert_point sid now) points (Ok self) = Raise OverflowError.
Proof.
  induction points as [|pt points IH]; intros self Hex Hfits; [discriminate|].
  cbn [forallb] in Hfits. cbn [fold_left]. unfold insert_point at 2. cbn [bind].
  unfold insert_gps_point. unfold point_ints in Hfits.
  destruct (fits [Some (pt_fix_quality pt); Some (pt_satellites pt)]).
  - rewrite Hex. apply IH; [exact Hex|exact Hfits].
  - apply insert_points_raised.
Qed.

Lemma count_all {A} (p : A -> bool) (l : list A) :
  Forall (fun r => p r = true) l -> count p l = Z.of_nat (List.length l).
Proof.
  intros H0. unfold count. f_equal. f_equal.
  induction H0 as [|r l Hr _ IH]; cbn; [reflexivity|]. now rewrite Hr, IH.
Qed.

(** Whether every [int] of the scenario can be bound. *)
Definition lifecycle_fits (w1 w2 : WiFiDevice) (b : BTDevice)
    (points : list GpsPoint) : bool :=
  fits (wifi_ints w1) && fits (wifi_ints w2) && fits [rssi b]
  && forallb (fun pt => fits (point_ints pt)) points.

(** [session.status = ScanStatus.STOPPED]: the session with the status
    set. *)
Definition with_status (session : ScanSession) (status : dyn ScanStatus) : ScanSession :=
  {| ss_session_id := ss_session_id session;
     ss_start_time := ss_start_time session;
     ss_end_time := ss_end_time session;
     ss_status := status;
     ss_property_id := ss_property_id session;
     ss_operator := ss_operator session;
     ss_scan_type := ss_scan_type session;
     ss_notes := ss_notes session;
     ss_node_id := ss_node_id session;
     ss_swarm_session_id := ss_swarm_session_id session;
     ss_wifi_device_count := ss_wifi_device_count session;
     ss_bt_device_count := ss_bt_device_count session |}.

Lemma end_session_statuses self sid end_time now :
  List.map s_status (scan_sessions (end_session self sid end_time now))
  = List.map s_status (scan_sessions self).
Proof.
  unfold end_session. cbn [with_sessions scan_sessions]. rewrite List.map_map.
  apply List.map_ext. intros r. now destruct (eqs (s_session_id r) sid).
Qed.

Lemma do_insert_wifi_sessions self d self' :
  _do_insert_wifi self d = Ok self' -> scan_sessions self' = scan_sessions self.
Proof.
  unfold _do_insert_wifi.
  destruct (find_wifi self (session_id d) (device_key d)).
  - destruct (isoformat_of (last_seen d)); cbn [bind]; [|discriminate].
    destruct (fits (wifi_ints d)); [|discriminate]. now intros [= <-].
  - destruct (value_of DeviceType_value (device_type d)); cbn [bind]; [|discriminate].
    destruct (isoformat_of (first_seen d)); cbn [bind]; [|discriminate].
    destruct (isoformat_of (last_seen d)); cbn [bind]; [|discriminate].
    destruct (fits (wifi_ints d)); [|discriminate].
    destruct (session_id d) as [sid|]; [|discriminate].
    destruct (session_exists self sid); [|discriminate]. now intros [= <-].
Qed.

Lemma do_insert_bt_sessions self d self' :
  _do_insert_bt self d = Ok self' -> scan_sessions self' = scan_sessions self.
Proof.
  unfold _do_insert_bt.
  destruct (find_bt self (bt_session_id d) (bt_device_key d)).
  - destruct (isoformat_of (bt_last_seen d)); cbn [bind]; [|discriminate].
    destruct (fits [rssi d]); [|discriminate]. now intros [= <-].
  - destruct (value_of BTDeviceType_value (bt_device_type d)); cbn [bind]; [|discriminate].
    destruct (isoformat_of (bt_first_seen d)); cbn [bind]; [|discriminate].
    destruct (isoformat_of (bt_last_seen d)); cbn [bind]; [|discriminate].
    destruct (fits [rssi d]); [|discriminate].
    destruct (bt_session_id d) as [sid|]; [|discriminate].
    destruct (session_exists self sid); [|discriminate]. now intros [= <-].
Qed.

Lemma wifi_attempts_sessions n self d self' :
  wifi_attempts n self d = Ok (Some self') -> scan_sessions self' = scan_sessions self.
Proof.
  induction n as [|n IH]; cbn [wifi_attempts]; [discriminate|].
  destruct (_do_insert_wifi self d) as [db|e] eqn:E.
  - intros [= <-]. now apply do_insert_wifi_sessions in E.
  - destruct e; try discriminate. exact IH.
Qed.

Lemma bt_attempts_sessions n self d self' :
  bt_attempts n self d = Ok (Some self') -> scan_sessions self' = scan_sessions self.
Proof.
  induction n as [|n IH]; cbn [bt_attempts]; [discriminate|].
  destruct (_do_insert_bt self d) as [db|e] eqn:E.
  - intros [= <-]. now apply do_insert_bt_sessions in E.
  - destruct e; try discriminate. exact IH.
Qed.

Lemma insert_wifi_device_sessions self d retries epoch ok self' :
  insert_wifi_device self d retries epoch = Ok (ok, self') ->
  scan_sessions self' = scan_sessions self.
Proof.
  unfold insert_wifi_device.
  destruct (wifi_attempts (Z.to_nat retries) self d) as [[db|]|e] eqn:E;
    cbn [bind]; [| |discriminate].
  - intros [= _ <-]. now apply wifi_attempts_sessions in E.
  - destruct (wifi_to_dict d); cbn [bind]; [|discriminate]. now intros [= _ <-].
Qed.

Lemma insert_bt_device_sessions self d retries epoch ok self' :
  insert_bt_device self d retries epoch = Ok (ok, self') ->
  scan_sessions self' = scan_sessions self.
Proof.
  unfold insert_bt_device.
  destruct (bt_attempts (Z.to_nat retries) self d) as [[db|]|e] eqn:E;
    cbn [bind]; [| |discriminate].
  - intros [= _ <-]. now apply bt_attempts_sessions in E.
  - destruct (bt_to_dict d); cbn [bind]; [|discriminate]. now intros [= _ <-].
Qed.

Lemma insert_gps_point_sessions self sid lat lon alt speed track quality hdop sats
    ts now self' :
  insert_gps_point self sid lat lon alt speed track quality hdop sats ts now = Ok self' ->
  scan_sessions self' = scan_sessions self.
Proof.
  unfold insert_gps_point.
  destruct (fits [Some quality; Some sats]); [|discriminate].
  destruct (session_exists self sid); [|discriminate]. now intros [= <-].
Qed.

(** C9, as the code has it: the scenario succeeds when the [int] fields of
    the devices and the points fit in 64 bits, and raises [OverflowError]
    otherwise; the statistics count two Wi-Fi devices, one Bluetooth
    device and one GPS point per [insert_gps_point]; the session row has
    its [end_time] set and the status it was created with.  No status is
    written by [end_session], by the inserts of devices or by
    [insert_gps_point]; [update_session], called with the status
    [STOPPED], makes the status ["stopped"]. *)
Theorem lifecycle_counts_and_end_time :
  forall (session : ScanSession) (w1 w2 : WiFiDevice) (b : BTDevice)
         (points : list GpsPoint) end_time now epoch,
    let sid := ss_session_id session in
    wifi_typed sid w1 -> wifi_typed sid w2 -> bt_typed sid b ->
    device_key w1 <> device_key w2 ->
    (lifecycle_fits w1 w2 b points = true ->
     exists self' row,
       session_lifecycle session w1 w2 b points end_time now epoch = Ok self'
       /\ stat_wifi_devices (get_session_stats self' sid) = 2
       /\ stat_bt_devices (get_session_stats self' sid) = 1
       /\ stat_gps_points (get_session_stats self' sid) = Z.of_nat (List.length points)
       /\ get_session self' sid = Some row
       /\ s_end_time row = Some (Py.isoformat (Py.or_now end_time now))
       /\ s_status row = value_or_self ScanStatus_value (ss_status session)
       /\ (fits [Some (ss_wifi_device_count session);
                 Some (ss_bt_device_count session)] = true ->
           exists stopped,
             get_session (update_session self' (with_status session (Obj STOPPED))) sid
             = Some stopped
             /\ s_status stopped = "stopped"
             /\ s_end_time stopped = option_map Py.isoformat (ss_end_time session)))
    /\ (lifecycle_fits w1 w2 b points = false ->
        session_lifecycle session w1 w2 b points end_time now epoch
        = Raise OverflowError)
    /\ (forall (self : Database) other et,
          List.map s_status (scan_sessions (end_session self other et now))
          = List.map s_status (scan_sessions self))
    /\ (forall (self : Database) d retries ok self',
          insert_wifi_device self d retries epoch = Ok (ok, self') ->
          scan_sessions self' = scan_sessions self)
    /\ (forall (self : Database) d retries ok self',
          insert_bt_device self d retries epoch = Ok (ok, self') ->
          scan_sessions self' = scan_sessions self)
    /\ (forall (self : Database) other lat lon alt speed track quality hdop sats ts self',
          insert_gps_point self other lat lon alt speed track quality hdop sats ts now
          = Ok self' ->
          scan_sessions self' = scan_sessions self).
Proof.
  intros session w1 w2 b points end_time now epoch sid Hw1 Hw2 Hb Hkeys.
  split; [|split; [|split; [|split; [|split]]]].
  - intros Hfits. unfold lifecycle_fits in Hfits.
    apply andb_prop in Hfits. destruct Hfits as [Hfits Hpoints].
    apply andb_prop in Hfits. destruct Hfits as [Hfits Hfb].
    apply andb_prop in Hfits. destruct Hfits as [Hf1 Hf2].
    unfold session_lifecycle. cbn [create_session initialize_schema session_exists
      scan_sessions existsb bind snd seq_sessions app with_sessions].
    fold sid.
    set (srow := {| s_id := 0 + 1; s_session_id := sid |}).
    set (db0 := with_sessions _ _ _).
    assert (Hex0 : session_exists db0 sid = true).
    { unfold session_exists, db0. cbn. now rewrite eqs_refl. }
    destruct (insert_new_wifi db0 sid w1 3 epoch) as (row1 & -> & Hs1 & Hk1 & _);
      [lia|exact Hw1|exact Hf1|exact Hex0|reflexivity|].
    cbn [bind snd].
    set (db1 := with_wifi db0 _ _).
    destruct (insert_new_wifi db1 sid w2 3 epoch) as (row2 & -> & Hs2 & Hk2 & _);
      [lia|exact Hw2|exact Hf2|exact Hex0| |].
    { unfold find_wifi, db1. cbn. rewrite Hs1, Hk1, eqs_refl, eqs_neq by exact Hkeys.
      reflexivity. }
    cbn [bind snd].
    set (db2 := with_wifi db1 _ _).
    destruct (insert_new_bt db2 sid b 3 epoch) as (rowb & -> & Hsb & Hkb & _);
      [lia|exact Hb|exact Hfb|exact Hex0|reflexivity|].
    cbn [bind snd].
    set (db3 := with_bt db2 _ _).
    destruct (insert_points sid now points db3 Hex0 Hpoints) as (rows & -> & Hlen & Hall).
    cbn [bind].
    eexists. exists (set_end_time (Py.isoformat (Py.or_now end_time now)) srow).
    split; [reflexivity|].
    unfold get_session_stats, get_session, end_session, update_session.
    cbn [with_sessions with_gps with_bt with_wifi wifi_devices bt_devices gps_track
         scan_sessions db3 db2 db1 db0 stat_wifi_devices stat_bt_devices
         stat_gps_points app List.map List.find initialize_schema].
    split; [|split; [|split; [|split; [|split; [|split]]]]].
    + unfold count. cbn. now rewrite Hs1, Hs2, !eqs_refl.
    + unfold count. cbn. now rewrite Hsb, eqs_refl.
    + rewrite count_all; [now rewrite Hlen|].
      eapply Forall_impl; [exact Hall|]. cbn. intros r ->. apply eqs_refl.
    + unfold srow at 1. cbn [s_session_id]. rewrite eqs_refl.
      cbn [set_end_time s_session_id]. now rewrite eqs_refl.
    + reflexivity.
    + reflexivity.
    + intros _. eexists.
      unfold srow. cbn [s_session_id set_end_time with_status ss_session_id].
      fold sid. rewrite !eqs_refl.
      split; [reflexivity|]. split; reflexivity.
  - intros Hfits. unfold lifecycle_fits in Hfits.
    unfold session_lifecycle. cbn [create_session initialize_schema session_exists
      scan_sessions existsb bind snd seq_sessions app with_sessions].
    fold sid.
    set (db0 := with_sessions _ _ _).
    assert (Hex0 : session_exists db0 sid = true).
    { unfold session_exists, db0. cbn. now rewrite eqs_refl. }
    destruct (fits (wifi_ints w1)) eqn:Hf1.
    2:{ rewrite (insert_new_wifi_overflow db0 sid w1 3 epoch);
          [reflexivity|lia|exact Hw1|exact Hf1|reflexivity]. }
    destruct (insert_new_wifi db0 sid w1 3 epoch) as (row1 & -> & Hs1 & Hk1 & _);
      [lia|exact Hw1|exact Hf1|exact Hex0|reflexivity|].
    cbn [bind snd].
    set (db1 := with_wifi db0 _ _).
    assert (Hfind2 : find_wifi db1 (Some sid) (device_key w2) = None).
    { unfold find_wifi, db1. cbn. rewrite Hs1, Hk1, eqs_refl, eqs_neq by exact Hkeys.
      reflexivity. }
    destruct (fits (wifi_ints w2)) eqn:Hf2.
    2:{ rewrite (insert_new_wifi_overflow db1 sid w2 3 epoch);
          [reflexivity|lia|exact Hw2|exact Hf2|exact Hfind2]. }
    destruct (insert_new_wifi db1 sid w2 3 epoch) as (row2 & -> & Hs2 & Hk2 & _);
      [lia|exact Hw2|exact Hf2|exact Hex0|exact Hfind2|].
    cbn [bind snd].
    set (db2 := with_wifi db1 _ _).
    destruct (fits [rssi b]) eqn:Hfb.
    2:{ rewrite (insert_new_bt_overflow db2 sid b 3 epoch);
          [reflexivity|lia|exact Hb|exact Hfb|reflexivity]. }
    destruct (insert_new_bt db2 sid b 3 epoch) as (rowb & -> & Hsb & Hkb & _);
      [lia|exact Hb|exact Hfb|exact Hex0|reflexivity|].
    cbn [bind snd]. cbn [andb] in Hfits.
    set (db3 := with_bt db2 _ _).
    now rewrite (insert_points_overflow sid now points db3 Hex0 Hfits).
  - intros self other et. apply end_session_statuses.
  - intros self d retries ok self'. apply insert_wifi_device_sessions.
  - intros self d retries ok self'. apply insert_bt_device_sessions.
  - intros self other lat lon alt speed track quality hdop sats ts self'.
    apply insert_gps_point_sessions.
Qed.

(** ** Draining the buffer *)

Lemma do_insert_wifi_backup self d self' :
  _do_insert_wifi self d = Ok self' -> backup_dir self' = backup_dir self.
Proof.
  unfold _do_insert_wifi.
  destruct (find_wifi self (session_id d) (device_key d)).
  - destruct (isoformat_of (last_seen d)); cbn [bind]; [|discriminate].
    destruct (fits (wifi_ints d)); [|discriminate]. now intros [= <-].
  - destruct (value_of DeviceType_value (device_type d)); cbn [bind]; [|discriminate].
    destruct (isoformat_of (first_seen d)); cbn [bind]; [|discriminate].
    destruct (isoformat_of (last_seen d)); cbn [bind]; [|discriminate].
    destruct (fits (wifi_ints d)); [|discriminate].
    destruct (session_id d) as [sid|]; [|discriminate].
    destruct (session_exists self sid); [|discriminate]. now intros [= <-].
Qed.

Lemma do_insert_bt_backup self d self' :
  _do_insert_bt self d = Ok self' -> backup_dir self' = backup_dir self.
Proof.
  unfold _do_insert_bt.
  destruct (find_bt self (bt_session_id d) (bt_device_key d)).
  - destruct (isoformat_of (bt_last_seen d)); cbn [bind]; [|discriminate].
    destruct (fits [rssi d]); [|discriminate]. now intros [= <-].
  - destruct (value_of BTDeviceType_value (bt_device_type d)); cbn [bind]; [|discriminate].
    destruct (isoformat_of (bt_first_seen d)); cbn [bind]; [|discriminate].
    destruct (isoformat_of (bt_last_seen d)); cbn [bind]; [|discriminate].
    destruct (fits [rssi d]); [|discriminate].
    destruct (bt_session_id d) as [sid|]; [|discriminate].
    destruct (session_exists self sid); [|discriminate]. now intros [= <-].
Qed.

Lemma replay_backup record_type st l :
  backup_dir (snd (replay record_type st l)) = backup_dir (snd st).
Proof.
  destruct st as [n self]. unfold replay.
  destruct (eqs record_type "wifi").
  - destruct l as [d|d|]; try reflexivity.
    destruct (_do_insert_wifi self d) eqn:E; [|reflexivity].
    cbn. now apply do_insert_wifi_backup in E.
  - destruct (eqs record_type "bt"); [|reflexivity].
    destruct l as [d|d|]; try reflexivity.
    destruct (_do_insert_bt self d) eqn:E; [|reflexivity].
    cbn. now apply do_insert_bt_backup in E.
Qed.

Lemma replay_all_backup record_type lines : forall st,
  backup_dir (snd (fold_left (replay record_type) lines st)) = backup_dir (snd st).
Proof.
  induction lines as [|l lines IH]; intros st; cbn; [reflexivity|].
  now rewrite IH, replay_backup.
Qed.

Lemma drain_file_backup st file :
  backup_dir (snd (drain_file st file))
  = if is_buffer_file (fst file)
    then List.filter (fun f => negb (eqs (fst f) (fst file))) (backup_dir (snd st))
    else backup_dir (snd st).
Proof.
  destruct file as [name lines]. unfold drain_file. cbn [fst].
  destruct (is_buffer_file name); [|reflexivity].
  pose proof (replay_all_backup (record_type_of name) lines st) as H.
  destruct (fold_left _ lines st) as [n self]. cbn in *. now rewrite H.
Qed.

(** Whether the drain removes the file [f]: a file of the listing has its
    name and the pattern matches it. *)
Definition drained (files : list (string * list line)) (f : string * list line) : bool :=
  existsb (fun g => is_buffer_file (fst g) && eqs (fst f) (fst g)) files.

Lemma filter_twice {A} (p q : A -> bool) (l : list A) :
  List.filter p (List.filter q l) = List.filter (fun x => q x && p x) l.
Proof.
  induction l as [|x l IH]; cbn; [reflexivity|].
  destruct (q x); cbn; [|exact IH]. destruct (p x); now rewrite IH.
Qed.

Lemma drain_files_backup files : forall st,
  backup_dir (snd (fold_left drain_file files st))
  = List.filter (fun f => negb (drained files f)) (backup_dir (snd st)).
Proof.
  induction files as [|file files IH]; intros st; cbn [fold_left].
  - cbn. induction (backup_dir (snd st)) as [|f l IHl]; cbn; [reflexivity|].
    now rewrite <- IHl.
  - rewrite IH, drain_file_backup.
    destruct (is_buffer_file (fst file)) eqn:E.
    + rewrite filter_twice. apply List.filter_ext. intros f.
      unfold drained. cbn [existsb]. rewrite E. cbn [andb].
      now rewrite negb_orb.
    + apply List.filter_ext. intros f.
      unfold drained. cbn [existsb]. now rewrite E.
Qed.

(** After the drain the directory holds the files the pattern does not
    match, and only them. *)
Lemma drain_backup_dir self :
  backup_dir (snd (import_buffered_records self))
  = List.filter (fun f => negb (is_buffer_file (fst f))) (backup_dir self).
Proof.
  unfold import_buffered_records. rewrite drain_files_backup. cbn [snd].
  apply List.filter_ext_in. intros f Hf. f_equal.
  unfold drained. destruct (is_buffer_file (fst f)) eqn:E.
  - apply existsb_exists. exists f. now rewrite E, eqs_refl.
  - apply not_true_is_false. intros H. apply existsb_exists in H.
    destruct H as (g & _ & H). apply andb_prop in H. destruct H as [Hg Hn].
    apply String.eqb_eq in Hn. rewrite Hn in E. congruence.
Qed.

(** A drain of a directory without buffer files does nothing. *)
Lemma drain_nothing files : forall st,
  Forall (fun f => is_buffer_file (fst f) = false) files ->
  fold_left drain_file files st = st.
Proof.
  induction files as [|[name lines] files IH]; intros st H; [reflexivity|].
  apply Forall_cons_1 in H. destruct H as [Hf H]. cbn in Hf.
  cbn [fold_left]. unfold drain_file at 2. rewrite Hf. now apply IH.
Qed.

(** X1: [import_buffered_records] is idempotent: a second drain imports
    nothing and leaves the store as the first drain left it. *)
Lemma drain_twice self :
  import_buffered_records (snd (import_buffered_records self))
  = (0, snd (import_buffered_records self)).
Proof.
  unfold import_buffered_records at 1. apply drain_nothing.
  rewrite drain_backup_dir. apply Forall_forall. intros f Hf.
  apply list_elem_of_In, List.filter_In in Hf. destruct Hf as [_ Hf].
  now apply negb_true_iff.
Qed.

(** A record that [to_dict] has written does not replay: the constructor
    leaves the enumeration and the timestamps as [str], and the insert
    calls [.value] or [.isoformat()] on them. *)
Lemma buffered_wifi_does_not_replay d l self :
  wifi_to_dict d = Ok l ->
  exists d', l = WifiObject d' /\ _do_insert_wifi self d' = Raise AttributeError.
Proof.
  unfold wifi_to_dict.
  destruct (value_of DeviceType_value (device_type d)) as [t|]; cbn; [|discriminate].
  destruct (isoformat_of (first_seen d)) as [fs|]; cbn; [|discriminate].
  destruct (isoformat_of (last_seen d)) as [ls|]; cbn; [|discriminate].
  intros [= <-]. eexists. split; [reflexivity|].
  unfold _do_insert_wifi. cbn. now destruct (find_wifi _ _ _).
Qed.

Lemma buffered_bt_does_not_replay d l self :
  bt_to_dict d = Ok l ->
  exists d', l = BtObject d' /\ _do_insert_bt self d' = Raise AttributeError.
Proof.
  unfold bt_to_dict.
  destruct (value_of BTDeviceType_value (bt_device_type d)) as [t|]; cbn; [|discriminate].
  destruct (isoformat_of (bt_first_seen d)) as [fs|]; cbn; [|discriminate].
  destruct (isoformat_of (bt_last_seen d)) as [ls|]; cbn; [|discriminate].
  intros [= <-]. eexists. split; [reflexivity|].
  unfold _do_insert_bt. cbn. now destruct (find_bt _ _ _).
Qed.

Lemma replay_wifi_raise n self d e :
  _do_insert_wifi self d = Raise e ->
  replay "wifi" (n, self) (WifiObject d) = (n, self).
Proof. intros H. unfold replay. change (eqs "wifi" "wifi") with true. now rewrite H. Qed.

Lemma replay_bt_raise n self d e :
  _do_insert_bt self d = Raise e ->
  replay "bt" (n, self) (BtObject d) = (n, self).
Proof.
  intros H. unfold replay. change (eqs "bt" "wifi") with false.
  change (eqs "bt" "bt") with true. now rewrite H.
Qed.

(** C1, where the code departs from it: the drain of a store whose only
    buffer file holds one record that [insert_wifi_device] buffered imports
    nothing, leaves the tables as they were, and removes the file, so the
    record is lost. *)
Theorem drain_drops_buffered_record :
  forall (self : Database) (d : WiFiDevice) (l : line) (name : string),
    wifi_to_dict d = Ok l ->
    is_buffer_file name = true ->
    record_type_of name = "wifi" ->
    backup_dir self = [(name, [l])] ->
    import_buffered_records self = (0, with_backup_dir self []).
Proof.
  intros self d l name Hd Hname Htype Hdir.
  destruct (buffered_wifi_does_not_replay d l self Hd) as (d' & -> & Hraise).
  unfold import_buffered_records. rewrite Hdir. cbn [fold_left].
  unfold drain_file. rewrite Hname, Htype. cbn [fold_left].
  rewrite (replay_wifi_raise _ _ _ _ Hraise).
  unfold unlink. rewrite Hdir. cbn. now rewrite eqs_refl.
Qed.

(** The lines of a buffer file that the store wrote itself: a file of Wi-Fi
    records holds lines that [insert_wifi_device] buffered, a file of
    Bluetooth records lines that [insert_bt_device] buffered. *)
Definition written_by_store (file : string * list line) : Prop :=
  (record_type_of (fst file) = "wifi"
   /\ Forall (fun l => exists d, wifi_to_dict d = Ok l) (snd file))
  \/ (record_type_of (fst file) = "bt"
      /\ Forall (fun l => exists d, bt_to_dict d = Ok l) (snd file)).

Lemma replay_written_wifi lines :
  Forall (fun l => exists d, wifi_to_dict d = Ok l) lines ->
  forall st, fold_left (replay "wifi") lines st = st.
Proof.
  induction 1 as [|l lines [d Hd] _ IH]; intros [n self]; [reflexivity|].
  cbn [fold_left].
  destruct (buffered_wifi_does_not_replay d l self Hd) as (d' & -> & Hraise).
  rewrite (replay_wifi_raise _ _ _ _ Hraise). apply IH.
Qed.

Lemma replay_written_bt lines :
  Forall (fun l => exists d, bt_to_dict d = Ok l) lines ->
  forall st, fold_left (replay "bt") lines st = st.
Proof.
  induction 1 as [|l lines [d Hd] _ IH]; intros [n self]; [reflexivity|].
  cbn [fold_left].
  destruct (buffered_bt_does_not_replay d l self Hd) as (d' & -> & Hraise).
  rewrite (replay_bt_raise _ _ _ _ Hraise). apply IH.
Qed.

Lemma with_backup_dir_twice (self : Database) a b :
  with_backup_dir (with_backup_dir self a) b = with_backup_dir self b.
Proof. reflexivity. Qed.

Lemma with_backup_dir_same (self : Database) :
  with_backup_dir self (backup_dir self) = self.
Proof. now destruct self. Qed.

Lemma drain_written files : forall n self,
  (forall file, In file files -> is_buffer_file (fst file) = true ->
                written_by_store file) ->
  fold_left drain_file files (n, self)
  = (n, with_backup_dir self
          (List.filter (fun f => negb (drained files f)) (backup_dir self))).
Proof.
  induction files as [|file files IH]; intros n self Hw.
  - cbn. f_equal. rewrite <- (with_backup_dir_same self) at 1. f_equal.
    induction (backup_dir self) as [|f l IHl]; cbn; [reflexivity|now rewrite <- IHl].
  - cbn [fold_left].
    assert (Hstep : drain_file (n, self) file
                    = (n, if is_buffer_file (fst file)
                          then unlink (fst file) self else self)).
    { destruct file as [name lines]. unfold drain_file. cbn [fst].
      destruct (is_buffer_file name) eqn:E; [|reflexivity].
      destruct (Hw (name, lines) (or_introl eq_refl) E) as [[Ht Hl]|[Ht Hl]];
        cbn [fst snd] in Ht, Hl; rewrite Ht.
      - now rewrite replay_written_wifi.
      - now rewrite replay_written_bt. }
    rewrite Hstep, IH by (intros g Hg; apply Hw; now right).
    f_equal. destruct (is_buffer_file (fst file)) eqn:E.
    + unfold unlink. rewrite with_backup_dir_twice. f_equal.
      cbn [backup_dir with_backup_dir]. rewrite filter_twice.
      apply List.filter_ext. intros f. unfold drained. cbn [existsb].
      rewrite E. cbn [andb]. now rewrite negb_orb.
    + f_equal. apply List.filter_ext. intros f. unfold drained. cbn [existsb].
      now rewrite E.
Qed.

(** X2: no record that the store buffered itself survives the drain:
    nothing is imported, the tables are as they were, the buffer files are
    gone. *)
Lemma drain_imports_nothing self :
  (forall file, In file (backup_dir self) -> is_buffer_file (fst file) = true ->
                written_by_store file) ->
  import_buffered_records self
  = (0, with_backup_dir self
          (List.filter (fun f => negb (is_buffer_file (fst f))) (backup_dir self))).
Proof.
  intros Hw. unfold import_buffered_records. rewrite drain_written by exact Hw.
  do 2 f_equal. apply List.filter_ext_in. intros f Hf. f_equal.
  unfold drained. destruct (is_buffer_file (fst f)) eqn:E.
  - apply existsb_exists. exists f. now rewrite E, eqs_refl.
  - apply not_true_is_false. intros H. apply existsb_exists in H.
    destruct H as (g & _ & H). apply andb_prop in H. destruct H as [Hg Hn].
    apply String.eqb_eq in Hn. rewrite Hn in E. congruence.
Qed.

(** ** The spatial query *)

Section Spatial.

(** The arithmetic and the order of Python's [float] and of the [REAL]
    values of SQLite, which are the same operations on the same doubles,
    and the constant [111000.0]. *)
Context (radd rsub rmul rdiv : real -> real -> real)
        (rle : real -> real -> bool) (r111000 : real).

(** An arithmetic operator of SQLite: the result is [NULL] when an operand
    is [NULL] and when it would be a NaN. *)
Definition sql_op (op : real -> real -> real) (a b : option real) : option real :=
  match a, b with
  | Some x, Some y => bound (Some (op x y))
  | _, _ => None
  end.

(** [x BETWEEN lo AND hi] is true; it is not when one of the three is
    [NULL]. *)
Definition between (x lo hi : option real) : bool :=
  match x, lo, hi with
  | Some x, Some lo, Some hi => rle lo x && rle x hi
  | _, _, _ => false
  end.

(** [(gps_lat - ?) * (gps_lat - ?) + (gps_lon - ?) * (gps_lon - ?)] *)
Definition dist_sq (lat lon gps_lat gps_lon : option real) : option real :=
  sql_op radd (sql_op rmul (sql_op rsub gps_lat lat) (sql_op rsub gps_lat lat))
              (sql_op rmul (sql_op rsub gps_lon lon) (sql_op rsub gps_lon lon)).

(** The [WHERE] clause on one row of [wifi_devices], with the selected
    [dist_sq].  The bounds of the box are computed by Python and bound as
    parameters, as [lat] and [lon] are.  The session is compared only
    when [session_id] is truthy. *)
Definition near_row (lat lon deg_radius : real) (session_id : option string)
    (r : WifiRow) : option (WifiRow * option real) :=
  if between (w_gps_lat r) (bound (Some (rsub lat deg_radius)))
       (bound (Some (radd lat deg_radius)))
     && between (w_gps_lon r) (bound (Some (rsub lon deg_radius)))
          (bound (Some (radd lon deg_radius)))
     && (if Py.truthy_ostr session_id
         then eq_param (w_session_id r) session_id else true)
  then Some (r, dist_sq (bound (Some lat)) (bound (Some lon)) (w_gps_lat r) (w_gps_lon r))
  else None.

(** The order of SQLite on the values of a [REAL] expression: [NULL] comes
    before every number, and a NaN is no value. *)
Definition precedes (a b : option real) : bool :=
  match bound a, bound b with
  | None, _ => true
  | Some _, None => false
  | Some x, Some y => rle x y
  end.

(** [ORDER BY dist_sq] *)
Definition by_dist (a b : WifiRow * option real) : Prop :=
  precedes (snd a) (snd b) = true.

#[local] Instance by_dist_dec : RelDecision by_dist.
Proof. intros a b. unfold by_dist. apply bool_eq_dec. Defined.

(** Each result is a row of [wifi_devices] with its [dist_sq]; rows with
    one [dist_sq] come in some order. *)
Definition get_devices_near (self : Database) (lat lon radius_m : real)
    (session_id : option string) : list (WifiRow * option real) :=
  let deg_radius := rdiv radius_m r111000 in
  merge_sort by_dist
    (omap (near_row lat lon deg_radius session_id) (wifi_devices self)).

(** The order is total and transitive on the floats that are no NaN. *)
Hypothesis rle_total :
  forall x y, isnan x = false -> isnan y = false -> rle x y = true \/ rle y x = true.
Hypothesis rle_trans :
  forall x y z, isnan x = false -> isnan y = false -> isnan z = false ->
                rle x y = true -> rle y z = true -> rle x z = true.

Lemma bound_number (a : option real) x : bound a = Some x -> isnan x = false.
Proof.
  unfold bound. destruct a as [v|]; [|discriminate].
  destruct (isnan v) eqn:E; [discriminate|]. now intros [= <-].
Qed.

Lemma bound_some (x : real) : isnan x = false -> bound (Some x) = Some x.
Proof. intros E. unfold bound. now rewrite E. Qed.

Lemma bound_some_inv (x y : real) : bound (Some x) = Some y -> x = y /\ isnan x = false.
Proof. unfold bound. destruct (isnan x); [discriminate|]. now intros [= <-]. Qed.

Lemma sql_op_bound op a b : bound (sql_op op a b) = sql_op op a b.
Proof.
  unfold sql_op. destruct a as [x|], b as [y|]; try reflexivity.
  unfold bound. destruct (isnan (op x y)) eqn:E; [reflexivity|]. now rewrite E.
Qed.

#[local] Instance by_dist_total : Total by_dist.
Proof.
  intros a b. unfold by_dist, precedes.
  destruct (bound (snd a)) as [x|] eqn:Ea; destruct (bound (snd b)) as [y|] eqn:Eb;
    auto.
  apply rle_total; eapply bound_number; eassumption.
Qed.

#[local] Instance by_dist_trans : Transitive by_dist.
Proof.
  intros a b c. unfold by_dist, precedes.
  destruct (bound (snd a)) as [x|] eqn:Ea; destruct (bound (snd b)) as [y|] eqn:Eb;
    destruct (bound (snd c)) as [z|] eqn:Ec; auto; try discriminate.
  apply rle_trans; eapply bound_number; eassumption.
Qed.

(** A row is selected when both coordinates are inside the box, whose
    bounds are numbers, and the session is the one asked for. *)
Definition inside (x : option real) (lo hi : real) : Prop :=
  exists v, x = Some v /\ isnan lo = false /\ isnan hi = false
            /\ rle lo v = true /\ rle v hi = true.

Lemma between_inside x lo hi :
  between x (bound (Some lo)) (bound (Some hi)) = true <-> inside x lo hi.
Proof.
  unfold between, inside, bound. split.
  - destruct x as [v|]; [|discriminate].
    destruct (isnan lo); [discriminate|]. destruct (isnan hi); [discriminate|].
    intros E. apply andb_prop in E. exists v. tauto.
  - intros (v & -> & -> & -> & H1 & H2). now rewrite H1, H2.
Qed.

Lemma session_condition (sid : option string) (column : string) :
  (if Py.truthy_ostr sid then eq_param column sid else true) = true
  <-> (Py.truthy_ostr sid = true -> sid = Some column).
Proof.
  destruct (Py.truthy_ostr sid) eqn:E; [|split; [discriminate|reflexivity]].
  destruct sid as [s|]; cbn [eq_param].
  - unfold eqs. rewrite String.eqb_eq. split.
    + intros -> _. reflexivity.
    + intros H0. now injection (H0 eq_refl).
  - split; [discriminate|]. intros H0. discriminate (H0 eq_refl).
Qed.

Lemma dist_sq_written_out lat lon gps_lat gps_lon :
  dist_sq (bound (Some lat)) (bound (Some lon)) (Some gps_lat) (Some gps_lon)
  = let dlat := rsub gps_lat lat in
    let dlon := rsub gps_lon lon in
    let sum := radd (rmul dlat dlat) (rmul dlon dlon) in
    if existsb isnan [lat; lon; dlat; dlon; rmul dlat dlat; rmul dlon dlon; sum]
    then None else Some sum.
Proof.
  cbv zeta. unfold dist_sq, sql_op, bound. cbn [existsb].
  destruct (isnan lat); [reflexivity|]. cbn [orb].
  destruct (isnan lon); [now destruct (isnan (rsub gps_lat lat)),
                             (isnan (rmul (rsub gps_lat lat) (rsub gps_lat lat)))|].
  cbn [orb].
  destruct (isnan (rsub gps_lat lat)); [reflexivity|]. cbn [orb].
  destruct (isnan (rsub gps_lon lon));
    [now destruct (isnan (rmul (rsub gps_lat lat) (rsub gps_lat lat)))|].
  cbn [orb].
  destruct (isnan (rmul (rsub gps_lat lat) (rsub gps_lat lat))); [reflexivity|].
  cbn [orb].
  destruct (isnan (rmul (rsub gps_lon lon) (rsub gps_lon lon))); [reflexivity|].
  cbn [orb]. rewrite orb_false_r. reflexivity.
Qed.

Lemma near_row_spec lat lon dr sid r x :
  near_row lat lon dr sid r = Some x <->
  (inside (w_gps_lat r) (rsub lat dr) (radd lat dr)
   /\ inside (w_gps_lon r) (rsub lon dr) (radd lon dr)
   /\ (Py.truthy_ostr sid = true -> sid = Some (w_session_id r)))
  /\ x = (r, dist_sq (bound (Some lat)) (bound (Some lon)) (w_gps_lat r) (w_gps_lon r)).
Proof.
  unfold near_row. rewrite <- !between_inside, <- session_condition.
  destruct (between (w_gps_lat r) _ _); cbn [andb];
    [|split; [discriminate|intros [[E _] _]; discriminate E]].
  destruct (between (w_gps_lon r) _ _); cbn [andb];
    [|split; [discriminate|intros [(_ & E & _) _]; discriminate E]].
  destruct (if Py.truthy_ostr sid then _ else _);
    [|split; [discriminate|intros [(_ & _ & E) _]; discriminate E]].
  split.
  - intros [= <-]. auto.
  - intros [_ ->]. reflexivity.
Qed.

Lemma omap_fst_filter {A B} (f : A -> option (A * B)) (l : list A) :
  (forall a x, f a = Some x -> fst x = a) ->
  List.map fst (omap f l) = List.filter (fun a => bool_decide (is_Some (f a))) l.
Proof.
  intros Hf. induction l as [|a l IH]; [reflexivity|].
  cbn [List.filter].
  change (omap f (a :: l))
    with (match f a with Some y => y :: omap f l | None => omap f l end).
  destruct (f a) as [x|] eqn:E.
  - rewrite bool_decide_eq_true_2 by eauto. cbn [List.map].
    now rewrite (Hf a x E), IH.
  - rewrite bool_decide_eq_false_2 by (intros [? ?]; discriminate). exact IH.
Qed.

Lemma sorted_among {A} (R R' : A -> A -> Prop) (l : list A) :
  (forall a b, In a l -> In b l -> R a b -> R' a b) ->
  StronglySorted R l -> StronglySorted R' l.
Proof.
  intros Himp Hs. induction Hs as [|a l Hs IH Hall]; constructor.
  - apply IH. intros x y Hx Hy. apply Himp; now right.
  - rewrite Forall_forall in *. intros b Hb. apply Himp;
      [now left|right; now apply list_elem_of_In|now apply Hall].
Qed.

(** C10: the query reads [wifi_devices] only, so no Bluetooth device is in
    its result whatever the Bluetooth table holds.  A row is returned,
    once, exactly when both its coordinates are inside the box of
    half-side [radius_m / 111000] degrees around the point, whose bounds
    are numbers, and it has the session asked for when one is given; it
    comes with the squared distance in degrees, (gps_lat - lat)² +
    (gps_lon - lon)², which is [NULL] when a step of its computation gives
    a NaN; and the result is in ascending order of that distance, [NULL]
    first. *)
Theorem devices_near_wifi_box_sorted :
  forall (self : Database) (lat lon radius_m : real) (session_id : option string),
    let deg_radius := rdiv radius_m r111000 in
    let result := get_devices_near self lat lon radius_m session_id in
    let within (x : option real) (lo hi : real) : Prop :=
      exists v, x = Some v /\ isnan lo = false /\ isnan hi = false
                /\ rle lo v = true /\ rle v hi = true in
    let selected (r : WifiRow) : Prop :=
      within (w_gps_lat r) (rsub lat deg_radius) (radd lat deg_radius)
      /\ within (w_gps_lon r) (rsub lon deg_radius) (radd lon deg_radius)
      /\ (Py.truthy_ostr session_id = true -> session_id = Some (w_session_id r)) in
    let distance (gps_lat gps_lon : real) : option real :=
      let dlat := rsub gps_lat lat in
      let dlon := rsub gps_lon lon in
      let sum := radd (rmul dlat dlat) (rmul dlon dlon) in
      if existsb isnan [lat; lon; dlat; dlon; rmul dlat dlat; rmul dlon dlon; sum]
      then None else Some sum in
    (forall r d,
        In (r, d) result <->
        In r (wifi_devices self) /\ selected r
        /\ exists gps_lat gps_lon,
             w_gps_lat r = Some gps_lat /\ w_gps_lon r = Some gps_lon
             /\ d = distance gps_lat gps_lon)
    /\ (exists select,
          (forall r, select r = true <-> selected r)
          /\ List.map fst result ≡ₚ List.filter select (wifi_devices self))
    /\ StronglySorted
         (fun a b => match snd a, snd b with
                     | None, _ => True
                     | Some _, None => False
                     | Some x, Some y => rle x y = true
                     end) result
    /\ (forall rows seq,
          get_devices_near (with_bt self rows seq) lat lon radius_m session_id
          = result).
Proof.
  intros self lat lon radius_m session_id. cbv zeta.
  set (dr := rdiv radius_m r111000).
  assert (Hin : forall r d,
             In (r, d) (get_devices_near self lat lon radius_m session_id) <->
             In r (wifi_devices self)
             /\ near_row lat lon dr session_id r = Some (r, d)).
  { intros r d. unfold get_devices_near. fold dr.
    rewrite <- list_elem_of_In, merge_sort_Permutation, list_elem_of_omap.
    split.
    - intros (r0 & Hr0 & Hnear). pose proof Hnear as Hx.
      apply near_row_spec in Hx. destruct Hx as [_ Hx]. injection Hx as <- _.
      split; [now apply list_elem_of_In|exact Hnear].
    - intros [Hr Hnear]. exists r. split; [now apply list_elem_of_In|exact Hnear]. }
  assert (Hkey : forall r d,
             In (r, d) (get_devices_near self lat lon radius_m session_id) ->
             bound d = d).
  { intros r d Hrd. apply Hin in Hrd. destruct Hrd as [_ Hnear].
    apply near_row_spec in Hnear. destruct Hnear as [_ [= ->]].
    unfold dist_sq. apply sql_op_bound. }
  split; [|split; [|split]].
  - intros r d. rewrite Hin, near_row_spec. fold (inside (w_gps_lat r) (rsub lat dr) (radd lat dr)).
    fold (inside (w_gps_lon r) (rsub lon dr) (radd lon dr)).
    split.
    + intros (Hr & Hsel & Hd). split; [exact Hr|]. split; [exact Hsel|].
      destruct Hsel as ((la & Hla & _) & (lo & Hlo & _) & _).
      exists la, lo. split; [exact Hla|]. split; [exact Hlo|].
      injection Hd as ->. rewrite Hla, Hlo. apply dist_sq_written_out.
    + intros (Hr & Hsel & la & lo & Hla & Hlo & ->).
      split; [exact Hr|]. split; [exact Hsel|].
      rewrite Hla, Hlo. f_equal. symmetry. apply dist_sq_written_out.
  - exists (fun r => bool_decide (is_Some (near_row lat lon dr session_id r))).
    split.
    + intros r. rewrite bool_decide_eq_true. split.
      * intros [x Hx]. apply near_row_spec in Hx. exact (proj1 Hx).
      * intros Hsel. eexists. apply near_row_spec. split; [exact Hsel|reflexivity].
    + unfold get_devices_near. fold dr. rewrite merge_sort_Permutation.
      rewrite omap_fst_filter; [reflexivity|].
      intros a x Hx. apply near_row_spec in Hx. destruct Hx as [_ ->]. reflexivity.
  - apply (sorted_among by_dist).
    + intros [ra da] [rb db] Ha Hb. unfold by_dist, precedes. cbn [snd].
      rewrite (Hkey ra da Ha), (Hkey rb db Hb).
      destruct da, db; auto; discriminate.
    + unfold get_devices_near. apply StronglySorted_merge_sort; apply _.
  - reflexivity.
Qed.

End Spatial.

End Tables.

(** ** The floats *)

(** No rational is a NaN. *)
#[global] Instance Q_float : Float Q := fun _ => false.

(** Python's [float] and SQLite's [REAL] are the doubles of IEEE 754. *)
#[global] Instance binary64 : Float PrimFloat.float := PrimFloat.is_nan.

(** The place of a double that is no NaN in the order: the infinities
    outside, the zeros in the middle, the others by sign, exponent and
    mantissa. *)
Definition rank (f : SpecFloat.spec_float) : Z * Z * Z :=
  match f with
  | SpecFloat.S754_zero _ => (0, 0, 0)
  | SpecFloat.S754_infinity true => (-2, 0, 0)
  | SpecFloat.S754_infinity false => (2, 0, 0)
  | SpecFloat.S754_nan => (3, 0, 0)
  | SpecFloat.S754_finite true m e => (-1, - e, - Z.pos m)
  | SpecFloat.S754_finite false m e => (1, e, Z.pos m)
  end.

Definition lex_le (a b : Z * Z * Z) : Prop :=
  let '(a1, a2, a3) := a in
  let '(b1, b2, b3) := b in
  a1 < b1 \/ (a1 = b1 /\ (a2 < b2 \/ (a2 = b2 /\ a3 <= b3))).

Lemma SFleb_rank x y :
  x <> SpecFloat.S754_nan -> y <> SpecFloat.S754_nan ->
  SpecFloat.SFleb x y = true <-> lex_le (rank x) (rank y).
Proof.
  intros Hx Hy. unfold SpecFloat.SFleb, SpecFloat.SFcompare, lex_le.
  destruct x as [sx|sx| |sx mx ex], y as [sy|sy| |sy my ey]; try congruence;
    try destruct sx; try destruct sy; cbn [rank];
    try change (PosDef.Pos.compare_cont Eq mx my) with (Pos.compare mx my);
    try destruct (Z.compare_spec ex ey) as [->|H|H];
    try destruct (Pos.compare_spec mx my) as [->|H'|H']; cbn [CompOpp];
    (split; intros H0; first [reflexivity | discriminate H0 | lia]).
Qed.

Lemma number_not_nan x : isnan x = false -> FloatOps.Prim2SF x <> SpecFloat.S754_nan.
Proof.
  unfold isnan, binary64, PrimFloat.is_nan. rewrite FloatAxioms.eqb_spec.
  intros H E. rewrite E in H. discriminate H.
Qed.

Lemma leb_total x y :
  isnan x = false -> isnan y = false ->
  PrimFloat.leb x y = true \/ PrimFloat.leb y x = true.
Proof.
  intros Hx Hy. apply number_not_nan in Hx, Hy. rewrite !FloatAxioms.leb_spec.
  rewrite !SFleb_rank by assumption.
  destruct (rank (FloatOps.Prim2SF x)) as [[a1 a2] a3],
    (rank (FloatOps.Prim2SF y)) as [[b1 b2] b3].
  unfold lex_le. lia.
Qed.

Lemma leb_trans x y z :
  isnan x = false -> isnan y = false -> isnan z = false ->
  PrimFloat.leb x y = true -> PrimFloat.leb y z = true -> PrimFloat.leb x z = true.
Proof.
  intros Hx Hy Hz. apply number_not_nan in Hx, Hy, Hz. rewrite !FloatAxioms.leb_spec.
  rewrite !SFleb_rank by assumption.
  destruct (rank (FloatOps.Prim2SF x)) as [[a1 a2] a3],
    (rank (FloatOps.Prim2SF y)) as [[b1 b2] b3],
    (rank (FloatOps.Prim2SF z)) as [[c1 c2] c3].
  unfold lex_le. lia.
Qed.

(** ** The scenarios of the specification, with rationals for the floats *)

(** [WiFiDevice(device_key=..., bssid=..., session_id=...)] with the
    defaults of the dataclass; [now] is [datetime.utcnow()]. *)
Definition wifi_device (key address sid : string) (now : Py.datetime)
  : @WiFiDevice Q :=
  {| device_key := key; bssid := address; essid := None;
     device_type := Obj UNKNOWN; channel := None; frequency := None;
     signal_dbm := None; encryption := None; manufacturer := None;
     packets_total := 0; first_seen := Obj now; last_seen := Obj now;
     gps_lat := None; gps_lon := None; gps_alt := None; gps_valid := false;
     fingerprint_hash := None; fingerprint_data := None;
     is_known := false; identified_as := None; session_id := Some sid;
     is_duplicate := false; duplicate_of_id := None; seen_by_nodes := [] |}.

Definition bt_device (key address sid : string) (now : Py.datetime)
  : @BTDevice Q :=
  {| bt_device_key := key; mac_address := address; device_name := None;
     bt_device_type := Obj BT_UNKNOWN; device_class := None; rssi := None;
     bt_manufacturer := None; service_uuids := [];
     bt_first_seen := Obj now; bt_last_seen := Obj now;
     bt_gps_lat := None; bt_gps_lon := None; bt_gps_alt := None;
     bt_gps_valid := false;
     bt_fingerprint_hash := None; bt_fingerprint_data := None;
     bt_is_known := false; bt_identified_as := None; bt_session_id := Some sid;
     bt_is_duplicate := false; bt_duplicate_of_id := None;
     bt_seen_by_nodes := [] |}.

(** [ScanSession(session_id=...)] with the defaults of the dataclass. *)
Definition scan_session (sid : string) (now : Py.datetime) : ScanSession :=
  {| ss_session_id := sid; ss_start_time := now; ss_end_time := None;
     ss_status := Obj STARTING; ss_property_id := None; ss_operator := None;
     ss_scan_type := "both"; ss_notes := None; ss_node_id := None;
     ss_swarm_session_id := None; ss_wifi_device_count := 0;
     ss_bt_device_count := 0 |}.

Definition gps_point (lat lon alt : Q) : @GpsPoint Q :=
  {| pt_lat := Some lat; pt_lon := Some lon; pt_alt := Some alt;
     pt_speed := None; pt_track := None; pt_fix_quality := 0;
     pt_hdop := None; pt_satellites := 0; pt_timestamp := None |}.

Definition noon : Py.datetime := Py.Datetime "2025-12-25T12:00:00".
Definition session_name : string := "airdump_scan_20251225_120000".

(** *** Scenario 1: the session lifecycle *)

Definition lifecycle_wifi_0 : @WiFiDevice Q :=
  wifi_device "wifi_key_0" "AA:BB:CC:DD:EE:00" session_name noon.
Definition lifecycle_wifi_1 : @WiFiDevice Q :=
  wifi_device "wifi_key_1" "AA:BB:CC:DD:EE:01" session_name noon.
Definition lifecycle_bt : @BTDevice Q :=
  bt_device "bt_key_0" "11:22:33:44:55:00" session_name noon.
Definition lifecycle_points : list (@GpsPoint Q) :=
  [ gps_point (51500 # 1000) (-1 # 10) 30; gps_point (51501 # 1000) (-1 # 10) 30;
    gps_point (51502 # 1000) (-1 # 10) 30; gps_point (51503 # 1000) (-1 # 10) 30;
    gps_point (51504 # 1000) (-1 # 10) 30 ].

Definition lifecycle : result (@Database Q) :=
  session_lifecycle (scan_session session_name noon)
    lifecycle_wifi_0 lifecycle_wifi_1 lifecycle_bt lifecycle_points
    (Some (Py.Datetime "2025-12-25T12:30:00")) noon 1766664000.

Lemma lifecycle_counts_and_end_time_witness :
  exists self' row stopped,
    lifecycle = Ok self'
    /\ stat_wifi_devices (get_session_stats self' session_name) = 2
    /\ stat_bt_devices (get_session_stats self' session_name) = 1
    /\ stat_gps_points (get_session_stats self' session_name) = 5
    /\ get_session self' session_name = Some row
    /\ s_end_time row = Some "2025-12-25T12:30:00"
    /\ s_status row = "starting"
    /\ get_session
         (update_session self'
            (with_status (scan_session session_name noon) (Obj STOPPED)))
         session_name
       = Some stopped
    /\ s_status stopped = "stopped".
Proof.
  destruct (lifecycle_counts_and_end_time (scan_session session_name noon)
              lifecycle_wifi_0 lifecycle_wifi_1 lifecycle_bt lifecycle_points
              (Some (Py.Datetime "2025-12-25T12:30:00")) noon 1766664000)
    as [H _].
  - unfold wifi_typed. cbn. eauto 10.
  - unfold wifi_typed. cbn. eauto 10.
  - unfold bt_typed. cbn. eauto 10.
  - discriminate.
  - destruct (H eq_refl) as (self' & row & H1 & H2 & H3 & H4 & H5 & H6 & H7 & H8).
    destruct (H8 eq_refl) as (stopped & H9 & H10 & _).
    exists self', row, stopped. auto 10.
Defined.

(** The scenario with a packet count of 2⁶³ for the second device: the
    insert raises, and the exception leaves the scenario. *)
Definition lifecycle_wifi_huge : @WiFiDevice Q :=
  {| device_key := "wifi_key_1"; bssid := "AA:BB:CC:DD:EE:01"; essid := None;
     device_type := Obj UNKNOWN; channel := None; frequency := None;
     signal_dbm := None; encryption := None; manufacturer := None;
     packets_total := 2 ^ 63; first_seen := Obj noon; last_seen := Obj noon;
     gps_lat := None; gps_lon := None; gps_alt := None; gps_valid := false;
     fingerprint_hash := None; fingerprint_data := None;
     is_known := false; identified_as := None; session_id := Some session_name;
     is_duplicate := false; duplicate_of_id := None; seen_by_nodes := [] |}.

Example lifecycle_overflow :
  session_lifecycle (scan_session session_name noon)
    lifecycle_wifi_0 lifecycle_wifi_huge lifecycle_bt lifecycle_points
    (Some (Py.Datetime "2025-12-25T12:30:00")) noon 1766664000
  = Raise OverflowError.
Proof. reflexivity. Qed.

(** C9, as the specification words it, fails: after the scenario the
    status of the session row is not ["stopped"]. *)
Lemma end_session_leaves_status :
  exists self' row,
    lifecycle = Ok self'
    /\ get_session self' session_name = Some row
    /\ s_end_time row = Some "2025-12-25T12:30:00"
    /\ s_status row = "starting"
    /\ s_status row <> "stopped".
Proof.
  eexists. eexists.
  split; [vm_compute; reflexivity|].
  split; [vm_compute; reflexivity|].
  split; [reflexivity|]. split; [reflexivity|]. discriminate.
Qed.

(** *** Scenario 3: the upsert merge *)

(** The store after [create_session] and a first observation with
    [signal_dbm=-60, packets_total=10, essid=None]. *)
Definition with_signal (d : @WiFiDevice Q) (signal packets : Z)
    (name : option string) (data : option dict) : @WiFiDevice Q :=
  {| device_key := device_key d; bssid := bssid d; essid := name;
     device_type := device_type d; channel := channel d;
     frequency := frequency d; signal_dbm := Some signal;
     encryption := encryption d; manufacturer := manufacturer d;
     packets_total := packets; first_seen := first_seen d;
     last_seen := last_seen d; gps_lat := gps_lat d; gps_lon := gps_lon d;
     gps_alt := gps_alt d; gps_valid := gps_valid d;
     fingerprint_hash := fingerprint_hash d; fingerprint_data := data;
     is_known := is_known d; identified_as := identified_as d;
     session_id := session_id d; is_duplicate := is_duplicate d;
     duplicate_of_id := duplicate_of_id d; seen_by_nodes := seen_by_nodes d |}.

Definition probe_data : dict := [("probe_count", Py.JInt 1)].

Definition first_observation : @WiFiDevice Q :=
  with_signal lifecycle_wifi_0 (-60) 10 None (Some probe_data).

Definition second_observation : @WiFiDevice Q :=
  with_signal lifecycle_wifi_0 (-45) 100 (Some "Guest") None.

(** An observation whose [fingerprint_data] is the empty dictionary. *)
Definition empty_data_observation : @WiFiDevice Q :=
  with_signal lifecycle_wifi_0 (-45) 100 (Some "Guest") (Some []).

Definition first_row : @WifiRow Q :=
  new_wifi_row 1 session_name first_observation "unknown"
    "2025-12-25T12:00:00" "2025-12-25T12:00:00".

Definition observed_once : @Database Q :=
  with_wifi
    (with_sessions initialize_schema
       [ {| s_id := 1; s_session_id := session_name;
            s_start_time := "2025-12-25T12:00:00"; s_end_time := None;
            s_status := "starting"; s_property_id := None; s_operator := None;
            s_scan_type := "both"; s_notes := None; s_node_id := None;
            s_swarm_session_id := None; s_wifi_device_count := 0;
            s_bt_device_count := 0 |} ] 1)
    [first_row] 1.

(** [observed_once] is what the two calls produce. *)
Example observed_once_reached :
  (created <- create_session initialize_schema (scan_session session_name noon) ;;
   insert_wifi_device (snd created) first_observation 3 1766664000)
  = Ok (true, observed_once).
Proof. reflexivity. Qed.

Lemma upsert_merges_existing_row_witness :
  exists self' before after new,
    insert_wifi_device observed_once second_observation 3 1766664000
    = Ok (true, self')
    /\ wifi_devices observed_once = before ++ first_row :: after
    /\ wifi_devices self' = before ++ new :: after
    /\ wifi_merged first_row second_observation noon new
    /\ self' = with_wifi observed_once (wifi_devices self') (seq_wifi observed_once).
Proof.
  destruct (proj1 upsert_merges_existing_row observed_once second_observation
              first_row 3 1766664000) as [H _].
  - lia.
  - unfold wifi_ids_distinct. cbn. repeat constructor. intros [].
  - reflexivity.
  - apply (H noon); reflexivity.
Defined.

(** A second observation with a signal of -2⁶³ - 1 raises, and one with a
    [str] as [last_seen] does. *)
Example upsert_overflow :
  insert_wifi_device observed_once
    (with_signal lifecycle_wifi_0 (- 2 ^ 63 - 1) 100 (Some "Guest") None) 3 1766664000
  = Raise OverflowError.
Proof. reflexivity. Qed.

(** The values the specification reads back, and a third observation
    with [essid=None]. *)
Example upsert_scenario_values :
  exists self' row self'' row',
    insert_wifi_device observed_once second_observation 3 1766664000
    = Ok (true, self')
    /\ wifi_devices self' = [row]
    /\ w_signal_dbm row = Some (-45) /\ w_packets_total row = 100
    /\ w_essid row = Some "Guest"
    /\ insert_wifi_device self' first_observation 3 1766664000 = Ok (true, self'')
    /\ wifi_devices self'' = [row']
    /\ w_essid row' = Some "Guest" /\ w_signal_dbm row' = Some (-60).
Proof. do 4 eexists. repeat split; reflexivity. Qed.

(** C4, as the specification words it, fails for [fingerprint_data]: an
    incoming empty dictionary is not null, and the stored value stays. *)
Lemma empty_fingerprint_data_keeps_stored_value :
  fingerprint_data empty_data_observation = Some []
  /\ exists self' row,
       insert_wifi_device observed_once empty_data_observation 3 1766664000
       = Ok (true, self')
       /\ wifi_devices self' = [row]
       /\ w_fingerprint_data row = Some (Py.dumps false (Py.JDict probe_data))
       /\ w_fingerprint_data row <> Some (Py.dumps false (Py.JDict [])).
Proof.
  split; [reflexivity|]. do 2 eexists.
  split; [reflexivity|]. split; [reflexivity|]. split; [reflexivity|].
  vm_compute. discriminate.
Qed.

(** *** Signatures *)



(** *** Scenario 4: buffering and recovery *)

(** A device observed before its session exists: the insert violates the
    foreign key at each of the three attempts and the record is buffered.
    The session is then created and the buffer drained. *)
Definition early_device : @WiFiDevice Q :=
  wifi_device "wifi_key_0" "AA:BB:CC:DD:EE:00" session_name noon.

Definition buffer_name : string := "buffer_wifi_1766664000.jsonl".

Definition early_line : @line Q :=
  WifiObject
    {| device_key := "wifi_key_0"; bssid := "AA:BB:CC:DD:EE:00"; essid := None;
       device_type := Text "unknown"; channel := None; frequency := None;
       signal_dbm := None; encryption := None; manufacturer := None;
       packets_total := 0;
       first_seen := Text "2025-12-25T12:00:00";
       last_seen := Text "2025-12-25T12:00:00";
       gps_lat := None; gps_lon := None; gps_alt := None; gps_valid := false;
       fingerprint_hash := None; fingerprint_data := None;
       is_known := false; identified_as := None;
       session_id := Some session_name;
       is_duplicate := false; duplicate_of_id := None; seen_by_nodes := [] |}.

Definition buffered : @Database Q :=
  with_backup_dir initialize_schema [(buffer_name, [early_line])].

(** The insert fails and buffers. *)
Example early_insert_is_buffered :
  insert_wifi_device initialize_schema early_device 3 1766664000
  = Ok (false, buffered).
Proof. reflexivity. Qed.

Definition recovered : @Database Q :=
  match create_session buffered (scan_session session_name noon) with
  | Ok created => snd created
  | Raise _ => buffered
  end.

Lemma drain_drops_buffered_record_witness :
  session_exists recovered session_name = true
  /\ backup_dir recovered = [(buffer_name, [early_line])]
  /\ import_buffered_records recovered = (0, with_backup_dir recovered [])
  /\ wifi_devices (snd (import_buffered_records recovered)) = []
  /\ backup_dir (snd (import_buffered_records recovered)) = [].
Proof.
  assert (H : import_buffered_records recovered = (0, with_backup_dir recovered [])).
  { apply (drain_drops_buffered_record recovered early_device early_line buffer_name);
      reflexivity. }
  rewrite H. repeat split; reflexivity.
Defined.

Lemma drain_imports_nothing_witness :
  import_buffered_records recovered = (0, with_backup_dir recovered []).
Proof.
  apply (drain_imports_nothing recovered).
  intros file [<-|[]] _. left. split; [reflexivity|].
  constructor; [|constructor]. exists early_device. reflexivity.
Defined.

(** A line that does replay, written by hand without the three keys that
    [to_dict] turns into text, shows the normal insert path at work. *)
Example hand_written_line_replays :
  let replayable := with_backup_dir recovered
                      [(buffer_name, [WifiObject early_device; OtherLine])] in
  fst (import_buffered_records replayable) = 1
  /\ List.map w_device_key (wifi_devices (snd (import_buffered_records replayable)))
     = ["wifi_key_0"]
  /\ backup_dir (snd (import_buffered_records replayable)) = [].
Proof. cbv zeta. repeat split; reflexivity. Qed.

(** *** The spatial query over the doubles *)

(** The literals of the scenario, as Python reads them. *)
Module Doubles.
Import PrimFloat.

(** [51.5074], [-0.1278], [50.0] and [111000.0] *)
Definition lat_0 : float := 0x1.9c0f27bb2fec5p+5%float.
Definition lon_0 : float := (-0x1.05bc01a36e2ebp-3)%float.
Definition fifty : float := 0x1.9p+5%float.
Definition f111000 : float := 0x1.b198p+16%float.

(** [51.5076] and [51.5174] *)
Definition lat_near : float := 0x1.9c0f9096bb98cp+5%float.
Definition lat_far : float := 0x1.9c23a29c779a7p+5%float.

(** [51.5074 + 50.0 / 111000.0], the northern edge of the box, and the
    next double after it. *)
Definition lat_edge : float := 0x1.9c1013e59f8c6p+5%float.
Definition lat_beyond : float := 0x1.9c1013e59f8c7p+5%float.

(** [30.0] *)
Definition thirty : float := 0x1.ep+4%float.

End Doubles.

Definition located (key address : string) (lat lon : PrimFloat.float)
  : @WiFiDevice PrimFloat.float :=
  {| device_key := key; bssid := address; essid := None;
     device_type := Obj UNKNOWN; channel := None; frequency := None;
     signal_dbm := None; encryption := None; manufacturer := None;
     packets_total := 0; first_seen := Obj noon; last_seen := Obj noon;
     gps_lat := Some lat; gps_lon := Some lon; gps_alt := Some Doubles.thirty;
     gps_valid := true;
     fingerprint_hash := None; fingerprint_data := None;
     is_known := false; identified_as := None; session_id := Some session_name;
     is_duplicate := false; duplicate_of_id := None; seen_by_nodes := [] |}.

Definition located_bt (key address : string) (lat lon : PrimFloat.float)
  : @BTDevice PrimFloat.float :=
  {| bt_device_key := key; mac_address := address; device_name := None;
     bt_device_type := Obj BT_UNKNOWN; device_class := None; rssi := None;
     bt_manufacturer := None; service_uuids := [];
     bt_first_seen := Obj noon; bt_last_seen := Obj noon;
     bt_gps_lat := Some lat; bt_gps_lon := Some lon;
     bt_gps_alt := Some Doubles.thirty; bt_gps_valid := true;
     bt_fingerprint_hash := None; bt_fingerprint_data := None;
     bt_is_known := false; bt_identified_as := None;
     bt_session_id := Some session_name;
     bt_is_duplicate := false; bt_duplicate_of_id := None;
     bt_seen_by_nodes := [] |}.

(** Six Wi-Fi devices: 0.0002 degrees of latitude north of the query
    point, at the query point, 0.01 degrees north of it, on the northern
    edge of the box, one double beyond that edge, and one whose latitude
    is a NaN; and a Bluetooth device at the query point. *)
Definition surveyed : result (@Database PrimFloat.float) :=
  created <- create_session initialize_schema (scan_session session_name noon) ;;
  r1 <- insert_wifi_device (snd created)
          (located "wifi_key_0" "AA:BB:CC:DD:EE:00" Doubles.lat_near Doubles.lon_0) 3 0 ;;
  r2 <- insert_wifi_device (snd r1)
          (located "wifi_key_1" "AA:BB:CC:DD:EE:01" Doubles.lat_0 Doubles.lon_0) 3 0 ;;
  r3 <- insert_wifi_device (snd r2)
          (located "wifi_key_2" "AA:BB:CC:DD:EE:02" Doubles.lat_far Doubles.lon_0) 3 0 ;;
  r4 <- insert_wifi_device (snd r3)
          (located "wifi_key_3" "AA:BB:CC:DD:EE:03" Doubles.lat_edge Doubles.lon_0) 3 0 ;;
  r5 <- insert_wifi_device (snd r4)
          (located "wifi_key_4" "AA:BB:CC:DD:EE:04" Doubles.lat_beyond Doubles.lon_0) 3 0 ;;
  r6 <- insert_wifi_device (snd r5)
          (located "wifi_key_5" "AA:BB:CC:DD:EE:05" PrimFloat.nan Doubles.lon_0) 3 0 ;;
  r7 <- insert_bt_device (snd r6)
          (located_bt "bt_key_0" "11:22:33:44:55:00" Doubles.lat_0 Doubles.lon_0) 3 0 ;;
  Ok (snd r7).

Definition surveyed_db : @Database PrimFloat.float :=
  match surveyed with Ok db => db | Raise _ => initialize_schema end.

Definition near_london : list (@WifiRow PrimFloat.float * option PrimFloat.float) :=
  get_devices_near PrimFloat.add PrimFloat.sub PrimFloat.mul PrimFloat.div
    PrimFloat.leb Doubles.f111000 surveyed_db
    Doubles.lat_0 Doubles.lon_0 Doubles.fifty None.

Lemma devices_near_wifi_box_sorted_witness :
  List.map (fun x => w_bssid (fst x)) near_london
  = ["AA:BB:CC:DD:EE:01"; "AA:BB:CC:DD:EE:00"; "AA:BB:CC:DD:EE:03"]
  /\ List.map w_gps_lat (wifi_devices surveyed_db)
     = [Some Doubles.lat_near; Some Doubles.lat_0; Some Doubles.lat_far;
        Some Doubles.lat_edge; Some Doubles.lat_beyond; None]
  /\ List.length (bt_devices surveyed_db) = 1%nat
  /\ StronglySorted
       (fun a b => match snd a, snd b with
                   | None, _ => True
                   | Some _, None => False
                   | Some x, Some y => PrimFloat.leb x y = true
                   end) near_london
  /\ (forall rows seq,
        get_devices_near PrimFloat.add PrimFloat.sub PrimFloat.mul PrimFloat.div
          PrimFloat.leb Doubles.f111000 (with_bt surveyed_db rows seq)
          Doubles.lat_0 Doubles.lon_0 Doubles.fifty None
        = near_london).
Proof.
  split; [vm_compute; reflexivity|]. split; [vm_compute; reflexivity|].
  split; [vm_compute; reflexivity|].
  apply (devices_near_wifi_box_sorted PrimFloat.add PrimFloat.sub PrimFloat.mul
           PrimFloat.div PrimFloat.leb Doubles.f111000 leb_total leb_trans
           surveyed_db Doubles.lat_0 Doubles.lon_0 Doubles.fifty None).
Defined.

(** A query point at infinity: the box is the one point, the row there is
    returned, and its distance is [NULL], since ∞ - ∞ is a NaN. *)
Example distance_of_infinity_is_null :
  let at_infinity :=
    with_wifi surveyed_db
      [new_wifi_row 1 session_name
         (located "wifi_key_0" "AA:BB:CC:DD:EE:00" PrimFloat.infinity Doubles.lon_0)
         "unknown" "2025-12-25T12:00:00" "2025-12-25T12:00:00"] 1 in
  List.map snd
    (get_devices_near PrimFloat.add PrimFloat.sub PrimFloat.mul PrimFloat.div
       PrimFloat.leb Doubles.f111000 at_infinity
       PrimFloat.infinity Doubles.lon_0 Doubles.fifty None)
  = [None].
Proof. vm_compute. reflexivity. Qed.

(** ** Further operations of the store *)

Section Operations.

Context {real : Type} {real_float : Float real}.

(** *** Sessions *)





Lemma eqs_sym a b : eqs a b = eqs b a.
Proof. unfold eqs. apply String.eqb_sym. Qed.

Lemma get_session_exists (self : @Database real) sid :
  session_exists self sid = match get_session self sid with Some _ => true | None => false end.
Proof.
  unfold session_exists, get_session.
  induction (scan_sessions self) as [|r l IH]; [reflexivity|].
  cbn [existsb List.find]. now destruct (eqs (s_session_id r) sid).
Qed.

(** X18: [create_session] raises the error of the database for a session
    id that a row has already, and the store is as it was; otherwise it
    returns the next row id and adds one row, which [get_session] then
    answers for that id: the start time and the status of the session,
    no end time, both counts 0; the other sessions are as they were. *)
Lemma create_session_round_trip (self : @Database real) (session : ScanSession) :
  (session_exists self (ss_session_id session) = true ->
   create_session self session = Raise SqliteError)
  /\ (session_exists self (ss_session_id session) = false ->
      exists row self',
        create_session self session = Ok (seq_sessions self + 1, self')
        /\ scan_sessions self' = scan_sessions self ++ [row]
        /\ get_session self' (ss_session_id session) = Some row
        /\ s_id row = seq_sessions self + 1
        /\ s_start_time row = Py.isoformat (ss_start_time session)
        /\ s_status row = value_or_self ScanStatus_value (ss_status session)
        /\ s_end_time row = None
        /\ s_wifi_device_count row = 0 /\ s_bt_device_count row = 0
        /\ (forall other, other <> ss_session_id session ->
              get_session self' other = get_session self other)).
Proof.
  unfold create_session. split; intros E; rewrite E; [reflexivity|].
  eexists. eexists. split; [reflexivity|].
  cbn [with_sessions scan_sessions]. split; [reflexivity|].
  rewrite get_session_exists in E. unfold get_session in *.
  cbn [with_sessions scan_sessions].
  destruct (List.find _ (scan_sessions self)) eqn:Ef; [discriminate|].
  split.
  { rewrite find_app_none by exact Ef. cbn. now rewrite eqs_refl. }
  do 6 (split; [reflexivity|]).
  intros other Hne.
  destruct (List.find (fun r => eqs (s_session_id r) other) (scan_sessions self)) eqn:Eo.
  - destruct (find_split _ _ _ Eo) as (l1 & l2 & -> & Hp & Hn).
    rewrite <- app_assoc, find_app_none by exact Hn. cbn [app List.find].
    now rewrite Hp.
  - rewrite find_app_none by exact Eo. cbn. rewrite eqs_neq by congruence.
    reflexivity.
Qed.


(** *** What the inserts keep of the device tables *)

(** The pair a device row is found by. *)
Definition wifi_key (r : @WifiRow real) : string * string :=
  (w_session_id r, w_device_key r).

Definition bt_key (r : @BtRow real) : string * string :=
  (b_session_id r, b_device_key r).

(** No two rows of a device table have the same session and device key;
    the row ids are distinct and none is above the sequence of the
    table. *)
Definition wifi_table_ok (self : @Database real) : Prop :=
  List.NoDup (List.map wifi_key (wifi_devices self))
  /\ List.NoDup (List.map w_id (wifi_devices self))
  /\ forall r, In r (wifi_devices self) -> w_id r <= seq_wifi self.

Definition bt_table_ok (self : @Database real) : Prop :=
  List.NoDup (List.map bt_key (bt_devices self))
  /\ List.NoDup (List.map b_id (bt_devices self))
  /\ forall r, In r (bt_devices self) -> b_id r <= seq_bt self.

Definition tables_ok (self : @Database real) : Prop :=
  wifi_table_ok self /\ bt_table_ok self.

(** Every row of a child table names a session that has a row. *)
Definition references_ok (self : @Database real) : Prop :=
  (forall r, In r (wifi_devices self) -> session_exists self (w_session_id r) = true)
  /\ (forall r, In r (bt_devices self) -> session_exists self (b_session_id r) = true)
  /\ (forall r, In r (gps_track self) -> session_exists self (g_session_id r) = true).

Lemma map_if_same {A B} (g : A -> B) (q : A -> bool) (f : A -> A) (l : list A) :
  (forall r, g (f r) = g r) ->
  List.map g (List.map (fun r => if q r then f r else r) l) = List.map g l.
Proof.
  intros H. rewrite List.map_map. apply List.map_ext. intros r.
  now destruct (q r).
Qed.

Lemma in_map_if {A} (q : A -> bool) (f : A -> A) (l : list A) r' :
  In r' (List.map (fun r => if q r then f r else r) l) ->
  exists r, In r l /\ (r' = r \/ r' = f r).
Proof.
  intros H. apply List.in_map_iff in H. destruct H as (r & E & Hin).
  exists r. split; [exact Hin|]. destruct (q r); auto.
Qed.

Lemma do_insert_wifi_shape (self : @Database real) d self' :
  _do_insert_wifi self d = Ok self' ->
  (exists existing ls,
      find_wifi self (session_id d) (device_key d) = Some existing
      /\ self' = with_wifi self
                   (List.map (fun r => if w_id r =? w_id existing
                                       then merge_wifi d ls r else r)
                      (wifi_devices self))
                   (seq_wifi self))
  \/ (exists sid row,
        find_wifi self (session_id d) (device_key d) = None
        /\ session_id d = Some sid
        /\ session_exists self sid = true
        /\ wifi_key row = (sid, device_key d)
        /\ w_id row = seq_wifi self + 1
        /\ self' = with_wifi self (wifi_devices self ++ [row]) (seq_wifi self + 1)).
Proof.
  unfold _do_insert_wifi.
  destruct (find_wifi self (session_id d) (device_key d)) as [existing|] eqn:Ef.
  - destruct (isoformat_of (last_seen d)) as [ls|]; cbn [bind]; [|discriminate].
    destruct (fits (wifi_ints d)); [|discriminate].
    intros [= <-]. left. now exists existing, ls.
  - destruct (value_of DeviceType_value (device_type d)); cbn [bind]; [|discriminate].
    destruct (isoformat_of (first_seen d)); cbn [bind]; [|discriminate].
    destruct (isoformat_of (last_seen d)); cbn [bind]; [|discriminate].
    destruct (fits (wifi_ints d)); [|discriminate].
    destruct (session_id d) as [sid|]; [|discriminate].
    destruct (session_exists self sid) eqn:Es; [|discriminate].
    intros [= <-]. right. eexists. eexists.
    repeat split; try reflexivity. exact Es.
Qed.

Lemma do_insert_bt_shape (self : @Database real) d self' :
  _do_insert_bt self d = Ok self' ->
  (exists existing ls,
      find_bt self (bt_session_id d) (bt_device_key d) = Some existing
      /\ self' = with_bt self
                   (List.map (fun r => if b_id r =? b_id existing
                                       then merge_bt d ls r else r)
                      (bt_devices self))
                   (seq_bt self))
  \/ (exists sid row,
        find_bt self (bt_session_id d) (bt_device_key d) = None
        /\ bt_session_id d = Some sid
        /\ session_exists self sid = true
        /\ bt_key row = (sid, bt_device_key d)
        /\ b_id row = seq_bt self + 1
        /\ self' = with_bt self (bt_devices self ++ [row]) (seq_bt self + 1)).
Proof.
  unfold _do_insert_bt.
  destruct (find_bt self (bt_session_id d) (bt_device_key d)) as [existing|] eqn:Ef.
  - destruct (isoformat_of (bt_last_seen d)) as [ls|]; cbn [bind]; [|discriminate].
    destruct (fits [rssi d]); [|discriminate].
    intros [= <-]. left. now exists existing, ls.
  - destruct (value_of BTDeviceType_value (bt_device_type d)); cbn [bind]; [|discriminate].
    destruct (isoformat_of (bt_first_seen d)); cbn [bind]; [|discriminate].
    destruct (isoformat_of (bt_last_seen d)); cbn [bind]; [|discriminate].
    destruct (fits [rssi d]); [|discriminate].
    destruct (bt_session_id d) as [sid|]; [|discriminate].
    destruct (session_exists self sid) eqn:Es; [|discriminate].
    intros [= <-]. right. eexists. eexists.
    repeat split; try reflexivity. exact Es.
Qed.

Lemma nodup_snoc {A} (l : list A) (x : A) :
  List.NoDup l -> ~ In x l -> List.NoDup (l ++ [x]).
Proof.
  intros Hl Hx. apply List.NoDup_app; [exact Hl|repeat constructor; auto|].
  intros y Hy [<-|[]]. contradiction.
Qed.

Lemma do_insert_wifi_ok (self : @Database real) d self' :
  _do_insert_wifi self d = Ok self' ->
  (tables_ok self -> tables_ok self')
  /\ (references_ok self -> references_ok self').
Proof.
  intros H. destruct (do_insert_wifi_shape self d self' H)
    as [(existing & ls & Hf & ->)|(sid & row & Hf & Hs & Hex & Hk & Hid & ->)].
  - split.
    + intros [(Hk & Hi & Hseq) Hbt]. split; [|exact Hbt].
      unfold wifi_table_ok. cbn [with_wifi wifi_devices seq_wifi].
      rewrite (map_if_same wifi_key), (map_if_same w_id) by reflexivity.
      split; [exact Hk|]. split; [exact Hi|].
      intros r' Hr'. apply in_map_if in Hr'. destruct Hr' as (r & Hin & [-> | ->]);
        exact (Hseq r Hin).
    + intros (Hw & Hb & Hg). split; [|split; assumption].
      cbn [with_wifi wifi_devices]. intros r' Hr'.
      apply in_map_if in Hr'. destruct Hr' as (r & Hin & [-> | ->]);
        exact (Hw r Hin).
  - split.
    + intros [(Hkeys & Hi & Hseq) Hbt]. split; [|exact Hbt].
      unfold wifi_table_ok. cbn [with_wifi wifi_devices seq_wifi].
      rewrite !List.map_app. cbn [List.map]. split; [|split].
      * apply nodup_snoc; [exact Hkeys|]. rewrite Hk. intros Hin.
        apply List.in_map_iff in Hin. destruct Hin as (r & Er & Hin).
        unfold find_wifi in Hf. apply (List.find_none _ _ Hf) in Hin.
        unfold wifi_key in Er. injection Er as E1 E2.
        rewrite Hs in Hin. cbn [eq_param] in Hin.
        now rewrite E1, E2, !eqs_refl in Hin.
      * apply nodup_snoc; [exact Hi|]. rewrite Hid. intros Hin.
        apply List.in_map_iff in Hin. destruct Hin as (r & Er & Hin).
        apply Hseq in Hin. lia.
      * intros r Hr. apply List.in_app_or in Hr. destruct Hr as [Hr|[<-|[]]].
        -- apply Hseq in Hr. lia.
        -- lia.
    + intros (Hw & Hb & Hg). split; [|split; assumption].
      cbn [with_wifi wifi_devices]. intros r Hr.
      apply List.in_app_or in Hr. destruct Hr as [Hr|[<-|[]]]; [now apply Hw|].
      unfold wifi_key in Hk. injection Hk as -> _. exact Hex.
Qed.

Lemma do_insert_bt_ok (self : @Database real) d self' :
  _do_insert_bt self d = Ok self' ->
  (tables_ok self -> tables_ok self')
  /\ (references_ok self -> references_ok self').
Proof.
  intros H. destruct (do_insert_bt_shape self d self' H)
    as [(existing & ls & Hf & ->)|(sid & row & Hf & Hs & Hex & Hk & Hid & ->)].
  - split.
    + intros [Hwifi (Hk & Hi & Hseq)]. split; [exact Hwifi|].
      unfold bt_table_ok. cbn [with_bt bt_devices seq_bt].
      rewrite (map_if_same bt_key), (map_if_same b_id) by reflexivity.
      split; [exact Hk|]. split; [exact Hi|].
      intros r' Hr'. apply in_map_if in Hr'. destruct Hr' as (r & Hin & [-> | ->]);
        exact (Hseq r Hin).
    + intros (Hw & Hb & Hg). split; [exact Hw|]. split; [|exact Hg].
      cbn [with_bt bt_devices]. intros r' Hr'.
      apply in_map_if in Hr'. destruct Hr' as (r & Hin & [-> | ->]);
        exact (Hb r Hin).
  - split.
    + intros [Hwifi (Hkeys & Hi & Hseq)]. split; [exact Hwifi|].
      unfold bt_table_ok. cbn [with_bt bt_devices seq_bt].
      rewrite !List.map_app. cbn [List.map]. split; [|split].
      * apply nodup_snoc; [exact Hkeys|]. rewrite Hk. intros Hin.
        apply List.in_map_iff in Hin. destruct Hin as (r & Er & Hin).
        unfold find_bt in Hf. apply (List.find_none _ _ Hf) in Hin.
        unfold bt_key in Er. injection Er as E1 E2.
        rewrite Hs in Hin. cbn [eq_param] in Hin.
        now rewrite E1, E2, !eqs_refl in Hin.
      * apply nodup_snoc; [exact Hi|]. rewrite Hid. intros Hin.
        apply List.in_map_iff in Hin. destruct Hin as (r & Er & Hin).
        apply Hseq in Hin. lia.
      * intros r Hr. apply List.in_app_or in Hr. destruct Hr as [Hr|[<-|[]]].
        -- apply Hseq in Hr. lia.
        -- lia.
    + intros (Hw & Hb & Hg). split; [exact Hw|]. split; [|exact Hg].
      cbn [with_bt bt_devices]. intros r Hr.
      apply List.in_app_or in Hr. destruct Hr as [Hr|[<-|[]]]; [now apply Hb|].
      unfold bt_key in Hk. injection Hk as -> _. exact Hex.
Qed.

Lemma wifi_attempts_some n (self : @Database real) d self' :
  wifi_attempts n self d = Ok (Some self') -> _do_insert_wifi self d = Ok self'.
Proof.
  induction n as [|n IH]; cbn [wifi_attempts]; [discriminate|].
  destruct (_do_insert_wifi self d) as [s|[]]; try discriminate; [|exact IH].
  now intros [= ->].
Qed.

Lemma bt_attempts_some n (self : @Database real) d self' :
  bt_attempts n self d = Ok (Some self') -> _do_insert_bt self d = Ok self'.
Proof.
  induction n as [|n IH]; cbn [bt_attempts]; [discriminate|].
  destruct (_do_insert_bt self d) as [s|[]]; try discriminate; [|exact IH].
  now intros [= ->].
Qed.

(** Writing to the buffer directory leaves the tables alone. *)
Lemma with_backup_dir_ok (self : @Database real) files :
  (tables_ok self -> tables_ok (with_backup_dir self files))
  /\ (references_ok self -> references_ok (with_backup_dir self files)).
Proof. split; intros H; exact H. Qed.

Lemma insert_wifi_device_ok (self : @Database real) d retries epoch b self' :
  insert_wifi_device self d retries epoch = Ok (b, self') ->
  (tables_ok self -> tables_ok self')
  /\ (references_ok self -> references_ok self').
Proof.
  unfold insert_wifi_device.
  destruct (wifi_attempts (Z.to_nat retries) self d) as [[s|]|] eqn:E;
    cbn [bind]; [| |discriminate].
  - intros [= _ <-]. apply wifi_attempts_some in E. now apply do_insert_wifi_ok in E.
  - destruct (wifi_to_dict d); cbn [bind]; [|discriminate].
    intros [= _ <-]. apply with_backup_dir_ok.
Qed.

Lemma insert_bt_device_ok (self : @Database real) d retries epoch b self' :
  insert_bt_device self d retries epoch = Ok (b, self') ->
  (tables_ok self -> tables_ok self')
  /\ (references_ok self -> references_ok self').
Proof.
  unfold insert_bt_device.
  destruct (bt_attempts (Z.to_nat retries) self d) as [[s|]|] eqn:E;
    cbn [bind]; [| |discriminate].
  - intros [= _ <-]. apply bt_attempts_some in E. now apply do_insert_bt_ok in E.
  - destruct (bt_to_dict d); cbn [bind]; [|discriminate].
    intros [= _ <-]. apply with_backup_dir_ok.
Qed.

(** A property of the store that the two inserts keep and that does not
    depend on the buffer directory is kept by the drain. *)
Lemma drain_keeps (P : @Database real -> Prop) :
  (forall self d self', _do_insert_wifi self d = Ok self' -> P self -> P self') ->
  (forall self d self', _do_insert_bt self d = Ok self' -> P self -> P self') ->
  (forall self files, P self -> P (with_backup_dir self files)) ->
  forall self, P self -> P (snd (import_buffered_records self)).
Proof.
  intros Hw Hb Hd.
  assert (Hreplay : forall t lines st, P (snd st) ->
            P (snd (fold_left (replay t) lines st))).
  { intros t lines. induction lines as [|l lines IH]; intros st Hst; [exact Hst|].
    cbn [fold_left]. apply IH. destruct st as [n self]. unfold replay.
    destruct (eqs t "wifi").
    - destruct l as [d|d|]; try exact Hst.
      destruct (_do_insert_wifi self d) eqn:E; [|exact Hst].
      cbn [snd] in *. now apply (Hw _ _ _ E).
    - destruct (eqs t "bt"); [|exact Hst].
      destruct l as [d|d|]; try exact Hst.
      destruct (_do_insert_bt self d) eqn:E; [|exact Hst].
      cbn [snd] in *. now apply (Hb _ _ _ E). }
  assert (Hfiles : forall files st, P (snd st) ->
            P (snd (fold_left drain_file files st))).
  { induction files as [|[name lines] files IH]; intros st Hst; [exact Hst|].
    cbn [fold_left]. apply IH. unfold drain_file.
    destruct (is_buffer_file name); [|exact Hst].
    specialize (Hreplay (record_type_of name) lines st Hst).
    destruct (fold_left (replay (record_type_of name)) lines st) as [n self'].
    cbn [snd] in *. unfold unlink. now apply Hd. }
  intros self Hself. unfold import_buffered_records. now apply Hfiles.
Qed.

Lemma nodup_map_filter {A B} (f : A -> B) (p : A -> bool) (k : B) (l : list A) :
  List.NoDup (List.map f l) ->
  (forall r, p r = true -> f r = k) ->
  (List.length (List.filter p l) <= 1)%nat.
Proof.
  intros Hnd Hp. induction l as [|r l IH]; [cbn; lia|].
  cbn [List.map] in Hnd. apply List.NoDup_cons_iff in Hnd. destruct Hnd as [Hr Hnd].
  cbn [List.filter]. destruct (p r) eqn:E; [|now apply IH].
  assert (Hnone : List.filter p l = []).
  { destruct (List.filter p l) as [|x rest] eqn:Ef; [reflexivity|].
    exfalso. apply Hr.
    assert (Hx : In x (List.filter p l)) by (rewrite Ef; now left).
    apply List.filter_In in Hx. destruct Hx as [Hin Hpx].
    rewrite (Hp r E), <- (Hp x Hpx). now apply List.in_map. }
  rewrite Hnone. cbn. lia.
Qed.

(** X20: the device tables never hold two rows for one session and device
    key.  A new store has the property; [insert_wifi_device] and
    [insert_bt_device], whatever they answer, and the drain of the buffer
    keep it; and with it the rows of a session and key are one at most,
    so the [fetchone()] of the upsert finds the only candidate. *)
Lemma upserts_keep_one_row_per_key :
  tables_ok (@initialize_schema real)
  /\ (forall (self : @Database real) d retries epoch b self',
        insert_wifi_device self d retries epoch = Ok (b, self') ->
        tables_ok self -> tables_ok self')
  /\ (forall (self : @Database real) d retries epoch b self',
        insert_bt_device self d retries epoch = Ok (b, self') ->
        tables_ok self -> tables_ok self')
  /\ (forall self : @Database real,
        tables_ok self -> tables_ok (snd (import_buffered_records self)))
  /\ (forall (self : @Database real) sid key,
        tables_ok self ->
        (List.length
           (List.filter (fun r => eqs (w_session_id r) sid && eqs (w_device_key r) key)
              (wifi_devices self)) <= 1)%nat
        /\ (List.length
              (List.filter (fun r => eqs (b_session_id r) sid && eqs (b_device_key r) key)
                 (bt_devices self)) <= 1)%nat).
Proof.
  split; [|split; [|split; [|split]]].
  - repeat split; cbn; try constructor; intros r [].
  - intros self d retries epoch b self' H. now apply insert_wifi_device_ok in H.
  - intros self d retries epoch b self' H. now apply insert_bt_device_ok in H.
  - apply drain_keeps.
    + intros self d self' H. now apply do_insert_wifi_ok in H.
    + intros self d self' H. now apply do_insert_bt_ok in H.
    + intros self files H. exact H.
  - intros self sid key [(Hw & _) (Hb & _)]. split.
    + apply (nodup_map_filter wifi_key _ (sid, key)); [exact Hw|].
      intros r Hr. apply andb_prop in Hr. destruct Hr as [H1 H2].
      apply String.eqb_eq in H1, H2. unfold wifi_key. congruence.
    + apply (nodup_map_filter bt_key _ (sid, key)); [exact Hb|].
      intros r Hr. apply andb_prop in Hr. destruct Hr as [H1 H2].
      apply String.eqb_eq in H1, H2. unfold bt_key. congruence.
Qed.

Lemma session_exists_with_sessions (self : @Database real) rows seq sid :
  session_exists (with_sessions self rows seq) sid
  = existsb (fun r => eqs (s_session_id r) sid) rows.
Proof. reflexivity. Qed.

Lemma references_with_sessions (self : @Database real) rows seq :
  (forall sid, session_exists self sid = true ->
               existsb (fun r => eqs (s_session_id r) sid) rows = true) ->
  references_ok self -> references_ok (with_sessions self rows seq).
Proof.
  intros Hmono (Hw & Hb & Hg). unfold references_ok.
  cbn [with_sessions wifi_devices bt_devices gps_track].
  repeat split; intros r Hr; rewrite session_exists_with_sessions; apply Hmono; auto.
Qed.

Lemma existsb_map_same {A} (p : A -> bool) (f : A -> A) (l : list A) :
  (forall r, p (f r) = p r) -> existsb p (List.map f l) = existsb p l.
Proof.
  intros H. induction l as [|r l IH]; [reflexivity|].
  cbn [List.map existsb]. now rewrite H, IH.
Qed.

(** X21: every row of [wifi_devices], [bt_devices] and [gps_track] names a
    session that has a row in [scan_sessions].  A new store has the
    property, and every operation that writes to these tables or to the
    sessions keeps it: a device or a point of a session that does not
    exist is refused by the database, and no operation removes a
    session. *)
Lemma child_rows_reference_a_session :
  references_ok (@initialize_schema real)
  /\ (forall (self : @Database real) session id self',
        create_session self session = Ok (id, self') ->
        references_ok self -> references_ok self')
  /\ (forall (self : @Database real) session,
        references_ok self -> references_ok (update_session self session))
  /\ (forall (self : @Database real) sid end_time now,
        references_ok self -> references_ok (end_session self sid end_time now))
  /\ (forall (self : @Database real) d retries epoch b self',
        insert_wifi_device self d retries epoch = Ok (b, self') ->
        references_ok self -> references_ok self')
  /\ (forall (self : @Database real) d retries epoch b self',
        insert_bt_device self d retries epoch = Ok (b, self') ->
        references_ok self -> references_ok self')
  /\ (forall (self : @Database real) sid lat lon alt speed track quality hdop sats ts now self',
        insert_gps_point self sid lat lon alt speed track quality hdop sats ts now = Ok self' ->
        references_ok self ->
        references_ok self' /\ session_exists self sid = true)
  /\ (forall self : @Database real,
        references_ok self -> references_ok (snd (import_buffered_records self))).
Proof.
  split; [|split; [|split; [|split; [|split; [|split; [|split]]]]]].
  - repeat split; intros r [].
  - intros self session id self'. unfold create_session.
    destruct (session_exists self (ss_session_id session)); [discriminate|].
    intros [= _ <-]. apply references_with_sessions.
    intros sid H. rewrite existsb_app. unfold session_exists in H. now rewrite H.
  - intros self session. apply references_with_sessions.
    intros sid H. unfold session_exists in H. rewrite <- H.
    apply (existsb_map_same (fun r => eqs (s_session_id r) sid)
             (fun r => if eqs (s_session_id r) (ss_session_id session)
                       then set_session_values session r else r)).
    intros r. now destruct (eqs (s_session_id r) (ss_session_id session)).
  - intros self sid end_time now. apply references_with_sessions.
    intros sid' H. unfold session_exists in H. rewrite <- H.
    apply (existsb_map_same (fun r => eqs (s_session_id r) sid')
             (fun r => if eqs (s_session_id r) sid
                       then set_end_time (Py.isoformat (Py.or_now end_time now)) r
                       else r)).
    intros r. now destruct (eqs (s_session_id r) sid).
  - intros self d retries epoch b self' H. now apply insert_wifi_device_ok in H.
  - intros self d retries epoch b self' H. now apply insert_bt_device_ok in H.
  - intros self sid lat lon alt speed track quality hdop sats ts now self'.
    unfold insert_gps_point.
    destruct (fits [Some quality; Some sats]); [|discriminate].
    destruct (session_exists self sid) eqn:Es; [|discriminate].
    intros [= <-] (Hw & Hb & Hg). split; [|reflexivity].
    split; [exact Hw|]. split; [exact Hb|].
    cbn [with_gps gps_track]. intros r Hr.
    apply List.in_app_or in Hr. destruct Hr as [Hr|[<-|[]]]; [now apply Hg|exact Es].
  - apply drain_keeps.
    + intros self d self' H. now apply do_insert_wifi_ok in H.
    + intros self d self' H. now apply do_insert_bt_ok in H.
    + intros self files H. exact H.
Qed.

(** *** An insert that fails *)

(** The lines of the file [name] of the buffer directory, none when there
    is no such file. *)
Definition file_lines (name : string) (files : list (string * list (@line real)))
  : list (@line real) :=
  match List.find (fun f => eqs (fst f) name) files with
  | Some f => snd f
  | None => []
  end.

Lemma append_line_lines name (l : @line real) files other :
  file_lines other (append_line name l files)
  = if eqs other name then file_lines name files ++ [l]
    else file_lines other files.
Proof.
  unfold file_lines. induction files as [|[n ls] files IH].
  - cbn [append_line List.find fst snd]. rewrite (eqs_sym name other).
    now destruct (eqs other name).
  - cbn [append_line]. destruct (eqs n name) eqn:En.
    + apply String.eqb_eq in En. subst n. cbn [List.find fst snd].
      rewrite (eqs_sym name other).
      destruct (eqs other name) eqn:Eo; [|reflexivity].
      now rewrite eqs_refl.
    + cbn [List.find fst snd]. rewrite En. destruct (eqs n other) eqn:Eo.
      * apply String.eqb_eq in Eo. subst n. now rewrite En.
      * exact IH.
Qed.

Lemma wifi_attempts_fail n (self : @Database real) d :
  _do_insert_wifi self d = Raise SqliteError -> wifi_attempts n self d = Ok None.
Proof. intros H. induction n as [|n IH]; cbn [wifi_attempts]; [reflexivity|]. now rewrite H. Qed.

Lemma bt_attempts_fail n (self : @Database real) d :
  _do_insert_bt self d = Raise SqliteError -> bt_attempts n self d = Ok None.
Proof. intros H. induction n as [|n IH]; cbn [bt_attempts]; [reflexivity|]. now rewrite H. Qed.

(** The row for the device does not exist and the database refuses to
    insert it: the [int] fields of the device can be bound, and it names
    no session, or a session that has no row. *)
Definition wifi_refused (self : @Database real) (d : @WiFiDevice real) : Prop :=
  find_wifi self (session_id d) (device_key d) = None
  /\ fits (wifi_ints d) = true
  /\ match session_id d with
     | Some sid => session_exists self sid = false
     | None => True
     end.

Definition bt_refused (self : @Database real) (d : @BTDevice real) : Prop :=
  find_bt self (bt_session_id d) (bt_device_key d) = None
  /\ fits [rssi d] = true
  /\ match bt_session_id d with
     | Some sid => session_exists self sid = false
     | None => True
     end.

Lemma failed_wifi_insert (self : @Database real) (d : @WiFiDevice real)
    retries epoch t fs ls :
  device_type d = Obj t -> first_seen d = Obj fs -> last_seen d = Obj ls ->
  retries <= 0 \/ wifi_refused self d ->
  exists l,
    wifi_to_dict d = Ok l
    /\ insert_wifi_device self d retries epoch
       = Ok (false, _buffer_to_file self "wifi" l epoch).
Proof.
  intros Ht Hfs Hls Hwhy.
  assert (Hd : exists l, wifi_to_dict d = Ok l).
  { unfold wifi_to_dict. rewrite Ht, Hfs, Hls. cbn. eauto. }
  destruct Hd as [l Hl]. exists l. split; [exact Hl|].
  unfold insert_wifi_device.
  assert (Ha : wifi_attempts (Z.to_nat retries) self d = Ok None).
  { destruct Hwhy as [Hr|(Hf & Hfits & Hs)].
    - assert (Z.to_nat retries = 0%nat) as -> by lia. reflexivity.
    - apply wifi_attempts_fail. unfold _do_insert_wifi.
      rewrite Hf, Ht, Hfs, Hls. cbn [value_of isoformat_of bind]. rewrite Hfits.
      destruct (session_id d) as [sid|]; [|reflexivity]. now rewrite Hs. }
  rewrite Ha. cbn [bind]. now rewrite Hl.
Qed.

Lemma failed_bt_insert (self : @Database real) (d : @BTDevice real)
    retries epoch t fs ls :
  bt_device_type d = Obj t -> bt_first_seen d = Obj fs -> bt_last_seen d = Obj ls ->
  retries <= 0 \/ bt_refused self d ->
  exists l,
    bt_to_dict d = Ok l
    /\ insert_bt_device self d retries epoch
       = Ok (false, _buffer_to_file self "bt" l epoch).
Proof.
  intros Ht Hfs Hls Hwhy.
  assert (Hd : exists l, bt_to_dict d = Ok l).
  { unfold bt_to_dict. rewrite Ht, Hfs, Hls. cbn. eauto. }
  destruct Hd as [l Hl]. exists l. split; [exact Hl|].
  unfold insert_bt_device.
  assert (Ha : bt_attempts (Z.to_nat retries) self d = Ok None).
  { destruct Hwhy as [Hr|(Hf & Hfits & Hs)].
    - assert (Z.to_nat retries = 0%nat) as -> by lia. reflexivity.
    - apply bt_attempts_fail. unfold _do_insert_bt.
      rewrite Hf, Ht, Hfs, Hls. cbn [value_of isoformat_of bind]. rewrite Hfits.
      destruct (bt_session_id d) as [sid|]; [|reflexivity]. now rewrite Hs. }
  rewrite Ha. cbn [bind]. now rewrite Hl.
Qed.

Lemma buffer_to_file_lines (self : @Database real) t l epoch :
  let self' := _buffer_to_file self t l epoch in
  self' = with_backup_dir self (backup_dir self')
  /\ file_lines (buffer_file_name t epoch) (backup_dir self')
     = file_lines (buffer_file_name t epoch) (backup_dir self) ++ [l]
  /\ forall other,
       other <> buffer_file_name t epoch ->
       file_lines other (backup_dir self') = file_lines other (backup_dir self).
Proof.
  cbv zeta. unfold _buffer_to_file. cbn [with_backup_dir backup_dir].
  split; [reflexivity|]. split.
  - now rewrite append_line_lines, eqs_refl.
  - intros other Hne. now rewrite append_line_lines, eqs_neq.
Qed.

(** X22: an insert of a device whose row cannot be written, since its
    session has no row, answers [False] after its attempts, leaves every
    table as it was and appends one line, the device's [to_dict], to the
    buffer file of its record type and second; the other files are as
    they were.  The same happens, without any attempt, when [retries] is
    0 or less, also for a device that could be stored. *)
Lemma failed_insert_is_buffered :
  (forall (self : @Database real) (d : @WiFiDevice real) retries epoch t fs ls,
      device_type d = Obj t -> first_seen d = Obj fs -> last_seen d = Obj ls ->
      retries <= 0 \/ wifi_refused self d ->
      exists l self',
        wifi_to_dict d = Ok l
        /\ insert_wifi_device self d retries epoch = Ok (false, self')
        /\ self' = with_backup_dir self (backup_dir self')
        /\ file_lines (buffer_file_name "wifi" epoch) (backup_dir self')
           = file_lines (buffer_file_name "wifi" epoch) (backup_dir self) ++ [l]
        /\ forall other,
             other <> buffer_file_name "wifi" epoch ->
             file_lines other (backup_dir self') = file_lines other (backup_dir self))
  /\ (forall (self : @Database real) (d : @BTDevice real) retries epoch t fs ls,
        bt_device_type d = Obj t -> bt_first_seen d = Obj fs ->
        bt_last_seen d = Obj ls ->
        retries <= 0 \/ bt_refused self d ->
        exists l self',
          bt_to_dict d = Ok l
          /\ insert_bt_device self d retries epoch = Ok (false, self')
          /\ self' = with_backup_dir self (backup_dir self')
          /\ file_lines (buffer_file_name "bt" epoch) (backup_dir self')
             = file_lines (buffer_file_name "bt" epoch) (backup_dir self) ++ [l]
          /\ forall other,
               other <> buffer_file_name "bt" epoch ->
               file_lines other (backup_dir self') = file_lines other (backup_dir self)).
Proof.
  split.
  - intros self d retries epoch t fs ls Ht Hfs Hls Hwhy.
    destruct (failed_wifi_insert self d retries epoch t fs ls Ht Hfs Hls Hwhy)
      as (l & Hl & Hi).
    exists l, (_buffer_to_file self "wifi" l epoch).
    split; [exact Hl|]. split; [exact Hi|]. apply buffer_to_file_lines.
  - intros self d retries epoch t fs ls Ht Hfs Hls Hwhy.
    destruct (failed_bt_insert self d retries epoch t fs ls Ht Hfs Hls Hwhy)
      as (l & Hl & Hi).
    exists l, (_buffer_to_file self "bt" l epoch).
    split; [exact Hl|]. split; [exact Hi|]. apply buffer_to_file_lines.
Qed.

(** X23: an exception that is not an error of the database is neither
    retried nor buffered.  For a device whose [last_seen] is a [str], as
    it is in every device built from a buffered line, [insert_wifi_device]
    and [insert_bt_device] raise [AttributeError], whatever the number of
    retries and whether the row exists or not. *)
Lemma attribute_error_escapes_the_insert :
  (forall (self : @Database real) (d : @WiFiDevice real) retries epoch s,
      last_seen d = Text s ->
      insert_wifi_device self d retries epoch = Raise AttributeError)
  /\ (forall (self : @Database real) (d : @BTDevice real) retries epoch s,
        bt_last_seen d = Text s ->
        insert_bt_device self d retries epoch = Raise AttributeError).
Proof.
  split.
  - intros self d retries epoch s Hls.
    assert (Hdo : _do_insert_wifi self d = Raise AttributeError).
    { unfold _do_insert_wifi. rewrite Hls.
      destruct (find_wifi _ _ _); [reflexivity|].
      destruct (device_type d); [|reflexivity].
      destruct (first_seen d); reflexivity. }
    assert (Hdict : wifi_to_dict d = Raise AttributeError).
    { unfold wifi_to_dict. rewrite Hls.
      destruct (device_type d); [|reflexivity].
      destruct (first_seen d); reflexivity. }
    unfold insert_wifi_device. destruct (Z.to_nat retries) as [|n].
    + cbn [wifi_attempts bind]. now rewrite Hdict.
    + cbn [wifi_attempts]. now rewrite Hdo.
  - intros self d retries epoch s Hls.
    assert (Hdo : _do_insert_bt self d = Raise AttributeError).
    { unfold _do_insert_bt. rewrite Hls.
      destruct (find_bt _ _ _); [reflexivity|].
      destruct (bt_device_type d); [|reflexivity].
      destruct (bt_first_seen d); reflexivity. }
    assert (Hdict : bt_to_dict d = Raise AttributeError).
    { unfold bt_to_dict. rewrite Hls.
      destruct (bt_device_type d); [|reflexivity].
      destruct (bt_first_seen d); reflexivity. }
    unfold insert_bt_device. destruct (Z.to_nat retries) as [|n].
    + cbn [bt_attempts bind]. now rewrite Hdict.
    + cbn [bt_attempts]. now rewrite Hdo.
Qed.

(** *** The columns an upsert leaves alone *)

(** [UPDATE wifi_devices SET is_known = ?, identified_as = ? WHERE id = ?]
    on one row. *)
Definition set_known (is_known : bool) (identified_as : option string)
    (r : @WifiRow real) : @WifiRow real :=
  {| w_id := w_id r; w_session_id := w_session_id r;
     w_device_key := w_device_key r; w_bssid := w_bssid r;
     w_essid := w_essid r; w_device_type := w_device_type r;
     w_channel := w_channel r; w_frequency := w_frequency r;
     w_signal_dbm := w_signal_dbm r; w_encryption := w_encryption r;
     w_manufacturer := w_manufacturer r; w_packets_total := w_packets_total r;
     w_first_seen := w_first_seen r; w_last_seen := w_last_seen r;
     w_gps_lat := w_gps_lat r; w_gps_lon := w_gps_lon r;
     w_gps_alt := w_gps_alt r; w_gps_valid := w_gps_valid r;
     w_fingerprint_hash := w_fingerprint_hash r;
     w_fingerprint_data := w_fingerprint_data r;
     w_is_known := is_known; w_identified_as := identified_as;
     w_is_duplicate := w_is_duplicate r;
     w_duplicate_of_id := w_duplicate_of_id r;
     w_seen_by_nodes := w_seen_by_nodes r |}.

Definition update_wifi_known_status (self : @Database real) (device_id : Z)
    (is_known : bool) (identified_as : option string) : @Database real :=
  with_wifi self
    (List.map (fun r => if w_id r =? device_id
                        then set_known is_known identified_as r else r)
       (wifi_devices self))
    (seq_wifi self).

(** The columns of a Wi-Fi row that [_do_insert_wifi] never writes once
    the row exists. *)
Definition analyst_columns_kept (old new : @WifiRow real) : Prop :=
  w_id new = w_id old
  /\ w_is_known new = w_is_known old
  /\ w_identified_as new = w_identified_as old
  /\ w_manufacturer new = w_manufacturer old
  /\ w_device_type new = w_device_type old
  /\ w_is_duplicate new = w_is_duplicate old
  /\ w_seen_by_nodes new = w_seen_by_nodes old.

Lemma analyst_columns_kept_refl r : analyst_columns_kept r r.
Proof. repeat split. Qed.

Lemma analyst_columns_kept_trans a b c :
  analyst_columns_kept a b -> analyst_columns_kept b c -> analyst_columns_kept a c.
Proof.
  unfold analyst_columns_kept. intros (A1 & A2 & A3 & A4 & A5 & A6 & A7)
    (B1 & B2 & B3 & B4 & B5 & B6 & B7).
  repeat split; congruence.
Qed.

Lemma do_insert_wifi_keeps (self : @Database real) d self' :
  _do_insert_wifi self d = Ok self' ->
  forall r, In r (wifi_devices self) ->
  exists r', In r' (wifi_devices self') /\ analyst_columns_kept r r'.
Proof.
  intros H r Hr. destruct (do_insert_wifi_shape self d self' H)
    as [(existing & ls & _ & ->)|(sid & row & _ & _ & _ & _ & _ & ->)].
  - cbn [with_wifi wifi_devices].
    exists (if w_id r =? w_id existing then merge_wifi d ls r else r). split.
    + apply (List.in_map (fun r => if w_id r =? w_id existing
                                   then merge_wifi d ls r else r)). exact Hr.
    + destruct (w_id r =? w_id existing); repeat split.
  - cbn [with_wifi wifi_devices]. exists r. split.
    + apply List.in_or_app. now left.
    + apply analyst_columns_kept_refl.
Qed.

(** A sequence of [_do_insert_wifi], each on the store the one before
    left. *)
Definition insert_all (self : @Database real) (devices : list (@WiFiDevice real))
  : result (@Database real) :=
  fold_left (fun acc d => (s <- acc ;; _do_insert_wifi s d)) devices (Ok self).

Lemma insert_all_raise devices e :
  fold_left (fun acc d => (s <- acc ;; @_do_insert_wifi real _ s d)) devices (Raise e)
  = Raise e.
Proof. induction devices as [|d devices IH]; [reflexivity|exact IH]. Qed.

Lemma insert_all_keeps devices : forall (self self' : @Database real),
  insert_all self devices = Ok self' ->
  forall r, In r (wifi_devices self) ->
  exists r', In r' (wifi_devices self') /\ analyst_columns_kept r r'.
Proof.
  induction devices as [|d devices IH]; intros self self' H r Hr.
  - injection H as <-. exists r. split; [exact Hr|apply analyst_columns_kept_refl].
  - unfold insert_all in H. cbn [fold_left bind] in H.
    destruct (_do_insert_wifi self d) as [s|e] eqn:E.
    + destruct (do_insert_wifi_keeps self d s E r Hr) as (r1 & Hr1 & K1).
      destruct (IH s self' H r1 Hr1) as (r2 & Hr2 & K2).
      exists r2. split; [exact Hr2|]. now apply (analyst_columns_kept_trans r r1 r2).
    + rewrite insert_all_raise in H. discriminate H.
Qed.

(** X24: once a row of [wifi_devices] exists, no insert of the device
    writes its [is_known], [identified_as], [manufacturer], [device_type],
    [is_duplicate] or [seen_by_nodes]: the values of the later
    observations for these columns are dropped.  So what
    [update_wifi_known_status] wrote for a row id is still there after any
    sequence of inserts. *)
Lemma upserts_keep_the_known_status :
  (forall (self : @Database real) d self',
      _do_insert_wifi self d = Ok self' ->
      forall r, In r (wifi_devices self) ->
      exists r', In r' (wifi_devices self') /\ analyst_columns_kept r r')
  /\ (forall (self : @Database real) id is_known identified_as devices self' r,
        In r (wifi_devices self) -> w_id r = id ->
        insert_all (update_wifi_known_status self id is_known identified_as) devices
        = Ok self' ->
        exists r',
          In r' (wifi_devices self') /\ w_id r' = id
          /\ w_is_known r' = is_known /\ w_identified_as r' = identified_as).
Proof.
  split; [exact do_insert_wifi_keeps|].
  intros self id k ident devices self' r Hr Hid H.
  assert (Hin : In (set_known k ident r)
                  (wifi_devices (update_wifi_known_status self id k ident))).
  { unfold update_wifi_known_status. cbn [with_wifi wifi_devices].
    apply List.in_map_iff. exists r. split; [|exact Hr].
    rewrite Hid, Z.eqb_refl. reflexivity. }
  destruct (insert_all_keeps devices _ _ H _ Hin) as (r' & Hr' & K).
  destruct K as (K1 & K2 & K3 & _).
  exists r'. split; [exact Hr'|]. cbn [set_known w_id w_is_known w_identified_as] in *.
  repeat split; congruence.
Qed.

(** *** The GPS track *)

(** [ORDER BY timestamp]: the column is text, compared byte by byte. *)
Definition by_timestamp (a b : @GpsRow real) : Prop :=
  Py.str_le (g_timestamp a) (g_timestamp b).

#[local] Instance by_timestamp_dec : RelDecision by_timestamp.
Proof. intros a b. unfold by_timestamp. apply _. Defined.

#[local] Instance by_timestamp_total : Total by_timestamp.
Proof. intros a b. apply Py.str_le_total. Qed.

#[local] Instance by_timestamp_trans : Transitive by_timestamp.
Proof. intros a b c. apply Py.str_le_trans. Qed.

(** The rows of the session in the order of their timestamps; rows with
    one timestamp come in some order. *)
Definition get_gps_track (self : @Database real) (session_id : string)
  : list (@GpsRow real) :=
  merge_sort by_timestamp
    (List.filter (fun r => eqs (g_session_id r) session_id) (gps_track self)).

Lemma gps_track_rows (self : @Database real) (sid : string) :
  get_gps_track self sid
  ≡ₚ List.filter (fun r => eqs (g_session_id r) sid) (gps_track self).
Proof. unfold get_gps_track. apply merge_sort_Permutation. Qed.

Lemma in_gps_track (self : @Database real) (sid : string) r :
  In r (get_gps_track self sid) <-> In r (gps_track self) /\ g_session_id r = sid.
Proof.
  rewrite <- !list_elem_of_In, (gps_track_rows self sid), !list_elem_of_In.
  rewrite List.filter_In. unfold eqs. now rewrite String.eqb_eq.
Qed.

(** X25: [get_gps_track] answers the rows of the session, each once and
    no other, in the order of the texts of their timestamps; there are as
    many as [get_session_stats] counts; and a point that
    [insert_gps_point] has stored is among them, with the time of the call
    as its timestamp when none was given, and with the coordinates of the
    call, a NaN as [NULL]. *)
Lemma gps_track_is_sorted_and_complete (self : @Database real) (sid : string) :
  StronglySorted by_timestamp (get_gps_track self sid)
  /\ get_gps_track self sid
     ≡ₚ List.filter (fun r => eqs (g_session_id r) sid) (gps_track self)
  /\ (forall r, In r (get_gps_track self sid)
                <-> In r (gps_track self) /\ g_session_id r = sid)
  /\ Z.of_nat (List.length (get_gps_track self sid))
     = stat_gps_points (get_session_stats self sid)
  /\ (forall lat lon alt speed track quality hdop sats ts now self',
        insert_gps_point self sid lat lon alt speed track quality hdop sats ts now
        = Ok self' ->
        exists r,
          In r (get_gps_track self' sid)
          /\ g_timestamp r = Py.isoformat (Py.or_now ts now)
          /\ g_latitude r = bound lat /\ g_longitude r = bound lon
          /\ g_altitude r = bound alt
          /\ g_id r = seq_gps self + 1).
Proof.
  split; [apply StronglySorted_merge_sort; apply _|].
  split; [apply gps_track_rows|]. split; [apply in_gps_track|]. split.
  - rewrite (Permutation_length (gps_track_rows self sid)). reflexivity.
  - intros lat lon alt speed track quality hdop sats ts now self'.
    unfold insert_gps_point.
    destruct (fits [Some quality; Some sats]); [|discriminate].
    destruct (session_exists self sid); [|discriminate].
    intros [= <-]. eexists. split.
    + apply in_gps_track. cbn [with_gps gps_track]. split.
      * apply List.in_or_app. right. left. reflexivity.
      * reflexivity.
    + cbn. auto.
Qed.

(** *** Coordinates from the flight log *)






End Operations.

(** *** The further operations on the scenarios *)

Lemma create_session_round_trip_witness :
  exists row self',
    create_session (@initialize_schema Q) (scan_session session_name noon)
    = Ok (1, self')
    /\ get_session self' session_name = Some row
    /\ s_status row = "starting"
    /\ create_session self' (scan_session session_name noon) = Raise SqliteError.
Proof.
  destruct (proj2 (create_session_round_trip (@initialize_schema Q)
                     (scan_session session_name noon)) eq_refl)
    as (row & self' & Hc & _ & Hg & _ & _ & Hst & _).
  exists row, self'. split; [exact Hc|]. split; [exact Hg|]. split; [exact Hst|].
  apply (proj1 (create_session_round_trip self' (scan_session session_name noon))).
  rewrite get_session_exists. now rewrite Hg.
Defined.


Lemma observed_once_tables_ok : tables_ok observed_once.
Proof.
  repeat split; cbn;
    try (repeat constructor; now intros []);
    try (intros r [<-|[]]; cbn; lia); intros r [].
Qed.

Lemma observed_once_references_ok : references_ok observed_once.
Proof.
  repeat split.
  - intros r [<-|[]]. reflexivity.
  - intros r [].
  - intros r [].
Qed.

Lemma upserts_keep_one_row_per_key_witness :
  exists self',
    insert_wifi_device observed_once second_observation 3 1766664000
    = Ok (true, self')
    /\ tables_ok self'.
Proof.
  eexists. split; [reflexivity|].
  exact (proj1 (proj2 (@upserts_keep_one_row_per_key Q _)) observed_once
           second_observation 3 1766664000 true _ eq_refl observed_once_tables_ok).
Defined.

Lemma child_rows_reference_a_session_witness :
  exists self',
    insert_gps_point observed_once session_name
      (Some (515074 # 10000)%Q) (Some (-1278 # 10000)%Q) (Some (30 # 1)%Q)
      None None 0 None 0 None noon
    = Ok self'
    /\ references_ok self'
    /\ session_exists observed_once session_name = true.
Proof.
  eexists. split; [reflexivity|].
  exact (proj1 (proj2 (proj2 (proj2 (proj2 (proj2 (proj2
            (@child_rows_reference_a_session Q _)))))))
           observed_once session_name
           (Some (515074 # 10000)%Q) (Some (-1278 # 10000)%Q) (Some (30 # 1)%Q)
           None None 0 None 0 None noon _ eq_refl observed_once_references_ok).
Defined.

Lemma failed_insert_is_buffered_witness :
  exists l self',
    wifi_to_dict early_device = Ok l
    /\ insert_wifi_device initialize_schema early_device 3 1766664000
       = Ok (false, self')
    /\ file_lines buffer_name (backup_dir self') = [l].
Proof.
  destruct (proj1 (@failed_insert_is_buffered Q _) initialize_schema early_device 3
              1766664000 UNKNOWN noon noon eq_refl eq_refl eq_refl)
    as (l & self' & Hl & Hi & _ & Hlines & _).
  - right. repeat split; reflexivity.
  - exists l, self'. split; [exact Hl|]. split; [exact Hi|]. exact Hlines.
Defined.

(** The device that the drain builds from the buffered line. *)
Definition read_back : @WiFiDevice Q :=
  match early_line with
  | WifiObject d => d
  | _ => early_device
  end.

Lemma attribute_error_escapes_the_insert_witness :
  insert_wifi_device recovered read_back 3 1766664000 = Raise AttributeError
  /\ insert_wifi_device recovered read_back 0 1766664000 = Raise AttributeError.
Proof.
  split.
  - apply (proj1 (@attribute_error_escapes_the_insert Q _) recovered read_back 3
             1766664000 "2025-12-25T12:00:00"). reflexivity.
  - apply (proj1 (@attribute_error_escapes_the_insert Q _) recovered read_back 0
             1766664000 "2025-12-25T12:00:00"). reflexivity.
Defined.

Lemma upserts_keep_the_known_status_witness :
  exists self' r',
    insert_all (update_wifi_known_status observed_once 1 true (Some "Office AP"))
      [second_observation; first_observation]
    = Ok self'
    /\ In r' (wifi_devices self') /\ w_id r' = 1
    /\ w_is_known r' = true /\ w_identified_as r' = Some "Office AP".
Proof.
  destruct (insert_all (update_wifi_known_status observed_once 1 true (Some "Office AP"))
              [second_observation; first_observation]) as [self'|e] eqn:E.
  - destruct (proj2 (@upserts_keep_the_known_status Q _) observed_once 1 true
                (Some "Office AP") [second_observation; first_observation]
                self' first_row (or_introl eq_refl) eq_refl E)
      as (r' & H).
    exists self', r'. split; [reflexivity|exact H].
  - cbv in E. discriminate E.
Defined.

Lemma gps_track_is_sorted_and_complete_witness :
  exists self' r,
    insert_gps_point observed_once session_name
      (Some (515074 # 10000)%Q) (Some (-1278 # 10000)%Q) (Some (30 # 1)%Q)
      None None 0 None 0 None noon
    = Ok self'
    /\ In r (get_gps_track self' session_name)
    /\ g_timestamp r = "2025-12-25T12:00:00"
    /\ g_id r = 1.
Proof.
  eexists.
  destruct (proj2 (proj2 (proj2 (proj2
              (gps_track_is_sorted_and_complete observed_once session_name))))
              (Some (515074 # 10000)%Q) (Some (-1278 # 10000)%Q) (Some (30 # 1)%Q)
              None None 0 None 0 None noon _ eq_refl)
    as (r & Hin & Ht & _ & _ & _ & Hid).
  exists r. split; [reflexivity|]. split; [exact Hin|]. split; [exact Ht|exact Hid].
Defined.


End Store.

(* ===================================================================== *)

(** * [src/fingerprinting/engine.py] *)

Module Engine.

Section Processing.

(** The floats of the GPS logger, with [x != 0] on them; the callbacks of
    the engine and of the logger; and the database object, of which the
    engine calls the two insert methods only. *)
Context {float : Type} (zero : float) (nonzero : float -> bool).
Context {subscriber gps_subscriber : Type}.
Context {db : Type}.

(** ** Construction of the device objects *)

(** The values the engine passes as keyword arguments. *)
Inductive value : Type :=
| VNone
| VStr (s : string)
| VInt (n : Z)
| VFloat (x : float)
| VBool (b : bool)
| VTime (t : Py.datetime)
| VEnum (name : string).

(** An object of a dataclass, as the attributes its constructor call
    names; the others have the defaults of the class. *)
Definition instance : Type := list (string * value).

(** The fields of a [@dataclass], in the order of the class body, and the
    ones without a default. *)
Record dataclass : Type := {
  fields : list string;
  required : list string }.

Definition WiFiDevice : dataclass :=
  {| fields :=
       [ "device_key"; "bssid"; "essid"; "device_type"; "channel"; "frequency";
         "signal_dbm"; "encryption"; "manufacturer"; "packets_total";
         "first_seen"; "last_seen"; "gps_lat"; "gps_lon"; "gps_alt"; "gps_valid";
         "fingerprint_hash"; "fingerprint_data"; "is_known"; "identified_as";
         "session_id"; "is_duplicate"; "duplicate_of_id"; "seen_by_nodes" ];
     required := [ "device_key"; "bssid" ] |}.

Definition BTDevice : dataclass :=
  {| fields :=
       [ "device_key"; "mac_address"; "device_name"; "device_type";
         "device_class"; "rssi"; "manufacturer"; "service_uuids";
         "first_seen"; "last_seen"; "gps_lat"; "gps_lon"; "gps_alt"; "gps_valid";
         "fingerprint_hash"; "fingerprint_data"; "is_known"; "identified_as";
         "session_id"; "is_duplicate"; "duplicate_of_id"; "seen_by_nodes" ];
     required := [ "device_key"; "mac_address" ] |}.

(** The generated [__init__], called with keyword arguments only: a
    keyword that is no field and a field without default that is not
    given are a [TypeError]. *)
Definition construct (c : dataclass) (keywords : instance) : Store.result instance :=
  if forallb (fun kv => existsb (String.eqb (fst kv)) (fields c)) keywords
  then
    if forallb (fun f => existsb (fun kv => String.eqb (fst kv) f) keywords)
         (required c)
    then Store.Ok keywords
    else Store.Raise Store.TypeError
  else Store.Raise Store.TypeError.

(** [gps_pos[i] if gps_pos else None] *)
Definition coordinate (gps_pos : option (float * float * float))
    (pick : float * float * float -> float) : value :=
  match gps_pos with
  | Some p => VFloat (pick p)
  | None => VNone
  end.

(** [sig_data.get("capabilities", {}).get("manufacturer", "")]: the
    capabilities of a Wi-Fi signature have no such key. *)
Definition manufacturer_of (sig_data : Wifi.SignatureData) : string := "".

(** The store after the call and the lines logged.  The [try] covers the
    construction and the insert; [insert_wifi_device] is the method of the
    database object. *)
Definition _store_wifi_device (insert_wifi_device : db -> instance -> Store.result db)
    (database : db) (mac ssid : string) (rssi channel : Z) (fingerprint : string)
    (sig_data : Wifi.SignatureData) (gps_pos : option (float * float * float))
    (gps_valid : bool) (timestamp : Py.datetime) : db * list string :=
  match
    Store.bind
      (construct WiFiDevice
         [ ("mac", VStr (Py.upper mac));
           ("ssid", VStr ssid);
           ("rssi", VInt rssi);
           ("channel", VInt channel);
           ("first_seen", VTime timestamp);
           ("last_seen", VTime timestamp);
           ("latitude", coordinate gps_pos (fun p => fst (fst p)));
           ("longitude", coordinate gps_pos (fun p => snd (fst p)));
           ("altitude", coordinate gps_pos snd);
           ("gps_valid", VBool gps_valid);
           ("packets", VInt 1);
           ("manufacturer", VStr (manufacturer_of sig_data));
           ("fingerprint_hash", VStr fingerprint);
           ("is_client", VBool (Py.truthy_str ssid)) ])
      (insert_wifi_device database)
  with
  | Store.Ok database' => (database', [])
  | Store.Raise _ => (database, ["Failed to store WiFi device"])
  end.

(** [type_map.get(bt_type, BTDeviceType.CLASSIC)] *)
Definition type_map (bt_type : string) : string :=
  if String.eqb bt_type "classic" then "CLASSIC"
  else if String.eqb bt_type "ble" then "BLE"
  else if String.eqb bt_type "dual" then "DUAL"
  else "CLASSIC".

(** [manufacturer] is what
    [sig_data.get("capabilities", {}).get("manufacturer_id", "")] gives. *)
Definition _store_bt_device (insert_bt_device : db -> instance -> Store.result db)
    (database : db) (mac : string) (name : option string) (rssi : Z)
    (bt_type : string) (device_class : Z) (fingerprint : string)
    (manufacturer : value) (gps_pos : option (float * float * float))
    (gps_valid : bool) (timestamp : Py.datetime) : db * list string :=
  match
    Store.bind
      (construct BTDevice
         [ ("mac", VStr (Py.upper mac));
           ("name", VStr (match name with
                          | Some n => if Py.truthy_str n then n else ""
                          | None => ""
                          end));
           ("rssi", VInt rssi);
           ("bt_type", VEnum (type_map bt_type));
           ("device_class", VInt device_class);
           ("first_seen", VTime timestamp);
           ("last_seen", VTime timestamp);
           ("latitude", coordinate gps_pos (fun p => fst (fst p)));
           ("longitude", coordinate gps_pos (fun p => snd (fst p)));
           ("altitude", coordinate gps_pos snd);
           ("gps_valid", VBool gps_valid);
           ("manufacturer", manufacturer);
           ("fingerprint_hash", VStr fingerprint) ])
      (insert_bt_device database)
  with
  | Store.Ok database' => (database', [])
  | Store.Raise _ => (database, ["Failed to store BT device"])
  end.

(** ** The engine *)

(** The attributes of a [FingerprintEngine] that the Wi-Fi path reads or
    writes; the two counters are entries of [_stats]. *)
Record FingerprintEngine : Type := {
  database : option db;
  gps_logger : option (@Gps.GPSLogger float gps_subscriber);
  auto_store : bool;
  wifi : Wifi.WiFiFingerprinter;
  _callbacks : list subscriber;
  wifi_fingerprints : Z;
  randomized_macs_detected : Z }.

(** A call of a registered callback: the device type, the fingerprint and
    [sig_data or {}], where [None] is the empty dictionary. *)
Definition call : Type :=
  subscriber * (string * string * option Wifi.SignatureData).

(** What a call of a process method leaves: the value returned, the
    engine, the calls of the callbacks in order and the lines logged. *)
Record outcome (A : Type) : Type := {
  returned : A;
  engine : FingerprintEngine;
  calls : list call;
  logged : list string }.

Arguments returned {A} _.
Arguments engine {A} _.
Arguments calls {A} _.
Arguments logged {A} _.

(** The position tag: [gps_pos] and [gps_valid]. *)
Definition position_tag (self : FingerprintEngine) (now : Py.datetime)
  : option (float * float * float) * bool :=
  match gps_logger self with
  | Some logger =>
      let '(lat, lon, alt, _) := Gps.get_current_position zero logger now in
      if nonzero lat || nonzero lon
      then (Some (lat, lon, alt), Gps.has_fix logger)
      else (None, false)
  | None => (None, false)
  end.

(** [now] is [datetime.utcnow()]. *)
Definition process_wifi_probe (insert_wifi_device : db -> instance -> Store.result db)
    (self : FingerprintEngine) (mac ssid : string) (rssi : Z)
    (supported_rates : option (list Z))
    (ht_capabilities vht_capabilities : option string)
    (vendor_ies : option (list Wifi.VendorIE))
    (timestamp : option Py.datetime) (channel : Z) (now : Py.datetime)
  : outcome string :=
  let timestamp := Py.or_now timestamp now in
  let '(gps_pos, gps_valid) := position_tag self now in
  let '(fingerprint, wifi') :=
    Wifi.fingerprint_from_probe (wifi self) mac ssid (Py.or_empty supported_rates)
      ht_capabilities vht_capabilities vendor_ies (Some timestamp) now in
  let randomized :=
    if Wifi.is_likely_randomized_mac mac
    then randomized_macs_detected self + 1
    else randomized_macs_detected self in
  let sig_data := Wifi.get_signature_data wifi' mac true in
  let stored :=
    match auto_store self, database self, sig_data with
    | true, Some database, Some data =>
        let stored :=
          _store_wifi_device insert_wifi_device database mac ssid rssi channel
            fingerprint data gps_pos gps_valid timestamp in
        (Some (fst stored), snd stored)
    | _, _, _ => (database self, [])
    end in
  {| returned := fingerprint;
     engine :=
       {| database := fst stored; gps_logger := gps_logger self;
          auto_store := auto_store self; wifi := wifi';
          _callbacks := _callbacks self;
          wifi_fingerprints := wifi_fingerprints self + 1;
          randomized_macs_detected := randomized |};
     calls := List.map (fun callback => (callback, ("wifi", fingerprint, sig_data)))
                (_callbacks self);
     logged := snd stored |}.

(** ** Devices from Kismet *)

(** [datetime.fromtimestamp], which reads the time zone of the host. *)
Context (fromtimestamp : Z -> Py.datetime).

Definition datetime_of (s : Kismet.seen) : Py.datetime :=
  match s with
  | Kismet.FromTimestamp t => fromtimestamp t
  | Kismet.UtcNow now => now
  end.

(** [process_bluetooth_device] with the arguments [process_kismet_device]
    gives it: the MAC, the name, the RSSI, [is_ble], [is_classic] and the
    timestamp. *)
Context (process_bluetooth_device :
           FingerprintEngine -> string -> option string -> Z -> bool -> bool ->
           Py.datetime -> Py.datetime -> outcome string).

(** [x == s] for an [Optional[str]] *)
Definition is_str (o : option string) (s : string) : bool :=
  match o with Some x => String.eqb x s | None => false end.

(** [device.ssid or ""] *)
Definition ssid_or_empty (device : Kismet.KismetDevice) : string :=
  match Kismet.ssid device with
  | Some s => if Py.truthy_str s then s else ""
  | None => ""
  end.

Definition process_kismet_device
    (insert_wifi_device : db -> instance -> Store.result db)
    (self : FingerprintEngine) (device : Kismet.KismetDevice) (now : Py.datetime)
  : outcome (option string) :=
  if String.eqb (Kismet.device_type device) "wifi" then
    let r := process_wifi_probe insert_wifi_device self (Kismet.mac device)
               (ssid_or_empty device) (Kismet.rssi device) None None None None
               (Some (datetime_of (Kismet.last_seen device)))
               (Kismet.channel device) now in
    {| returned := Some (returned r); engine := engine r; calls := calls r;
       logged := logged r |}
  else if String.eqb (Kismet.device_type device) "bluetooth" then
    let r := process_bluetooth_device self (Kismet.mac device)
               (Kismet.bt_name device) (Kismet.rssi device)
               (is_str (Kismet.bt_type device) "ble")
               (is_str (Kismet.bt_type device) "classic"
                || is_str (Kismet.bt_type device) "dual")
               (datetime_of (Kismet.last_seen device)) now in
    {| returned := Some (returned r); engine := engine r; calls := calls r;
       logged := logged r |}
  else
    {| returned := None; engine := self; calls := []; logged := [] |}.

(** ** Properties *)

Lemma store_wifi_device_fails insert database mac ssid rssi channel fingerprint
    sig_data gps_pos gps_valid timestamp :
  _store_wifi_device insert database mac ssid rssi channel fingerprint sig_data
    gps_pos gps_valid timestamp
  = (database, ["Failed to store WiFi device"]).
Proof. reflexivity. Qed.

(** After [fingerprint_from_probe] the signature of the MAC exists and
    carries the fingerprint returned. *)
Lemma signature_after_probe self mac ssid rates ht vht ies ts now :
  exists data,
    Wifi.get_signature_data
      (snd (Wifi.fingerprint_from_probe self mac ssid rates ht vht ies ts now))
      mac true = Some data
    /\ Wifi.sig_fingerprint_hash data
       = fst (Wifi.fingerprint_from_probe self mac ssid rates ht vht ies ts now)
    /\ Wifi.sig_inferred_device_type data
       = Some (Wifi.identify_device_type
                 (Wifi.extract_capabilities (Some rates) None ht vht ies)).
Proof.
  unfold Wifi.fingerprint_from_probe, Wifi.get_signature_data.
  cbn [fst snd Wifi._probe_profiles Wifi._fingerprint_cache].
  rewrite !lookup_insert_eq. unfold Wifi.compute_fingerprint at 1.
  rewrite Wifi.hexdigest_truthy. cbn [negb].
  eexists. split; [reflexivity|]. split; reflexivity.
Qed.

(** The parts of the outcome that the store plays no part in. *)
Lemma probe_outcome insert self mac ssid rssi rates ht vht ies timestamp channel now :
  let r := process_wifi_probe insert self mac ssid rssi rates ht vht ies
             timestamp channel now in
  let probed := Wifi.fingerprint_from_probe (wifi self) mac ssid
                  (Py.or_empty rates) ht vht ies
                  (Some (Py.or_now timestamp now)) now in
  returned r = fst probed
  /\ wifi (engine r) = snd probed
  /\ wifi_fingerprints (engine r) = wifi_fingerprints self + 1
  /\ calls r
     = List.map (fun callback =>
                   (callback,
                    ("wifi", fst probed,
                     Wifi.get_signature_data (snd probed) mac true)))
         (_callbacks self).
Proof.
  cbv zeta. unfold process_wifi_probe.
  destruct (position_tag self now) as [gps_pos gps_valid].
  destruct (Wifi.fingerprint_from_probe (wifi self) mac ssid (Py.or_empty rates) ht
              vht ies (Some (Py.or_now timestamp now)) now) as [fingerprint wifi'].
  repeat split.
Qed.

(** X27: the engine stores nothing.  The constructor calls of
    [_store_wifi_device] and [_store_bt_device] name [mac] and other
    keywords that the dataclasses do not have, so they raise [TypeError],
    the handler logs it and the insert method of the database is not
    reached, whatever that method does.  A probe processed with
    [auto_store] and a database therefore leaves the database as it was
    and one line in the log, while the fingerprint is computed, cached,
    counted and handed to the callbacks as without a database. *)
Lemma auto_store_stores_nothing :
  (forall insert database mac ssid rssi channel fingerprint sig_data gps_pos
          gps_valid timestamp,
      _store_wifi_device insert database mac ssid rssi channel fingerprint
        sig_data gps_pos gps_valid timestamp
      = (database, ["Failed to store WiFi device"]))
  /\ (forall insert database mac name rssi bt_type device_class fingerprint
             manufacturer gps_pos gps_valid timestamp,
        _store_bt_device insert database mac name rssi bt_type device_class
          fingerprint manufacturer gps_pos gps_valid timestamp
        = (database, ["Failed to store BT device"]))
  /\ (forall insert self mac ssid rssi rates ht vht ies timestamp channel now,
        let r := process_wifi_probe insert self mac ssid rssi rates ht vht ies
                   timestamp channel now in
        let probed := Wifi.fingerprint_from_probe (wifi self) mac ssid
                        (Py.or_empty rates) ht vht ies
                        (Some (Py.or_now timestamp now)) now in
        database (engine r) = database self
        /\ logged r
           = match auto_store self, database self with
             | true, Some _ => ["Failed to store WiFi device"]
             | _, _ => []
             end
        /\ returned r = fst probed
        /\ wifi (engine r) = snd probed
        /\ wifi_fingerprints (engine r) = wifi_fingerprints self + 1
        /\ calls r
           = List.map (fun callback =>
                         (callback,
                          ("wifi", fst probed,
                           Wifi.get_signature_data (snd probed) mac true)))
               (_callbacks self)).
Proof.
  split; [reflexivity|]. split; [reflexivity|].
  intros insert self mac ssid rssi rates ht vht ies timestamp channel now.
  cbv zeta.
  assert (Hdb : let r := process_wifi_probe insert self mac ssid rssi rates ht
                           vht ies timestamp channel now in
            database (engine r) = database self
            /\ logged r
               = match auto_store self, database self with
                 | true, Some _ => ["Failed to store WiFi device"]
                 | _, _ => []
                 end).
  { cbv zeta. unfold process_wifi_probe.
    destruct (position_tag self now) as [gps_pos gps_valid].
    destruct (signature_after_probe (wifi self) mac ssid (Py.or_empty rates) ht vht
                ies (Some (Py.or_now timestamp now)) now) as (data & Hsig & _).
    destruct (Wifi.fingerprint_from_probe (wifi self) mac ssid (Py.or_empty rates)
                ht vht ies (Some (Py.or_now timestamp now)) now)
      as [fingerprint wifi'].
    cbn [fst snd] in Hsig. rewrite Hsig.
    cbn [engine logged database].
    destruct (auto_store self), (database self) as [d|];
      rewrite ?store_wifi_device_fails; split; reflexivity. }
  split; [apply Hdb|]. split; [apply Hdb|]. apply probe_outcome.
Qed.

(** The capabilities of a probe without rates and elements. *)
Lemma bare_capabilities :
  Wifi.extract_capabilities (Some []) None None None None
  = Wifi.new_capabilities [] [] [].
Proof. reflexivity. Qed.

(** The SSIDs of the profile of a MAC, none when it has no profile. *)
Definition known_ssids (self : FingerprintEngine) (mac : string) : gset string :=
  match Wifi._probe_profiles (wifi self) !! Py.upper mac with
  | Some p => Wifi.probed_ssids p
  | None => ∅
  end.

Lemma kismet_wifi_outcome insert self device now :
  Kismet.device_type device = "wifi" ->
  let r := process_kismet_device insert self device now in
  let p := process_wifi_probe insert self (Kismet.mac device) (ssid_or_empty device)
             (Kismet.rssi device) None None None None
             (Some (datetime_of (Kismet.last_seen device)))
             (Kismet.channel device) now in
  returned r = Some (returned p) /\ engine r = engine p
  /\ calls r = calls p /\ logged r = logged p.
Proof.
  intros Ht. cbv zeta. unfold process_kismet_device. rewrite Ht.
  cbn [String.eqb Ascii.eqb Bool.eqb]. repeat split.
Qed.

Lemma kismet_wifi_fingerprint insert self device now :
  Kismet.device_type device = "wifi" ->
  returned (process_kismet_device insert self device now)
  = Some (Wifi.compute_fingerprint (Wifi.new_capabilities [] [] [])
            (Some (elements
                     (if Py.truthy_str (ssid_or_empty device)
                      then {[ ssid_or_empty device ]} ∪ known_ssids self (Kismet.mac device)
                      else known_ssids self (Kismet.mac device))))).
Proof.
  intros Ht.
  destruct (kismet_wifi_outcome insert self device now Ht) as (-> & _).
  destruct (probe_outcome insert self (Kismet.mac device) (ssid_or_empty device)
              (Kismet.rssi device) None None None None
              (Some (datetime_of (Kismet.last_seen device)))
              (Kismet.channel device) now) as (-> & _).
  unfold Wifi.fingerprint_from_probe. cbn [Py.or_empty fst]. rewrite bare_capabilities.
  unfold known_ssids.
  destruct (Wifi._probe_profiles (wifi self) !! Py.upper (Kismet.mac device));
    cbn [Wifi.probed_ssids Wifi.set_capabilities Wifi.add_probe Wifi.new_profile];
    destruct (Py.truthy_str (ssid_or_empty device)); reflexivity.
Qed.

(** X28: the fingerprint of a Wi-Fi device that comes from Kismet is
    computed from no rates and no capabilities: it is the digest of the
    default capabilities and the SSIDs seen so far for the MAC, the MAC
    itself, the signal, the channel and the time playing no part.  So two
    devices with the same SSID and the same SSIDs seen before, none for
    instance, get the same fingerprint; and the signature of each carries
    that fingerprint and infers the device type "iot". *)
Lemma kismet_wifi_devices_share_fingerprints insert self device now :
  Kismet.device_type device = "wifi" ->
  let r := process_kismet_device insert self device now in
  returned r
  = Some (Wifi.compute_fingerprint (Wifi.new_capabilities [] [] [])
            (Some (elements
                     (if Py.truthy_str (ssid_or_empty device)
                      then {[ ssid_or_empty device ]} ∪ known_ssids self (Kismet.mac device)
                      else known_ssids self (Kismet.mac device)))))
  /\ (exists data,
        Wifi.get_signature_data (wifi (engine r)) (Kismet.mac device) true = Some data
        /\ Some (Wifi.sig_fingerprint_hash data) = returned r
        /\ Wifi.sig_inferred_device_type data = Some "iot")
  /\ (forall insert' self' device' now',
        Kismet.device_type device' = "wifi" ->
        ssid_or_empty device' = ssid_or_empty device ->
        known_ssids self' (Kismet.mac device') = known_ssids self (Kismet.mac device) ->
        returned (process_kismet_device insert' self' device' now') = returned r).
Proof.
  intros Ht. cbv zeta. split; [now apply kismet_wifi_fingerprint|]. split.
  - destruct (kismet_wifi_outcome insert self device now Ht) as (-> & -> & _).
    destruct (probe_outcome insert self (Kismet.mac device) (ssid_or_empty device)
                (Kismet.rssi device) None None None None
                (Some (datetime_of (Kismet.last_seen device)))
                (Kismet.channel device) now) as (-> & -> & _).
    destruct (signature_after_probe (wifi self) (Kismet.mac device)
                (ssid_or_empty device) (Py.or_empty None) None None None
                (Some (Py.or_now (Some (datetime_of (Kismet.last_seen device))) now))
                now) as (data & Hsig & Hfp & Hty).
    exists data. split; [exact Hsig|]. split; [now rewrite Hfp|].
    rewrite Hty. reflexivity.
  - intros insert' self' device' now' Ht' Hs Hk.
    rewrite (kismet_wifi_fingerprint insert' self' device' now' Ht').
    rewrite (kismet_wifi_fingerprint insert self device now Ht).
    now rewrite Hs, Hk.
Qed.

End Processing.

Arguments returned {float subscriber gps_subscriber db A} _.
Arguments engine {float subscriber gps_subscriber db A} _.
Arguments calls {float subscriber gps_subscriber db A} _.
Arguments logged {float subscriber gps_subscriber db A} _.

(** ** An engine on the store of the upsert scenario *)

(** [x != 0] on the rationals. *)
Definition nonzero (x : Q) : bool := negb (Qeq_bool x 0).

(** [FingerprintEngine(database=..., auto_store=True)] with one callback
    registered. *)
Definition idle_engine : @FingerprintEngine Q unit unit (@Store.Database Q) :=
  {| database := Some Store.observed_once; gps_logger := None;
     auto_store := true; wifi := Wifi.new_fingerprinter; _callbacks := [tt];
     wifi_fingerprints := 0; randomized_macs_detected := 0 |}.

(** An insert method that would empty the store, were it called. *)
Definition wiping_insert (database : @Store.Database Q) (device : @instance Q)
  : Store.result (@Store.Database Q) :=
  Store.Ok Store.initialize_schema.

Lemma auto_store_stores_nothing_witness :
  let r := process_wifi_probe 0%Q nonzero wiping_insert idle_engine
             "da:a1:19:00:00:01" "Guest" (-60) (Some [2; 4; 11; 22]) None None
             None None 6 Store.noon in
  database (engine r) = Some Store.observed_once
  /\ logged r = ["Failed to store WiFi device"].
Proof.
  destruct (proj2 (proj2 (@auto_store_stores_nothing Q 0%Q nonzero unit unit
                            (@Store.Database Q)))
              wiping_insert idle_engine "da:a1:19:00:00:01" "Guest" (-60)
              (Some [2; 4; 11; 22]) None None None None 6 Store.noon)
    as (Hdb & Hlog & _).
  split; [exact Hdb|exact Hlog].
Defined.

(** A record of type "Wi-Fi Device" without a [dot11.device] entry. *)
Definition heard (address : string) : Kismet.RawDevice :=
  {| Kismet.base_macaddr := Some address;
     Kismet.base_type := Some "Wi-Fi Device";
     Kismet.base_first_time := Some 1735120000;
     Kismet.base_last_time := Some 1735121000;
     Kismet.base_channel := Some 6; Kismet.base_frequency := None;
     Kismet.base_last_signal := Some (-60); Kismet.base_manuf := None;
     Kismet.base_packets_total := Some 10; Kismet.base_key := None;
     Kismet.base_name := None; Kismet.dot11_device := None |}.

Definition utc (t : Z) : Py.datetime := Py.Datetime "2024-12-25T10:03:20".

Definition no_bluetooth (self : @FingerprintEngine Q unit unit (@Store.Database Q))
    (mac : string) (name : option string) (rssi : Z) (is_ble is_classic : bool)
    (timestamp now : Py.datetime) : outcome string :=
  {| returned := ""; engine := self; calls := []; logged := [] |}.

(** Two records as the poller hands them on, on a platform that converts
    their timestamps. *)
Lemma kismet_wifi_devices_share_fingerprints_witness :
  let heard_from address :=
    Kismet._parse_device Kismet.unix_years (heard address) Store.noon in
  let processed device :=
    returned (process_kismet_device 0%Q nonzero utc no_bluetooth wiping_insert
                idle_engine device Store.noon) in
  heard_from "AA:BB:CC:DD:EE:01" <> None
  /\ option_map processed (heard_from "AA:BB:CC:DD:EE:01")
     = option_map processed (heard_from "11:22:33:44:55:66").
Proof.
  cbv zeta. split; [discriminate|].
  repeat match goal with
  | |- context [Kismet._parse_device ?f ?raw ?now] =>
      let d := eval vm_compute in (Kismet._parse_device f raw now) in
      change (Kismet._parse_device f raw now) with d
  end.
  cbn [option_map]. apply (f_equal Some).
  match goal with
  | |- _ = returned (process_kismet_device _ _ _ _ _ _ ?d _) =>
      apply (proj2 (proj2 (kismet_wifi_devices_share_fingerprints 0%Q nonzero utc
                             no_bluetooth wiping_insert idle_engine d
                             Store.noon eq_refl)))
  end.
  - reflexivity.
  - reflexivity.
  - reflexivity.
Defined.

End Engine.

(* ===================================================================== *)

(** * [src/scan_orchestrator.py] *)

Module Orchestrator.

Section Updates.

Context {float : Type} {float_nan : Store.Float float}.

(** What the call of [insert_gps_point] binds to the columns of a row:
    a float, or the [datetime] it passes where a float is expected, which
    the database adapts to text. *)
Inductive cell : Type :=
| Number (x : float)
| Moment (t : Py.datetime).

(** A text is no NaN. *)
#[global] Instance cell_nan : Store.Float cell :=
  fun c => match c with Number x => Store.isnan x | Moment _ => false end.






End Updates.




End Orchestrator.
